(** * Order-upload pipeline of the sweeping application (backend/main.py)

    A shallow embedding of the background upload pipeline
    ([process_upload_background]), the upload endpoint
    ([upload_file_background], [validate_upload_request]), the interface
    reconciler ([check_interface_status]) and the orderlist writer
    ([generate_orderlist_for_not_interfaced], [verify_and_restore_orderlist]).

    Conventions of the embedding
    - Python [str] values are Rocq strings read as byte strings; the regular
      expression class [\d], [str.isdigit] and [str.strip] are taken on the
      ASCII range.
    - A pandas cell is [option string]: [None] is NaN / a missing value,
      [Some s] is a present value whose [astype(str)] form is [s].
    - SQLAlchemy is modelled by a committed database, the open session's
      view of it, and explicit [commit] / [rollback] / [close].
    - Python exceptions are values of [exn]; code that can raise returns
      [Result]. Logging ([add_upload_log], [print]) is not threaded through
      the pipeline; the log store is modelled on its own. *)

From stdpp Require Import base list strings gmap pretty.
From Stdlib Require Import ZArith Lia Ascii.

Local Open Scope string_scope.
Local Open Scope list_scope.

(** ** Python exceptions and results *)

Inductive exn : Type :=
| HTTPException (status_code : nat) (detail : string)
| Exception (msg : string)
| KeyError (key : option string)
| TypeError (msg : string).

(** [str(e)]: Starlette prints an HTTPException as "status: detail";
    [KeyError] prints the repr of its key. *)
Definition str_exn (e : exn) : string :=
  match e with
  | HTTPException c d => pretty c +:+ ": " +:+ d
  | Exception m => m
  | KeyError None => "None"
  | KeyError (Some k) => "'" +:+ k +:+ "'"
  | TypeError m => m
  end.

Inductive Result (A : Type) : Type :=
| Ok (a : A)
| Raise (e : exn).
Arguments Ok {A} a.
Arguments Raise {A} e.

Definition rbind {A B} (r : Result A) (f : A → Result B) : Result B :=
  match r with
  | Ok a => f a
  | Raise e => Raise e
  end.

(** ** Python string helpers *)

Module Py.

Definition is_upper (c : ascii) : bool :=
  let n := nat_of_ascii c in (65 <=? n)%nat && (n <=? 90)%nat.

Definition is_digit (c : ascii) : bool :=
  let n := nat_of_ascii c in (48 <=? n)%nat && (n <=? 57)%nat.

(** ASCII whitespace of [str.strip()]: TAB..CR, FS..US and SPACE. *)
Definition is_space (c : ascii) : bool :=
  let n := nat_of_ascii c in
  ((9 <=? n)%nat && (n <=? 13)%nat) || ((28 <=? n)%nat && (n <=? 32)%nat).

Definition lower_char (c : ascii) : ascii :=
  if is_upper c then ascii_of_nat (nat_of_ascii c + 32) else c.

Fixpoint lower (s : string) : string :=
  match s with
  | EmptyString => EmptyString
  | String c s' => String (lower_char c) (lower s')
  end.

Definition is_lower (c : ascii) : bool :=
  let n := nat_of_ascii c in (97 <=? n)%nat && (n <=? 122)%nat.

Definition upper_char (c : ascii) : ascii :=
  if is_lower c then ascii_of_nat (nat_of_ascii c - 32) else c.

Fixpoint upper (s : string) : string :=
  match s with
  | EmptyString => EmptyString
  | String c s' => String (upper_char c) (upper s')
  end.

Fixpoint lstrip (s : string) : string :=
  match s with
  | EmptyString => EmptyString
  | String c s' => if is_space c then lstrip s' else s
  end.

Fixpoint rstrip (s : string) : string :=
  match s with
  | EmptyString => EmptyString
  | String c s' =>
      match rstrip s' with
      | EmptyString => if is_space c then EmptyString else String c EmptyString
      | r => String c r
      end
  end.

Definition strip (s : string) : string := rstrip (lstrip s).

(** Truthiness of a string: non-empty. *)
Definition truthy (s : string) : bool :=
  match s with EmptyString => false | _ => true end.

(** [s.endswith(suffix)] *)
Fixpoint endswith (s suffix : string) : bool :=
  String.eqb s suffix ||
  match s with
  | EmptyString => false
  | String _ s' => endswith s' suffix
  end.

(** [sep.join(l)] *)
Fixpoint join (sep : string) (l : list string) : string :=
  match l with
  | [] => ""
  | [x] => x
  | x :: l' => x +:+ sep +:+ join sep l'
  end.

(** Longest prefix of [s] whose characters satisfy [p], and the rest. *)
Fixpoint span (p : ascii → bool) (s : string) : string * string :=
  match s with
  | EmptyString => (EmptyString, EmptyString)
  | String c s' =>
      if p c then let '(a, b) := span p s' in (String c a, b)
      else (EmptyString, s)
  end.

(** [int(s)] for a string of ASCII digits. *)
Definition digit_val (c : ascii) : nat := nat_of_ascii c - 48.

Fixpoint int_of_digits_aux (acc : nat) (s : string) : nat :=
  match s with
  | EmptyString => acc
  | String c s' => int_of_digits_aux (10 * acc + digit_val c) s'
  end.

Definition int_of_digits (s : string) : nat := int_of_digits_aux 0 s.

(** [os.path.basename] (POSIX): what follows the last slash. *)
Fixpoint basename_aux (cur : string) (s : string) : string :=
  match s with
  | EmptyString => cur
  | String c s' =>
      if Ascii.eqb c "/"%char then basename_aux s' s' else basename_aux cur s'
  end.

Definition basename (s : string) : string := basename_aux s s.

(** [x in l] for strings. *)
Definition mem (x : string) (l : list string) : bool :=
  existsb (String.eqb x) l.

End Py.

(** ** Filename parsing *)

Record FilenameInfo : Type := {
  fi_brand : string;
  fi_sales_channel : string;
  fi_date : string;
  fi_batch : string;
  fi_extension : string
}.

(** The extension alternative [(xlsx|csv)] at the head of [s]. *)
Definition match_ext (s : string) : option (string * string) :=
  if String.prefix "xlsx" s then Some ("xlsx", String.substring 4 (String.length s - 4) s)
  else if String.prefix "csv" s then Some ("csv", String.substring 3 (String.length s - 3) s)
  else None.

(** One literal character at the head of [s]. *)
Definition expect (c : ascii) (s : string) : option string :=
  match s with
  | String c' s' => if Ascii.eqb c c' then Some s' else None
  | EmptyString => None
  end.

(** A non-empty greedy run of [p]; the character after a run is never in
    [p], so greedy matching needs no backtracking in the two patterns. *)
Definition run1 (p : ascii → bool) (s : string) : option (string * string) :=
  let '(a, b) := Py.span p s in
  if Py.truthy a then Some (a, b) else None.

(** [re.sub(r'-+\.(xlsx|csv)$', r'.\1', filename)]: the dashes right before
    a final extension are dropped ([$] also matches before one trailing
    newline). *)
Fixpoint strip_trailing_dashes (s : string) : string :=
  match s with
  | EmptyString => EmptyString
  | String c s' =>
      let keep := String c (strip_trailing_dashes s') in
      if Ascii.eqb c "-"%char then
        let '(_, rest) := Py.span (Ascii.eqb "-"%char) s in
        let nl := String "010"%char EmptyString in
        if (String.eqb rest ".xlsx" || String.eqb rest ".csv"
            || String.eqb rest (".xlsx" +:+ nl) || String.eqb rest (".csv" +:+ nl))%bool
        then rest else keep
      else keep
  end.

(** pattern1 = [([A-Z]+)-([A-Z]+)-(\d+)-(\d+)\.(xlsx|csv)], matched with
    [re.match] (anchored at the start only). *)
Definition match_pattern1 (s : string) : option (string * string * string * string * string) :=
  '(brand, s) ← run1 Py.is_upper s;
  s ← expect "-"%char s;
  '(chan, s) ← run1 Py.is_upper s;
  s ← expect "-"%char s;
  '(date, s) ← run1 Py.is_digit s;
  s ← expect "-"%char s;
  '(batch, s) ← run1 Py.is_digit s;
  s ← expect "."%char s;
  '(ext, _) ← match_ext s;
  Some (brand, chan, date, batch, ext).

(** pattern2 = [([A-Z]+)-([A-Z]+)-(\d+)\.(xlsx|csv)] *)
Definition match_pattern2 (s : string) : option (string * string * string * string) :=
  '(brand, s) ← run1 Py.is_upper s;
  s ← expect "-"%char s;
  '(chan, s) ← run1 Py.is_upper s;
  s ← expect "-"%char s;
  '(batch, s) ← run1 Py.is_digit s;
  s ← expect "."%char s;
  '(ext, _) ← match_ext s;
  Some (brand, chan, batch, ext).

Definition parse_filename (filename : string) : Result (option FilenameInfo) :=
  let filename := Py.basename filename in
  let filename := strip_trailing_dashes filename in
  match match_pattern1 filename with
  | Some (brand, sales_channel, date, batch, extension) =>
      if ((20 <? String.length brand)%nat || (20 <? String.length sales_channel)%nat)%bool
      then Raise (HTTPException 400 "Brand or sales channel name too long")
      else if ((Py.int_of_digits date <? 1)%nat || (31 <? Py.int_of_digits date)%nat)%bool
      then Raise (HTTPException 400 "Invalid date format in filename")
      else if (3 <? String.length batch)%nat
      then Raise (HTTPException 400 "Invalid batch format in filename")
      else Ok (Some {| fi_brand := brand; fi_sales_channel := sales_channel;
                       fi_date := date; fi_batch := batch; fi_extension := extension |})
  | None =>
      match match_pattern2 filename with
      | Some (brand, sales_channel, batch, extension) =>
          if ((20 <? String.length brand)%nat || (20 <? String.length sales_channel)%nat)%bool
          then Raise (HTTPException 400 "Brand or sales channel name too long")
          else if (3 <? String.length batch)%nat
          then Raise (HTTPException 400 "Invalid batch format in filename")
          else Ok (Some {| fi_brand := brand; fi_sales_channel := sales_channel;
                           fi_date := "1"; fi_batch := batch; fi_extension := extension |})
      | None => Ok None
      end
  end.

(** ** Marketplace schema registry *)

Record Mapping : Type := {
  m_brand : string;
  m_order_number : option string;
  m_order_status : option string;
  m_order_date : option string;
  m_wh_loc : option string;
  m_awb : option string;
  m_transporter : option string;
  m_sla : option string;
  m_sku_field : option string
}.

Definition lf : string := String "010"%char EmptyString.

Definition MARKETPLACE_MAPPINGS : list (string * Mapping) :=
  [ ("tiktok", {| m_brand := "TIKTOK"; m_order_number := Some "Order ID";
       m_order_status := Some "Order Substatus"; m_order_date := Some "Created Time";
       m_wh_loc := Some "Warehouse Name"; m_awb := Some "Tracking ID";
       m_transporter := Some "Shipping Provider Name"; m_sla := None;
       m_sku_field := Some "Seller SKU" |});
    ("zalora", {| m_brand := "ZALORA"; m_order_number := Some "Order Number";
       m_order_status := Some "Status"; m_order_date := Some "Created at";
       m_wh_loc := None; m_awb := Some "Tracking Code";
       m_transporter := Some "Shipping Provider"; m_sla := None;
       m_sku_field := None |});
    ("shopee", {| m_brand := "SHOPEE"; m_order_number := Some "No. Pesanan";
       m_order_status := Some "Status Pesanan"; m_order_date := Some "Waktu Pesanan Dibuat";
       m_wh_loc := Some "Nama Gudang"; m_awb := Some "No. Resi";
       m_transporter := Some "Opsi Pengiriman";
       m_sla := Some "Pesanan Harus Dikirimkan Sebelum (Menghindari keterlambatan)";
       m_sku_field := Some "Nomor Referensi SKU" |});
    ("lazada", {| m_brand := "LAZADA"; m_order_number := Some "orderNumber";
       m_order_status := Some "status"; m_order_date := Some "createTime";
       m_wh_loc := Some "wareHouse"; m_awb := Some "trackingCode";
       m_transporter := Some "shippingProvider"; m_sla := Some "ttsSla";
       m_sku_field := Some "sellerSku" |});
    ("tokopedia", {| m_brand := "TOKOPEDIA"; m_order_number := Some "Nomor Invoice";
       m_order_status := Some "Status Terakhir"; m_order_date := None;
       m_wh_loc := None; m_awb := Some "No Resi / Kode Booking";
       m_transporter := None; m_sla := None; m_sku_field := None |});
    ("blibli", {| m_brand := "BLIBLI"; m_order_number := Some "No. Order";
       m_order_status := Some "Order Status"; m_order_date := Some "Tanggal Order";
       m_wh_loc := None; m_awb := Some "No. Awb";
       m_transporter := Some "Servis Logistik"; m_sla := None;
       m_sku_field := Some "Merchant SKU" |});
    ("ginee", {| m_brand := "GINEE"; m_order_number := Some "Order ID";
       m_order_status := Some "Status"; m_order_date := Some "Create Time";
       m_wh_loc := None; m_awb := Some "AWB/Tracking code";
       m_transporter := Some "Courier"; m_sla := Some "Ship Before";
       m_sku_field := Some "SKU" |});
    ("desty", {| m_brand := "DESTY";
       m_order_number := Some ("Nomor Pesanan" +:+ lf +:+ "(di Desty)");
       m_order_status := Some "Status Pesanan"; m_order_date := Some "Tanggal Pesanan Dibuat";
       m_wh_loc := Some ("Nama Gudang" +:+ lf +:+ "Master"); m_awb := Some "Nomor AWB/Resi";
       m_transporter := Some "Kurir"; m_sla := Some "Dikirim Sebelum";
       m_sku_field := Some "SKU Marketplace" |});
    ("jubelio", {| m_brand := "JUBELIO"; m_order_number := Some "salesorder_no";
       m_order_status := Some "internal_status"; m_order_date := Some "created_date";
       m_wh_loc := Some "location_name"; m_awb := Some "tracking_no";
       m_transporter := Some "shipper"; m_sla := Some "shipment_type";
       m_sku_field := Some "SKU" |}) ].

(** [dict.get] on an association list with string keys. *)
Fixpoint assoc_get {V} (k : string) (d : list (string * V)) : option V :=
  match d with
  | [] => None
  | (k', v) :: d' => if String.eqb k k' then Some v else assoc_get k d'
  end.

Definition get_marketplace_mapping (sales_channel : string) : option Mapping :=
  if negb (Py.truthy sales_channel) then None
  else assoc_get (Py.strip (Py.lower sales_channel)) MARKETPLACE_MAPPINGS.

(** ** Parsed spreadsheets (pandas DataFrame) *)

Definition Cell : Type := option string.

Record DataFrame : Type := {
  columns : list string;
  rows : list (list Cell)
}.

(** Wall-clock values: naive, or localized to the WIB timezone. *)
Inductive datetime : Type :=
| Naive (t : Z)
| WIB (t : Z).

(** [convert_to_wib] for a non-null value: a naive value is localized. *)
Definition convert_to_wib (dt : datetime) : datetime :=
  match dt with
  | Naive t => WIB t
  | WIB t => WIB t
  end.

Fixpoint index_of (c : string) (cols : list string) : option nat :=
  match cols with
  | [] => None
  | c' :: cols' => if String.eqb c c' then Some 0%nat else S <$> index_of c cols'
  end.

(** [c in df.columns]; the Python value [None] is never a column label. *)
Definition in_columns (c : option string) (df : DataFrame) : bool :=
  match c with
  | None => false
  | Some c => Py.mem c (columns df)
  end.

(** Position of the column selected by [df[c]]; raises [KeyError] when [c]
    is [None] or not a column label. *)
Definition getitem (df : DataFrame) (c : option string) : Result nat :=
  match c with
  | None => Raise (KeyError None)
  | Some c' =>
      match index_of c' (columns df) with
      | Some i => Ok i
      | None => Raise (KeyError c)
      end
  end.

(** [c and c in df.columns], as a position. *)
Definition optional_col (df : DataFrame) (c : option string) : option nat :=
  match c with
  | None => None
  | Some c' => if Py.truthy c' then index_of c' (columns df) else None
  end.

Definition cell_at (i : nat) (r : list Cell) : Cell := mjoin (r !! i).

(** [.fillna('').astype(str)] and [.astype(str)] on one cell. *)
Definition fillna_str (c : Cell) : string := default "" c.
Definition astype_str (c : Cell) : string := default "nan" c.

(** [order_numbers]: the order-number column with blanks for NaN, or a
    column of blanks when the sheet has no such column. *)
Definition order_numbers (df : DataFrame) (order_number_col : option string) : list string :=
  match order_number_col with
  | Some c =>
      match index_of c (columns df) with
      | Some i => map (λ r, fillna_str (cell_at i r)) (rows df)
      | None => map (λ _, "") (rows df)
      end
  | None => map (λ _, "") (rows df)
  end.

Definition non_empty_count (order_nums : list string) : nat :=
  length (List.filter (λ s, Py.truthy s && negb (String.eqb s "nan") && Py.truthy (Py.strip s)) order_nums).

(** [valid_mask]: the stringified order number is neither blank nor 'nan'. *)
Definition valid_order (s : string) : bool :=
  negb (String.eqb s "") && negb (String.eqb s "nan").

Definition row_order_number (df : DataFrame) (order_number_col : option string)
    (r : list Cell) : string :=
  match order_number_col with
  | Some c =>
      match index_of c (columns df) with
      | Some i => fillna_str (cell_at i r)
      | None => ""
      end
  | None => ""
  end.

Definition valid_rows (df : DataFrame) (order_number_col : option string) : list (list Cell) :=
  List.filter (λ r, valid_order (row_order_number df order_number_col r)) (rows df).

(** One row of [valid_df] with its [processed_*] columns. *)
Record PRow : Type := {
  processed_order_number : string;
  processed_order_status : string;
  processed_awb : string;
  processed_transporter : string;
  processed_date : datetime;
  processed_sla : string;
  processed_sku : string
}.

(** ** Order normalizer *)

(** First-occurrence deduplication (pandas [unique()]). *)
Definition unique (l : list string) : list string :=
  fold_left (λ acc x, if Py.mem x acc then acc else acc ++ [x]) l [].

Fixpoint insert_sorted (k : string) (l : list string) : list string :=
  match l with
  | [] => [k]
  | x :: l' => if String.leb k x then k :: l else x :: insert_sorted k l'
  end.

Definition sort_strings (l : list string) : list string := foldr insert_sorted [] l.

(** [groupby('processed_order_number')]: one group per distinct key, keys
    in sorted order, each group holding its rows in sheet order. *)
Definition group_keys (prs : list PRow) : list string :=
  sort_strings (unique (map processed_order_number prs)).

Definition group_rows (k : string) (prs : list PRow) : list PRow :=
  List.filter (λ r, String.eqb (processed_order_number r) k) prs.

Definition groupby (prs : list PRow) : list (string * list PRow) :=
  map (λ k, (k, group_rows k prs)) (group_keys prs).

(** The ['first'] aggregation. Every aggregated column is free of nulls
    (it went through [fillna('')] or the date default), so the first
    non-null value pandas takes is the group's first row. *)
Definition first {A} (f : PRow → A) (d : A) (g : list PRow) : A :=
  match g with
  | r :: _ => f r
  | [] => d
  end.

Definition aggregate_skus (series : list string) : option string :=
  let valid_skus := unique (List.filter (λ s, negb (String.eqb s "")) series) in
  match valid_skus with
  | [] => None
  | _ => Some (Py.join "," valid_skus)
  end.

(** An element of [all_order_data] (its 'ItemIdFlexo' entry is [None] and
    is overwritten by the interface assignment). *)
Record OrderData : Type := {
  od_Marketplace : string;
  od_Brand : string;
  od_OrderNumber : string;
  od_OrderStatus : string;
  od_AWB : string;
  od_Transporter : string;
  od_OrderDate : datetime;
  od_SLA : string;
  od_Batch : string;
  od_PIC : string;
  od_UploadDate : datetime;
  od_TaskId : string;
  od_ItemId : option string
}.

(** What one run of the pipeline is given. [to_datetime col i] is the
    [i]-th value of [pd.to_datetime(col, dayfirst=True, errors='coerce')]
    ([None] is NaT); [strptime] is [datetime.strptime(_, '%Y%m%d')]. *)
Record Clock : Type := {
  current_time : datetime;
  to_datetime : list Cell → nat → option datetime;
  strptime : string → option datetime
}.

Section Normalize.
Context (clk : Clock) (sales_channel brand_name batch_name current_user task_id : string).
Context (mp : Mapping) (filename_date : string).

Definition is_tokopedia : bool := String.eqb (Py.lower sales_channel) "tokopedia".

(** [tokopedia_date]: parsed from the filename token, the clock when
    that fails. *)
Definition tokopedia_date : option datetime :=
  if is_tokopedia then
    match strptime clk filename_date with
    | Some d => Some (convert_to_wib d)
    | None => Some (current_time clk)
    end
  else None.

Definition apply_date (x : option datetime) : datetime :=
  match x with
  | Some d => convert_to_wib d
  | None => current_time clk
  end.

(** The [processed_date] column of [valid_df]. Both branches start by
    selecting [valid_df[order_date_col]]. *)
Definition processed_dates (df : DataFrame) (vrows : list (list Cell)) : Result (list datetime) :=
  rbind (getitem df (m_order_date mp)) (λ i,
    let col := map (cell_at i) vrows in
    if is_tokopedia then
      let unmasked := List.filter (λ c, negb (match c with None => true | Some s => String.eqb s "" end)) col in
      Ok (imap (λ n c,
            match c with
            | None => default (current_time clk) tokopedia_date
            | Some s =>
                if String.eqb s "" then default (current_time clk) tokopedia_date
                else apply_date (to_datetime clk unmasked
                       (length (List.filter (λ c, negb (match c with None => true | Some s => String.eqb s "" end)) (take n col))))
            end) col)
    else
      Ok (imap (λ n _, apply_date (to_datetime clk col n)) col)).

Definition optional_str (df : DataFrame) (c : option string) (r : list Cell) : string :=
  match optional_col df c with
  | Some i => fillna_str (cell_at i r)
  | None => ""
  end.

(** [valid_df] with all its [processed_*] columns, row by row. *)
Definition processed_rows (df : DataFrame) : Result (list PRow) :=
  let vrows := valid_rows df (m_order_number mp) in
  if Nat.eqb (length vrows) 0 then Raise (Exception "No valid order numbers found") else
  rbind (processed_dates df vrows) (λ dates,
  rbind (getitem df (m_order_number mp)) (λ i_num,
  rbind (getitem df (m_order_status mp)) (λ i_status,
    Ok (imap (λ n r,
          {| processed_order_number := Py.strip (astype_str (cell_at i_num r));
             processed_order_status := fillna_str (cell_at i_status r);
             processed_awb := optional_str df (m_awb mp) r;
             processed_transporter := optional_str df (m_transporter mp) r;
             processed_date := default (current_time clk) (dates !! n);
             processed_sla := optional_str df (m_sla mp) r;
             processed_sku := optional_str df (m_sku_field mp) r |}) vrows)))).

Definition order_of_group (g : string * list PRow) : OrderData :=
  {| od_Marketplace := sales_channel;
     od_Brand := brand_name;
     od_OrderNumber := g.1;
     od_OrderStatus := first processed_order_status "" g.2;
     od_AWB := first processed_awb "" g.2;
     od_Transporter := first processed_transporter "" g.2;
     od_OrderDate := first processed_date (current_time clk) g.2;
     od_SLA := first processed_sla "" g.2;
     od_Batch := batch_name;
     od_PIC := current_user;
     od_UploadDate := current_time clk;
     od_TaskId := task_id;
     od_ItemId := aggregate_skus (map processed_sku g.2) |}.

(** [all_order_data] computed from the parsed sheet. *)
Definition normalize (df : DataFrame) : Result (list OrderData) :=
  rbind (processed_rows df) (λ prs, Ok (map order_of_group (groupby prs))).

End Normalize.

(** ** Persistent store *)

(** A row of [uploaded_orders]. [OrderNumber] carries the table's unique
    constraint. *)
Record UploadedOrder : Type := {
  Id : nat;
  Marketplace : string;
  Brand : string;
  OrderNumber : string;
  OrderStatus : string;
  AWB : string;
  Transporter : string;
  OrderDate : datetime;
  SLA : string;
  Batch : string;
  PIC : string;
  UploadDate : datetime;
  Remarks : string;
  InterfaceStatus : string;
  TaskId : string;
  OrderNumberFlexo : option string;
  OrderStatusFlexo : option string;
  ItemId : option string;
  ItemIdFlexo : option string
}.

(** A row of [upload_tasks] (timing columns are not modelled). *)
Record UploadTask : Type := {
  task_id : string;
  task_name : string;
  status : string;
  marketplace : string;
  brand : string;
  batch : string;
  pic : string;
  total_orders : nat;
  processed_orders : nat;
  error_message : option string
}.

Record UploadHistory : Type := {
  h_marketplace : string;
  h_brand : string;
  h_pic : string;
  h_batch : string
}.

Record BrandShop : Type := {
  bs_brand : string;
  bs_marketplace_id : nat;
  bs_shop_key_1 : option string
}.

Record DB : Type := {
  upload_tasks : list UploadTask;
  upload_history : list UploadHistory;
  uploaded_orders : list UploadedOrder;
  brand_shops : list BrandShop;
  next_order_id : nat
}.

Definition with_tasks (f : list UploadTask → list UploadTask) (d : DB) : DB :=
  {| upload_tasks := f (upload_tasks d); upload_history := upload_history d;
     uploaded_orders := uploaded_orders d; brand_shops := brand_shops d;
     next_order_id := next_order_id d |}.

Definition with_history (f : list UploadHistory → list UploadHistory) (d : DB) : DB :=
  {| upload_tasks := upload_tasks d; upload_history := f (upload_history d);
     uploaded_orders := uploaded_orders d; brand_shops := brand_shops d;
     next_order_id := next_order_id d |}.

Definition with_orders (f : list UploadedOrder → list UploadedOrder) (d : DB) : DB :=
  {| upload_tasks := upload_tasks d; upload_history := upload_history d;
     uploaded_orders := f (uploaded_orders d); brand_shops := brand_shops d;
     next_order_id := next_order_id d |}.

(** The world a run acts on: the committed database, the open session's
    view of it (if a session is open), and the external queries issued. *)
Record World : Type := {
  committed : DB;
  session : option DB;
  ext_calls : list (string * list string)
}.

(** ** External order-fulfilment system *)

Definition MARKETPLACE_FIELD_MAPPING : list (string * string) :=
  [ ("ginee", "OrigSystemRefId"); ("blibli", "EntityId"); ("zalora", "EntityId");
    ("shopee", "EntityId"); ("tiktok", "EntityId"); ("desty", "EntityId");
    ("lazada", "OrigSystemRefId"); ("jubelio", "SystemRefId") ].

(** One entry of the dict returned by [check_external_database_status]
    (the columns the pipeline does not use are left out). *)
Record ExternalData : Type := {
  x_system_ref_id : option string;
  x_order_status : option string;
  x_item_id_flexo : option string;
  x_interface_status : string
}.

(** One entry of the dict returned by [check_interface_status]. The key
    'order_status' exists only in entries of orders found externally. *)
Record InterfaceResult : Type := {
  ir_status : string;
  ir_system_ref_id : option string;
  ir_order_status : option (option string);
  ir_item_id_flexo : option string;
  ir_found_in_external : bool
}.

(** The external system as seen by one run: whether a connection can be
    opened, the rows a query returns keyed by order number, and whether
    the chunk watchdog fires before the chunk's check completes. *)
Record External : Type := {
  ext_connect : bool;
  ext_rows : string → string → list string → gmap string ExternalData;
  chunk_times_out : string → list string → bool
}.

Definition check_external_database_status (x : External)
    (order_nums : list string) (mkt : string) : gmap string ExternalData :=
  match assoc_get (Py.lower mkt) MARKETPLACE_FIELD_MAPPING with
  | None => ∅
  | Some field_mapping =>
      if ext_connect x then ext_rows x field_mapping mkt order_nums else ∅
  end.

Definition result_found (external_data : ExternalData) : InterfaceResult :=
  {| ir_status := x_interface_status external_data;
     ir_system_ref_id := x_system_ref_id external_data;
     ir_order_status := Some (x_order_status external_data);
     ir_item_id_flexo := x_item_id_flexo external_data;
     ir_found_in_external := true |}.

Definition result_not_found : InterfaceResult :=
  {| ir_status := "Not Yet Interface";
     ir_system_ref_id := None;
     ir_order_status := None;
     ir_item_id_flexo := None;
     ir_found_in_external := false |}.

Definition check_interface_status (x : External)
    (order_nums : list string) (mkt : string) : gmap string InterfaceResult :=
  let external_results := check_external_database_status x order_nums mkt in
  fold_left (λ all_results order_id,
      match external_results !! order_id with
      | Some external_data => <[order_id := result_found external_data]> all_results
      | None => <[order_id := result_not_found]> all_results
      end) order_nums ∅.

(** ** Interface reconciler (sequential view) *)

Definition EXTERNAL_CHUNK_SIZE : nat := 100.

Fixpoint chunks_aux {A} (fuel size : nat) (l : list A) : list (list A) :=
  match fuel with
  | O => []
  | S fuel' =>
      match l with
      | [] => []
      | _ => take size l :: chunks_aux fuel' size (drop size l)
      end
  end.

(** [l[i:i+size] for i in range(0, len(l), size)] *)
Definition chunks {A} (size : nat) (l : list A) : list (list A) :=
  chunks_aux (length l) size l.

(** One chunk: the check runs (an external query is issued); its result
    is kept unless the watchdog fired. *)
Definition check_chunk (x : External) (mkt : string) (chunk : list string)
    : gmap string InterfaceResult :=
  if chunk_times_out x mkt chunk then ∅ else check_interface_status x chunk mkt.

Definition reconcile_marketplace (x : External) (mkt : string)
    (orders : list OrderData) (acc : gmap string InterfaceResult)
    : gmap string InterfaceResult :=
  let order_numbers_list := List.filter Py.truthy (map od_OrderNumber orders) in
  fold_left (λ interface_results chunk, check_chunk x mkt chunk ∪ interface_results)
            (chunks EXTERNAL_CHUNK_SIZE order_numbers_list) acc.

Definition orders_by_marketplace (all_order_data : list OrderData)
    : list (string * list OrderData) :=
  map (λ m, (m, List.filter (λ o, String.eqb (od_Marketplace o) m) all_order_data))
      (unique (map od_Marketplace all_order_data)).

Definition reconcile (x : External) (all_order_data : list OrderData)
    : gmap string InterfaceResult :=
  fold_left (λ acc g, reconcile_marketplace x g.1 g.2 acc)
            (orders_by_marketplace all_order_data) ∅.

(** The external queries issued by [reconcile], in order. *)
Definition reconcile_calls (all_order_data : list OrderData) : list (string * list string) :=
  flat_map (λ g, map (λ chunk, (g.1, chunk))
                     (chunks EXTERNAL_CHUNK_SIZE (List.filter Py.truthy (map od_OrderNumber g.2))))
           (orders_by_marketplace all_order_data).

(** An order with its interface fields assigned ([order_data.update]). *)
Record Reconciled : Type := {
  r_data : OrderData;
  r_InterfaceStatus : string;
  r_OrderNumberFlexo : option string;
  r_OrderStatusFlexo : option string;
  r_ItemIdFlexo : option string
}.

Definition assign_interface (interface_results : gmap string InterfaceResult)
    (order_data : OrderData) : Reconciled :=
  match interface_results !! od_OrderNumber order_data with
  | Some interface_result =>
      (* .get('status') or .get('interface_status'); the second key never
         exists in an entry *)
      let interface_status :=
        if Py.truthy (ir_status interface_result) then Some (ir_status interface_result) else None in
      {| r_data := order_data;
         r_InterfaceStatus :=
           if bool_decide (interface_status = Some "Interface") then "Interface"
           else "Not Yet Interface";
         r_OrderNumberFlexo := ir_system_ref_id interface_result;
         r_OrderStatusFlexo := default (Some "") (ir_order_status interface_result);
         r_ItemIdFlexo := ir_item_id_flexo interface_result |}
  | None =>
      {| r_data := order_data;
         r_InterfaceStatus := "Not Yet Interface";
         r_OrderNumberFlexo := Some "";
         r_OrderStatusFlexo := Some "";
         r_ItemIdFlexo := None |}
  end.

(** ** Upsert engine *)

(** [{order.OrderNumber: order for order in existing_orders}]: the stored
    rows whose number is in the upload, by number; a row object is named
    by its primary key. *)
Definition existing_orders_dict (orders : list UploadedOrder)
    (all_order_numbers : list string) : gmap string nat :=
  fold_left (λ d o, <[OrderNumber o := Id o]> d)
            (List.filter (λ o, Py.mem (OrderNumber o) all_order_numbers) orders) ∅.

Record Partition : Type := {
  orders_to_insert : list Reconciled;
  orders_to_update : list (nat * Reconciled);
  replaced_count : nat;
  new_count : nat
}.

Definition classify_step (interface_results : gmap string InterfaceResult)
    (existing : gmap string nat) (p : Partition) (order_data : OrderData) : Partition :=
  let rd := assign_interface interface_results order_data in
  match existing !! od_OrderNumber order_data with
  | Some existing_order =>
      {| orders_to_insert := orders_to_insert p;
         orders_to_update := orders_to_update p ++ [(existing_order, rd)];
         replaced_count := replaced_count p + 1;
         new_count := new_count p |}
  | None =>
      {| orders_to_insert := orders_to_insert p ++ [rd];
         orders_to_update := orders_to_update p;
         replaced_count := replaced_count p;
         new_count := new_count p + 1 |}
  end.

Definition classify (interface_results : gmap string InterfaceResult)
    (existing : gmap string nat) (all_order_data : list OrderData) : Partition :=
  fold_left (classify_step interface_results existing) all_order_data
    {| orders_to_insert := []; orders_to_update := []; replaced_count := 0; new_count := 0 |}.

(** An [UploadedOrder] built from the keys of [order_data], with a fresh
    primary key; [Remarks]
    takes the column default. *)
Definition new_order (id : nat) (rd : Reconciled) : UploadedOrder :=
  let d := r_data rd in
  {| Id := id;
     Marketplace := od_Marketplace d; Brand := od_Brand d;
     OrderNumber := od_OrderNumber d; OrderStatus := od_OrderStatus d;
     AWB := od_AWB d; Transporter := od_Transporter d;
     OrderDate := od_OrderDate d; SLA := od_SLA d; Batch := od_Batch d;
     PIC := od_PIC d; UploadDate := od_UploadDate d; Remarks := "";
     InterfaceStatus := r_InterfaceStatus rd; TaskId := od_TaskId d;
     OrderNumberFlexo := r_OrderNumberFlexo rd;
     OrderStatusFlexo := r_OrderStatusFlexo rd;
     ItemId := od_ItemId d; ItemIdFlexo := r_ItemIdFlexo rd |}.

(** The unique constraint on [OrderNumber]. *)
Definition number_taken (orders : list UploadedOrder) (num : string) : bool :=
  existsb (λ o, String.eqb (OrderNumber o) num) orders.

(** One INSERT; [None] is the integrity error of the unique constraint. *)
Definition insert_order (d : DB) (rd : Reconciled) : option DB :=
  if number_taken (uploaded_orders d) (od_OrderNumber (r_data rd)) then None
  else Some {| upload_tasks := upload_tasks d; upload_history := upload_history d;
               uploaded_orders := uploaded_orders d ++ [new_order (next_order_id d) rd];
               brand_shops := brand_shops d;
               next_order_id := S (next_order_id d) |}.

Fixpoint bulk_insert_mappings (d : DB) (l : list Reconciled) : option DB :=
  match l with
  | [] => Some d
  | rd :: l' =>
      match insert_order d rd with
      | Some d' => bulk_insert_mappings d' l'
      | None => None
      end
  end.

(** The assignments of the update loop on one stored row: every column
    but [Id] and [OrderNumber] is overwritten. *)
Definition apply_update (existing_order : UploadedOrder) (new_data : Reconciled) : UploadedOrder :=
  let d := r_data new_data in
  {| Id := Id existing_order;
     Marketplace := od_Marketplace d; Brand := od_Brand d;
     OrderNumber := OrderNumber existing_order; OrderStatus := od_OrderStatus d;
     AWB := od_AWB d; Transporter := od_Transporter d;
     OrderDate := od_OrderDate d; SLA := od_SLA d; Batch := od_Batch d;
     PIC := od_PIC d; UploadDate := od_UploadDate d; Remarks := "";
     InterfaceStatus := r_InterfaceStatus new_data; TaskId := od_TaskId d;
     OrderNumberFlexo := Some (default "" (r_OrderNumberFlexo new_data));
     OrderStatusFlexo := Some (default "" (r_OrderStatusFlexo new_data));
     ItemId := od_ItemId d; ItemIdFlexo := r_ItemIdFlexo new_data |}.

Definition update_row (orders : list UploadedOrder) (u : nat * Reconciled) : list UploadedOrder :=
  map (λ o, if Nat.eqb (Id o) u.1 then apply_update o u.2 else o) orders.

Definition update_rows (orders : list UploadedOrder) (us : list (nat * Reconciled))
    : list UploadedOrder :=
  fold_left update_row us orders.

(** ** Task tracker and the run monad *)

Definition set_task (tid : string) (f : UploadTask → UploadTask) (d : DB) : DB :=
  with_tasks (map (λ t, if String.eqb (task_id t) tid then f t else t)) d.

Definition task_set_status (s : string) (t : UploadTask) : UploadTask :=
  {| task_id := task_id t; task_name := task_name t; status := s;
     marketplace := marketplace t; brand := brand t; batch := batch t; pic := pic t;
     total_orders := total_orders t; processed_orders := processed_orders t;
     error_message := error_message t |}.

Definition task_fail (msg : string) (t : UploadTask) : UploadTask :=
  {| task_id := task_id t; task_name := task_name t; status := "failed";
     marketplace := marketplace t; brand := brand t; batch := batch t; pic := pic t;
     total_orders := total_orders t; processed_orders := processed_orders t;
     error_message := Some msg |}.

Definition task_complete (n : nat) (t : UploadTask) : UploadTask :=
  {| task_id := task_id t; task_name := task_name t; status := "completed";
     marketplace := marketplace t; brand := brand t; batch := batch t; pic := pic t;
     total_orders := n; processed_orders := n;
     error_message := error_message t |}.

Definition find_task (tid : string) (d : DB) : option UploadTask :=
  List.find (λ t, String.eqb (task_id t) tid) (upload_tasks d).

(** Local variables of [process_upload_background] that the handlers
    read: [task] is unbound ([None]), bound to [None], or bound to the
    task row (named by its id). *)
Record Frame : Type := {
  world : World;
  task_var : option (option string)
}.

Definition M (A : Type) : Type := Frame → Result A * Frame.

Definition raise {A} (e : exn) : M A := λ fr, (Raise e, fr).
Definition lift {A} (r : Result A) : M A := λ fr, (r, fr).

#[global] Instance M_ret : MRet M := λ A a fr, (Ok a, fr).
#[global] Instance M_bind : MBind M :=
  λ A B k m fr,
    match m fr with
    | (Ok a, fr') => k a fr'
    | (Raise e, fr') => (Raise e, fr')
    end.

Definition on_world (f : World → World) : M unit :=
  λ fr, (Ok tt, {| world := f (world fr); task_var := task_var fr |}).

(** The session's view of the database. *)
Definition view (w : World) : DB := default (committed w) (session w).

Definition SessionLocal : M unit :=
  on_world (λ w, {| committed := committed w; session := Some (committed w);
                    ext_calls := ext_calls w |}).

Definition db_modify (f : DB → DB) : M unit :=
  on_world (λ w, {| committed := committed w; session := Some (f (view w));
                    ext_calls := ext_calls w |}).

Definition commit_world (w : World) : World :=
  {| committed := view w; session := Some (view w); ext_calls := ext_calls w |}.

Definition db_commit : M unit := on_world commit_world.

Definition db_rollback : M unit :=
  on_world (λ w, {| committed := committed w; session := Some (committed w);
                    ext_calls := ext_calls w |}).

Definition close_world (w : World) : World :=
  {| committed := committed w; session := None; ext_calls := ext_calls w |}.

Definition db_view : M DB := λ fr, (Ok (view (world fr)), fr).

(** A statement of the session that may hit an integrity error: on
    success the session's view changes, on failure nothing is applied. *)
Definition db_try (f : DB → option DB) : M bool :=
  λ fr, let w := world fr in
        match f (view w) with
        | Some d' => (Ok true, {| world := {| committed := committed w; session := Some d';
                                              ext_calls := ext_calls w |};
                                  task_var := task_var fr |})
        | None => (Ok false, fr)
        end.

Definition record_calls (cs : list (string * list string)) : M unit :=
  on_world (λ w, {| committed := committed w; session := session w;
                    ext_calls := ext_calls w ++ cs |}).

Definition bind_task (t : option string) : M unit :=
  λ fr, (Ok tt, {| world := world fr; task_var := Some t |}).

Definition when (b : bool) (m : M unit) : M unit := if b then m else mret tt.

(** ** The background pipeline *)

(** Points of [process_upload_background] at which an operation of the
    environment (database, file reader, external system, runtime) may
    raise unexpectedly. *)
Inductive Stage : Type :=
| OpenSession | LoadTask | ParseFilename | ReadFile | WriteHistory
| CheckColumns | CheckOrderNumbers | Normalize | Reconcile | QueryExisting
| InsertNew | UpdateExisting | Finalize.

(** One invocation: its arguments, the outcome of reading the file
    ([pd.read_excel] / [pd.read_csv]), the clock, the external system, and
    the unexpected exceptions of the environment. *)
Record Run : Type := {
  run_task_id : string;
  run_filename : string;
  run_file : Result DataFrame;
  run_user : string;
  run_clock : Clock;
  run_external : External;
  run_fault : Stage → option exn
}.

Definition inject (r : Run) (st : Stage) : M unit :=
  match run_fault r st with
  | Some e => raise e
  | None => mret tt
  end.

(** The [result] dictionary of a run. *)
Record UploadResult : Type := {
  interface_count : nat;
  not_interface_count : nat;
  res_total_orders : nat;
  new_orders : nat;
  replaced_orders : nat
}.

Definition required_columns (mp : Mapping) : list (option string) :=
  [m_order_number mp; m_order_status mp; m_order_date mp; m_awb mp].

Definition missing_columns (mp : Mapping) (df : DataFrame) : list string :=
  omap (λ expected_name,
          match expected_name with
          | Some n => if Py.truthy n && negb (Py.mem n (columns df)) then Some n else None
          | None => None
          end) (required_columns mp).

(** [if task: task.status = "failed"; task.error_message = msg; db.commit()] *)
Definition fail_task (task : option string) (msg : string) : M unit :=
  match task with
  | Some tid => db_modify (set_task tid (task_fail msg));; db_commit
  | None => mret tt
  end.

Fixpoint insert_individually (l : list Reconciled) : M unit :=
  match l with
  | [] => mret tt
  | order_data :: l' =>
      ok ← db_try (λ d, insert_order d order_data);
      (if ok : bool then db_commit else db_rollback);;
      insert_individually l'
  end.

(** Bulk insert in one transaction; on an integrity error, roll back and
    insert row by row, skipping the rows that fail. *)
Definition insert_new (to_insert : list Reconciled) : M unit :=
  match to_insert with
  | [] => mret tt
  | _ =>
      ok ← db_try (λ d, bulk_insert_mappings d to_insert);
      if ok : bool then db_commit
      else db_rollback;; insert_individually to_insert
  end.

Definition read_file (r : Run) : M DataFrame :=
  if Py.endswith (run_filename r) ".xlsx" then lift (run_file r)
  else if Py.endswith (run_filename r) ".csv" then lift (run_file r)
  else raise (Exception "Unsupported file format").

(** The [try] block, in three consecutive segments.

    [start]: open the session, load the task row and mark it processing. *)
Definition start (r : Run) : M (option string) :=
  inject r OpenSession;;
  SessionLocal;;
  inject r LoadTask;;
  d ← db_view;
  let task := task_id <$> find_task (run_task_id r) d in
  bind_task task;;
  match task with
  | Some tid => db_modify (set_task tid (task_set_status "processing"));; db_commit
  | None => mret tt
  end;;
  mret task.

(** [ingest]: parse the filename, read the file, resolve the schema,
    record the upload history, check the required columns and that some
    order number is present. *)
Definition ingest (r : Run) (task : option string) : M (FilenameInfo * Mapping * DataFrame) :=
  inject r ParseFilename;;
  filename_info ← lift (parse_filename (run_filename r));
  match filename_info with
  | None => raise (Exception "Invalid filename format")
  | Some fi =>
  inject r ReadFile;;
  df ← read_file r;
  let sales_channel := fi_sales_channel fi in
  match get_marketplace_mapping sales_channel with
  | None => raise (Exception ("Unsupported sales channel: " +:+ sales_channel))
  | Some mp =>
  inject r WriteHistory;;
  db_modify (with_history (λ h, h ++ [ {| h_marketplace := sales_channel; h_brand := fi_brand fi;
                                          h_pic := run_user r; h_batch := fi_batch fi |} ]));;
  db_commit;;
  inject r CheckColumns;;
  let missing := missing_columns mp df in
  match missing with
  | _ :: _ =>
      fail_task task ("Missing required columns: " +:+ Py.join ", " missing);;
      raise (Exception ("Missing required columns for " +:+ sales_channel +:+ ": "
                        +:+ Py.join ", " missing))
  | [] =>
  inject r CheckOrderNumbers;;
  let order_number_col := default "None" (m_order_number mp) in
  if Nat.eqb (non_empty_count (order_numbers df (m_order_number mp))) 0 then
    fail_task task ("No valid order numbers found in " +:+ order_number_col +:+ " column");;
    raise (Exception ("No valid order numbers found in " +:+ order_number_col +:+ " column"))
  else mret (fi, mp, df)
  end end end.

(** The result dictionary and the completion of the task row. *)
Definition finalize (r : Run) (task : option string) (p : Partition) : M UploadResult :=
  d ← db_view;
  let uploaded := List.filter (λ o, String.eqb (TaskId o) (run_task_id r)) (uploaded_orders d) in
  let n_interface := length (List.filter (λ o, String.eqb (InterfaceStatus o) "Interface") uploaded) in
  match task with
  | Some tid => db_modify (set_task tid (task_complete (length uploaded)));; db_commit
  | None => mret tt
  end;;
  mret {| interface_count := n_interface;
          not_interface_count := length uploaded - n_interface;
          res_total_orders := length uploaded;
          new_orders := new_count p;
          replaced_orders := replaced_count p |}.

(** [persist]: normalize, reconcile, split into new and existing orders,
    insert, update, commit, complete the task. *)
Definition persist (r : Run) (task : option string) (fi : FilenameInfo) (mp : Mapping)
    (df : DataFrame) : M UploadResult :=
  inject r Normalize;;
  all_order_data ← lift (normalize (run_clock r) (fi_sales_channel fi) (fi_brand fi) (fi_batch fi)
                           (run_user r) (run_task_id r) mp (fi_date fi) df);
  inject r Reconcile;;
  record_calls (reconcile_calls all_order_data);;
  let interface_results := reconcile (run_external r) all_order_data in
  inject r QueryExisting;;
  d ← db_view;
  let existing := existing_orders_dict (uploaded_orders d) (map od_OrderNumber all_order_data) in
  let p := classify interface_results existing all_order_data in
  inject r InsertNew;;
  insert_new (orders_to_insert p);;
  inject r UpdateExisting;;
  db_modify (with_orders (λ os, update_rows os (orders_to_update p)));;
  db_commit;;
  inject r Finalize;;
  finalize r task p.

Definition pipeline (r : Run) : M UploadResult :=
  task ← start r;
  x ← ingest r task;
  persist r task x.1.1 x.1.2 x.2.

(** The [except Exception] handler: only when [task] is bound to a row. *)
Definition handle_failure (e : exn) (fr : Frame) : Frame :=
  match task_var fr with
  | Some (Some tid) =>
      let w := world fr in
      {| world := commit_world {| committed := committed w;
                                  session := Some (set_task tid (task_fail (str_exn e)) (view w));
                                  ext_calls := ext_calls w |};
         task_var := task_var fr |}
  | _ => fr
  end.

(** The [finally] block: [if db is not None: db.close()]. *)
Definition release (w : World) : World :=
  match session w with
  | Some _ => close_world w
  | None => w
  end.

Definition process_upload_background (r : Run) (w : World) : Result UploadResult * World :=
  let '(res, fr) := pipeline r {| world := w; task_var := None |} in
  let fr' := match res with
             | Ok _ => fr
             | Raise e => handle_failure e fr
             end in
  (res, release (world fr')).

(** ** Orderlist handoff writer *)

(** A file of the handoff directory: its text and whether [chmod 0o444]
    made it read-only. *)
Record File : Type := {
  content : string;
  read_only : bool
}.

Definition marketplace_id_mapping : list (string * nat) :=
  [ ("tokopedia", 1); ("shopee", 2); ("lazada", 3); ("zalora", 6); ("ginee", 27);
    ("blibli", 7); ("jdid", 8); ("jubelio", 9); ("shopify", 10); ("tiktok", 11);
    ("b2b", 12); ("desty", 23) ].

Definition get_shop_id_from_brand_shops (brand_name marketplace_name : string) (d : DB)
    : option string :=
  match assoc_get (Py.lower marketplace_name) marketplace_id_mapping with
  | None => None
  | Some marketplace_id =>
      if Nat.eqb marketplace_id 0 then None else
      match List.find (λ bs, String.eqb (Py.lower (bs_brand bs)) (Py.lower brand_name)
                             && Nat.eqb (bs_marketplace_id bs) marketplace_id)
                      (brand_shops d) with
      | Some brand_shop =>
          match bs_shop_key_1 brand_shop with
          | Some k => if Py.truthy k then Some k else None
          | None => None
          end
      | None => None
      end
  end.

Definition marketplace_folder_mapping : list (string * string) :=
  [ ("shopee", "Shopee"); ("lazada", "Lazada"); ("blibli", "Blibli"); ("desty", "Desty");
    ("ginee", "Ginee"); ("tiktok", "Tiktok"); ("zalora", "Zalora"); ("jubelio", "Jubelio") ].

(** One written line: "id,shop_key_1" for Zalora and Blibli when a shop
    key is known, "id" otherwise. *)
Definition orderlist_line (sales_channel : string) (shop_id : option string)
    (order_number : string) : string :=
  if Py.mem (Py.lower sales_channel) ["zalora"; "blibli"] then
    match shop_id with
    | Some k => order_number +:+ "," +:+ k +:+ lf
    | None => order_number +:+ lf
    end
  else order_number +:+ lf.

Definition orderlist_text (sales_channel : string) (shop_id : option string)
    (order_nums : list string) : string :=
  foldr (λ n acc, orderlist_line sales_channel shop_id n +:+ acc) "" order_nums.

Definition is_newline (c : ascii) : bool :=
  Ascii.eqb c "010"%char || Ascii.eqb c "013"%char.

(** The text cut at line ends (LF and CR; a CR LF pair leaves an empty
    piece, which the line count below ignores, as does the piece after a
    final line end). *)
Fixpoint split_lines (s : string) : string * list string :=
  match s with
  | EmptyString => (EmptyString, [])
  | String c s' =>
      let '(l, ls) := split_lines s' in
      if is_newline c then (EmptyString, l :: ls) else (String c l, ls)
  end.

Definition readlines (s : string) : list string :=
  let '(l, ls) := split_lines s in l :: ls.

(** [len([line.strip() for line in lines if line.strip()])] *)
Definition count_lines (text : string) : nat :=
  length (List.filter (λ line, Py.truthy (Py.strip line)) (readlines text)).

(** [os.path.exists]: a [None] path is a TypeError, which escapes it. *)
Definition path_exists (fs : gmap string File) (p : option string) : Result bool :=
  match p with
  | None => Raise (TypeError "stat: path should be string, bytes, os.PathLike or integer, not NoneType")
  | Some p' => Ok (bool_decide (is_Some (fs !! p')))
  end.

(** [shutil.copy2(backup_path, orderlist_path)] *)
Definition copy2 (fs : gmap string File) (src dst : string) : gmap string File :=
  match fs !! src with
  | Some f => <[dst := f]> fs
  | None => fs
  end.

Definition chmod (fs : gmap string File) (p : string) (ro : bool) : gmap string File :=
  match fs !! p with
  | Some f => <[p := {| content := content f; read_only := ro |}]> fs
  | None => fs
  end.

(** Returns the verification result and the file system it leaves. Every
    exception inside is caught and turned into [False]. *)
Definition verify_and_restore_orderlist (fs : gmap string File) (orderlist_path : string)
    (backup_path : option string) (expected_count : nat) : bool * gmap string File :=
  match fs !! orderlist_path with
  | None =>
      match path_exists fs backup_path, backup_path with
      | Ok true, Some b => (true, copy2 fs b orderlist_path)
      | _, _ => (false, fs)
      end
  | Some f =>
      let actual_count := count_lines (content f) in
      if negb (Nat.eqb actual_count expected_count) then
        match path_exists fs backup_path, backup_path with
        | Ok true, Some b =>
            let fs1 := chmod fs orderlist_path false in
            let fs2 := copy2 fs1 b orderlist_path in
            let restored_count :=
              match fs2 !! orderlist_path with
              | Some g => count_lines (content g)
              | None => 0
              end in
            (Nat.eqb restored_count expected_count, fs2)
        | _, _ => (false, fs)
        end
      else (true, fs)
  end.

(** Where files go and what the wall clock prints. *)
Record Workspace : Type := {
  user_workspace : string → string;
  project_root : string;
  timestamp : string
}.

Definition join_path (a b : string) : string := a +:+ "/" +:+ b.

(** The return value of [generate_orderlist_for_not_interfaced]. *)
Inductive OrderlistResult : Type :=
| NotGenerated (reason : string)
| GenerationError (error : string)
| Generated (order_count : nat) (orderlist_path : string) (backup_path : option string)
            (shop_id : option string) (shop_id_warning : bool).

Definition not_interfaced_orders (uploaded : list UploadedOrder) : list UploadedOrder :=
  List.filter (λ o, String.eqb (InterfaceStatus o) "Not Yet Interface") uploaded.

Definition orderlist_filename (ws : Workspace) (d : DB) (user_id : option string)
    (brand_name batch_name : string) : string :=
  let matching := List.filter (λ t, bool_decide (Some (pic t) = user_id)
                                     && String.eqb (brand t) brand_name
                                     && String.eqb (batch t) batch_name) (upload_tasks d) in
  match last matching with
  | Some task =>
      if Py.truthy (task_id task) then "Orderlist_" +:+ task_id task +:+ ".txt"
      else "Orderlist_" +:+ timestamp ws +:+ ".txt"
  | None => "Orderlist_" +:+ timestamp ws +:+ ".txt"
  end.

(** The writer up to and including the verification call: the path, the
    numbers written, the verification result, the file system. A
    read-only file at the path makes [open(path, 'w')] raise. *)
Definition write_and_verify (ws : Workspace) (fs : gmap string File) (d : DB)
    (uploaded : list UploadedOrder) (sales_channel brand_name batch_name : string)
    (user_id : option string) (marketplace_folder : string) (shop_id : option string)
    : Result (string * list string * bool * gmap string File) :=
  let jobgetorder_path :=
    match user_id with
    | Some u => join_path (user_workspace ws u) marketplace_folder
    | None => join_path (join_path (project_root ws) "JobGetOrder") marketplace_folder
    end in
  let orderlist_path :=
    join_path jobgetorder_path (orderlist_filename ws d user_id brand_name batch_name) in
  let order_nums :=
    List.filter Py.truthy (map OrderNumber (not_interfaced_orders uploaded)) in
  match fs !! orderlist_path with
  | Some {| content := _; read_only := true |} =>
      Raise (Exception ("[Errno 13] Permission denied: '" +:+ orderlist_path +:+ "'"))
  | _ =>
      let fs1 := <[orderlist_path := {| content := orderlist_text sales_channel shop_id order_nums;
                                        read_only := false |}]> fs in
      let '(verification_result, fs2) :=
        verify_and_restore_orderlist fs1 orderlist_path None (length order_nums) in
      Ok (orderlist_path, order_nums, verification_result, fs2)
  end.

Definition generate_orderlist_for_not_interfaced (ws : Workspace) (fs : gmap string File)
    (d : DB) (uploaded : list UploadedOrder) (sales_channel brand_name batch_name : string)
    (user_id : option string) : OrderlistResult * gmap string File :=
  match not_interfaced_orders uploaded with
  | [] => (NotGenerated "no_not_interfaced_orders", fs)
  | _ =>
      match assoc_get (Py.lower sales_channel) marketplace_folder_mapping with
      | None => (NotGenerated "unknown_marketplace", fs)
      | Some marketplace_folder =>
          let shop_id := get_shop_id_from_brand_shops brand_name sales_channel d in
          let shop_id_warning := negb (bool_decide (is_Some shop_id)) in
          match write_and_verify ws fs d uploaded sales_channel brand_name batch_name
                                 user_id marketplace_folder shop_id with
          | Raise e => (GenerationError (str_exn e), fs)
          | Ok (orderlist_path, order_nums, _, fs2) =>
              (Generated (length order_nums) orderlist_path None shop_id shop_id_warning,
               chmod fs2 orderlist_path true)
          end
      end
  end.

(** ** Upload endpoint *)

Definition MAX_FILE_SIZE : nat := 50 * 1024 * 1024.
Definition ALLOWED_EXTENSIONS : list string := [".xlsx"; ".csv"].
Definition ALLOWED_MIME_TYPES : list string :=
  [ "application/vnd.openxmlformats-officedocument.spreadsheetml.sheet";
    "text/csv"; "application/csv" ].

Record UploadFile : Type := {
  uf_filename : string;
  uf_size : option nat;
  uf_content_type : option string
}.

(** [sub in s] *)
Fixpoint contains (s sub : string) : bool :=
  String.prefix sub s ||
  match s with
  | EmptyString => false
  | String _ s' => contains s' sub
  end.

Definition dquote : string := String "034"%char EmptyString.
Definition backslash : string := String "092"%char EmptyString.

Definition forbidden_fragments : list string :=
  [ ".."; "/"; backslash; "<"; ">"; ":"; dquote; "|"; "?"; "*" ].

(** [os.path.splitext(name)[1]]: from the last dot of the last path
    component, unless only dots precede it there. *)
Fixpoint last_dot_suffix (s : string) : option string :=
  match s with
  | EmptyString => None
  | String c s' =>
      match last_dot_suffix s' with
      | Some e => Some e
      | None => if Ascii.eqb c "."%char then Some s else None
      end
  end.

Definition splitext_ext (name : string) : string :=
  let base := Py.basename name in
  let '(_, rest) := Py.span (Ascii.eqb "."%char) base in
  default "" (last_dot_suffix rest).

Record Validated : Type := {
  v_filename_info : FilenameInfo;
  v_shop_id : string;
  v_sales_channel : string;
  v_brand_name : string
}.

Definition validate_upload_request (file : UploadFile) (d : DB) : Result Validated :=
  match uf_size file with
  | None => Raise (HTTPException 400 "Upload validation failed")
  | Some size =>
  if (MAX_FILE_SIZE <? size)%nat
  then Raise (HTTPException 413 "File too large. Maximum size is 50MB") else
  if negb (Py.truthy (uf_filename file))
  then Raise (HTTPException 400 "No filename provided") else
  if negb (Py.mem (Py.lower (splitext_ext (uf_filename file))) ALLOWED_EXTENSIONS)
  then Raise (HTTPException 400 ("Invalid file type. Allowed types: "
                                 +:+ Py.join ", " ALLOWED_EXTENSIONS)) else
  if negb (match uf_content_type file with
           | Some ct => Py.mem ct ALLOWED_MIME_TYPES
           | None => false
           end)
  then Raise (HTTPException 400 "Invalid file MIME type") else
  if existsb (contains (uf_filename file)) forbidden_fragments
  then Raise (HTTPException 400 "Invalid characters in filename") else
  match parse_filename (uf_filename file) with
  | Raise e => Raise e
  | Ok None => Raise (HTTPException 400 "Invalid filename format")
  | Ok (Some filename_info) =>
      let sales_channel := fi_sales_channel filename_info in
      let brand_name := fi_brand filename_info in
      match get_shop_id_from_brand_shops brand_name sales_channel d with
      | None =>
          Raise (HTTPException 400
                   ("No shop_id found for " +:+ brand_name +:+ " in " +:+ sales_channel
                    +:+ ". Please add shop_id configuration before uploading."))
      | Some shop_id =>
          Ok {| v_filename_info := filename_info; v_shop_id := shop_id;
                v_sales_channel := sales_channel; v_brand_name := brand_name |}
      end
  end
  end.

(** A call handed to [background_tasks.add_task]. *)
Record BackgroundTask : Type := {
  bg_task_id : string;
  bg_filename : string;
  bg_current_user : string
}.

Record UploadResponse : Type := {
  resp_task_id : string;
  resp_status : string;
  resp_brand : string;
  resp_batch : string;
  resp_pic : string
}.

(** The endpoint: its response (or the HTTP error it raises), the
    database and the queue of background tasks it leaves. [new_task_id]
    is the identifier drawn from the user, the time and a UUID. *)
Definition upload_file_background (file : UploadFile) (current_user new_task_id : string)
    (d : DB) (queue : list BackgroundTask)
    : Result UploadResponse * DB * list BackgroundTask :=
  match validate_upload_request file d with
  | Raise e =>
      (Raise (HTTPException 500 ("Background upload failed: " +:+ str_exn e)), d, queue)
  | Ok v =>
      let filename_info := v_filename_info v in
      let sales_channel := v_sales_channel v in
      let marketplace_name :=
        match get_marketplace_mapping sales_channel with
        | Some mp => m_brand mp
        | None => Py.upper sales_channel
        end in
      let task := {| task_id := new_task_id; task_name := uf_filename file;
                     status := "pending"; marketplace := marketplace_name;
                     brand := fi_brand filename_info; batch := fi_batch filename_info;
                     pic := current_user; total_orders := 0; processed_orders := 0;
                     error_message := None |} in
      (Ok {| resp_task_id := new_task_id; resp_status := "pending";
             resp_brand := fi_brand filename_info; resp_batch := fi_batch filename_info;
             resp_pic := current_user |},
       with_tasks (λ ts, ts ++ [task]) d,
       queue ++ [ {| bg_task_id := new_task_id; bg_filename := uf_filename file;
                     bg_current_user := current_user |} ])
  end.

(** ** Chunk watchdog: the threads of one reconciliation loop *)

Module Watchdog.

(** Where the main thread stands in the loop body of the current chunk. *)
Inductive MainPc : Type :=
| AtReset      (* chunk_interface_results = {}; timeout_occurred = Event() *)
| AtStart      (* timer.start(); check_thread.start() *)
| AtJoin       (* check_thread.join(timeout=30) *)
| AtCancel     (* timer.cancel() *)
| AtCheck      (* if timeout_occurred.is_set(): chunk_interface_results = {} *)
| AtMerge      (* interface_results.update(chunk_interface_results) *)
| Finished.

Inductive TimerState : Type := Idle | Armed | Fired | Cancelled.

(** [chunk_interface_results] is one variable of the enclosing function,
    shared through [nonlocal] with the check thread of every chunk. *)
Record State : Type := {
  pc : MainPc;
  chunk_no : nat;
  pending : list (gmap string InterfaceResult);
  chunk_interface_results : gmap string InterfaceResult;
  timeout_occurred : bool;
  timer : TimerState;
  running : list (nat * gmap string InterfaceResult);
  watchdog_fired_first : list nat;
  interface_results : gmap string InterfaceResult
}.

(** What the scheduler lets happen next. *)
Inductive Event : Type :=
| MainStep
| JoinTimesOut
| TimerFires
| CheckReturns (chunk : nat).

Definition is_running (c : nat) (st : State) : bool :=
  existsb (λ w, Nat.eqb w.1 c) (running st).

Definition set_main (st : State) (p : MainPc) : State :=
  {| pc := p; chunk_no := chunk_no st; pending := pending st;
     chunk_interface_results := chunk_interface_results st;
     timeout_occurred := timeout_occurred st; timer := timer st;
     running := running st; watchdog_fired_first := watchdog_fired_first st;
     interface_results := interface_results st |}.

Definition main_step (st : State) : option State :=
  match pc st with
  | AtReset =>
      match pending st with
      | [] => Some (set_main st Finished)
      | _ :: _ =>
          Some {| pc := AtStart; chunk_no := chunk_no st; pending := pending st;
                  chunk_interface_results := ∅; timeout_occurred := false;
                  timer := Idle; running := running st;
                  watchdog_fired_first := watchdog_fired_first st;
                  interface_results := interface_results st |}
      end
  | AtStart =>
      match pending st with
      | [] => None
      | res :: rest =>
          Some {| pc := AtJoin; chunk_no := chunk_no st; pending := rest;
                  chunk_interface_results := chunk_interface_results st;
                  timeout_occurred := timeout_occurred st; timer := Armed;
                  running := running st ++ [(chunk_no st, res)];
                  watchdog_fired_first := watchdog_fired_first st;
                  interface_results := interface_results st |}
      end
  | AtJoin =>
      (* join returns at once only when the check thread has ended *)
      if is_running (chunk_no st) st then None else Some (set_main st AtCancel)
  | AtCancel =>
      Some {| pc := AtCheck; chunk_no := chunk_no st; pending := pending st;
              chunk_interface_results := chunk_interface_results st;
              timeout_occurred := timeout_occurred st;
              timer := match timer st with Armed => Cancelled | t => t end;
              running := running st; watchdog_fired_first := watchdog_fired_first st;
              interface_results := interface_results st |}
  | AtCheck =>
      Some {| pc := AtMerge; chunk_no := chunk_no st; pending := pending st;
              chunk_interface_results :=
                if timeout_occurred st then ∅ else chunk_interface_results st;
              timeout_occurred := timeout_occurred st; timer := timer st;
              running := running st; watchdog_fired_first := watchdog_fired_first st;
              interface_results := interface_results st |}
  | AtMerge =>
      Some {| pc := AtReset; chunk_no := S (chunk_no st); pending := pending st;
              chunk_interface_results := chunk_interface_results st;
              timeout_occurred := timeout_occurred st; timer := timer st;
              running := running st; watchdog_fired_first := watchdog_fired_first st;
              interface_results := chunk_interface_results st ∪ interface_results st |}
  | Finished => None
  end.

Definition step (ev : Event) (st : State) : option State :=
  match ev with
  | MainStep => main_step st
  | JoinTimesOut =>
      match pc st with
      | AtJoin => if is_running (chunk_no st) st then Some (set_main st AtCancel) else None
      | _ => None
      end
  | TimerFires =>
      match timer st with
      | Armed =>
          Some {| pc := pc st; chunk_no := chunk_no st; pending := pending st;
                  chunk_interface_results := chunk_interface_results st;
                  timeout_occurred := true; timer := Fired; running := running st;
                  watchdog_fired_first :=
                    if is_running (chunk_no st) st
                    then watchdog_fired_first st ++ [chunk_no st]
                    else watchdog_fired_first st;
                  interface_results := interface_results st |}
      | _ => None
      end
  | CheckReturns c =>
      match List.find (λ w, Nat.eqb w.1 c) (running st) with
      | Some (_, res) =>
          Some {| pc := pc st; chunk_no := chunk_no st; pending := pending st;
                  chunk_interface_results := res;
                  timeout_occurred := timeout_occurred st; timer := timer st;
                  running := List.filter (λ w, negb (Nat.eqb w.1 c)) (running st);
                  watchdog_fired_first := watchdog_fired_first st;
                  interface_results := interface_results st |}
      | None => None
      end
  end.

Fixpoint run (schedule : list Event) (st : State) : option State :=
  match schedule with
  | [] => Some st
  | ev :: schedule' =>
      match step ev st with
      | Some st' => run schedule' st'
      | None => None
      end
  end.

(** The loop about to process chunks whose checks return [results]. *)
Definition initial (results : list (gmap string InterfaceResult)) : State :=
  {| pc := AtReset; chunk_no := 0; pending := results;
     chunk_interface_results := ∅; timeout_occurred := false; timer := Idle;
     running := []; watchdog_fired_first := []; interface_results := ∅ |}.

End Watchdog.

(** ** Predicates used in the statements *)

(** The constraints of [uploaded_orders]: unique order numbers, unique
    primary keys, keys below the next key to be handed out. *)
Definition wf_db (d : DB) : Prop :=
  NoDup (map OrderNumber (uploaded_orders d))
  ∧ NoDup (map Id (uploaded_orders d))
  ∧ Forall (λ o, Id o < next_order_id d) (uploaded_orders d).

(** Primary key and business key of every stored order, in table order. *)
Definition order_keys (d : DB) : list (nat * string) :=
  map (λ o, (Id o, OrderNumber o)) (uploaded_orders d).

Definition store_inv (ks : list (nat * string)) (d : DB) : Prop :=
  wf_db d ∧ ks `prefix_of` order_keys d.

(** A property of databases that holds of what is committed and of what
    the session sees. *)
Definition db_inv (Q : DB → Prop) (w : World) : Prop :=
  Q (committed w) ∧ Q (view w).

(** A computation keeps a property of the world, however it ends. *)
Definition preserves {A} (P : World → Prop) (m : M A) : Prop :=
  ∀ fr, P (world fr) → P (world (m fr).2).

Definition no_faults (r : Run) : Prop := ∀ st, run_fault r st = None.

(** A sequence of uploads, one after the other. *)
Definition run_all (runs : list Run) (w : World) : World :=
  fold_left (λ w r, (process_upload_background r w).2) runs w.

(** The world after [start]: the session is open on the committed
    database, in which the task row, if any, is marked processing. *)
Definition started (r : Run) (w : World) : DB :=
  match find_task (run_task_id r) (committed w) with
  | Some _ => set_task (run_task_id r) (task_set_status "processing") (committed w)
  | None => committed w
  end.

(** The task row named [tid] exists. *)
Definition has_task (tid : string) (d : DB) : Prop := is_Some (find_task tid d).

(** A frame whose session is open on the committed database [d]. *)
Definition open_frame (d : DB) (x : list (string * list string)) (tv : option (option string)) : Frame :=
  {| world := {| committed := d; session := Some d; ext_calls := x |}; task_var := tv |}.

(** ** Example inputs *)

Definition c10_file : UploadFile :=
  {| uf_filename := "AURA-SHOPEE-5-1.xlsx"; uf_size := Some 2048;
     uf_content_type := Some "application/vnd.openxmlformats-officedocument.spreadsheetml.sheet" |}.

Definition c10_info : FilenameInfo :=
  {| fi_brand := "AURA"; fi_sales_channel := "SHOPEE"; fi_date := "5";
     fi_batch := "1"; fi_extension := "xlsx" |}.

Definition c10_db : DB :=
  {| upload_tasks := []; upload_history := []; uploaded_orders := [];
     brand_shops := [ {| bs_brand := "AURA"; bs_marketplace_id := 3; bs_shop_key_1 := Some "LZ-1" |} ];
     next_order_id := 1 |}.


(** The input-validation failures of the pipeline and the exception each
    one raises. *)
Inductive validation_failure (r : Run) : exn → Prop :=
| vf_filename_unparseable :
    parse_filename (run_filename r) = Ok None →
    validation_failure r (Exception "Invalid filename format")
| vf_filename_invalid e :
    parse_filename (run_filename r) = Raise e →
    validation_failure r e
| vf_extension fi :
    parse_filename (run_filename r) = Ok (Some fi) →
    Py.endswith (run_filename r) ".xlsx" = false →
    Py.endswith (run_filename r) ".csv" = false →
    validation_failure r (Exception "Unsupported file format")
| vf_columns fi df mp :
    parse_filename (run_filename r) = Ok (Some fi) →
    read_file r = lift (Ok df) →
    get_marketplace_mapping (fi_sales_channel fi) = Some mp →
    missing_columns mp df ≠ [] →
    validation_failure r
      (Exception ("Missing required columns for " +:+ fi_sales_channel fi +:+ ": "
                  +:+ Py.join ", " (missing_columns mp df)))
| vf_order_numbers fi df mp :
    parse_filename (run_filename r) = Ok (Some fi) →
    read_file r = lift (Ok df) →
    get_marketplace_mapping (fi_sales_channel fi) = Some mp →
    missing_columns mp df = [] →
    non_empty_count (order_numbers df (m_order_number mp)) = 0 →
    validation_failure r
      (Exception ("No valid order numbers found in " +:+ default "None" (m_order_number mp)
                  +:+ " column")).

Definition shopee_columns : list string :=
  [ "No. Pesanan"; "Status Pesanan"; "Waktu Pesanan Dibuat"; "No. Resi"; "Nomor Referensi SKU" ].

(** The sheet of the specification's example: two rows for S-100 with
    different SKUs, one row for S-101. *)
Definition example_df : DataFrame :=
  {| columns := shopee_columns;
     rows := [ [Some "S-100"; Some "READY"; Some "2024-01-05"; Some "AWB1"; Some "SKU-A"];
               [Some "S-101"; Some "READY"; Some "2024-01-05"; None; Some "SKU-C"];
               [Some "S-100"; Some "LATE"; Some "2024-01-06"; Some "AWB9"; Some "SKU-B"] ] |}.

(** The same sheet without its tracking column. *)
Definition example_df_no_awb : DataFrame :=
  {| columns := [ "No. Pesanan"; "Status Pesanan"; "Waktu Pesanan Dibuat" ];
     rows := [ [Some "S-100"; Some "READY"; Some "2024-01-05"] ] |}.

Definition example_clock : Clock :=
  {| current_time := Naive 1000;
     to_datetime := λ col i, match col !! i with
                             | Some (Some _) => Some (Naive (Z.of_nat i))
                             | _ => None
                             end;
     strptime := λ _, None |}.

(** An external system that knows S-100 only. *)
Definition example_external : External :=
  {| ext_connect := true;
     ext_rows := λ _ _ nums,
       if Py.mem "S-100" nums
       then {[ "S-100" := {| x_system_ref_id := Some "F-1"; x_order_status := Some "SHIPPED";
                             x_item_id_flexo := Some "SKU-A";
                             x_interface_status := "Interface" |} ]}
       else ∅;
     chunk_times_out := λ _ _, false |}.

Definition example_run (tid : string) (file : Result DataFrame) : Run :=
  {| run_task_id := tid; run_filename := "AURA-SHOPEE-5-1.xlsx"; run_file := file;
     run_user := "ana"; run_clock := example_clock; run_external := example_external;
     run_fault := λ _, None |}.

Definition example_task (tid : string) : UploadTask :=
  {| task_id := tid; task_name := "AURA-SHOPEE-5-1.xlsx"; status := "pending";
     marketplace := "SHOPEE"; brand := "AURA"; batch := "1"; pic := "ana";
     total_orders := 0; processed_orders := 0; error_message := None |}.

Definition example_world : World :=
  {| committed := {| upload_tasks := [example_task "t1"; example_task "t2"];
                     upload_history := []; uploaded_orders := []; brand_shops := [];
                     next_order_id := 1 |};
     session := None; ext_calls := [] |}.

(** A computation leaves the local variable [task] as it is. *)
Definition keeps_task_var {A} (m : M A) : Prop :=
  ∀ fr, task_var (m fr).2 = task_var fr.


Definition tokopedia_mapping : Mapping :=
  {| m_brand := "TOKOPEDIA"; m_order_number := Some "Nomor Invoice";
     m_order_status := Some "Status Terakhir"; m_order_date := None;
     m_wh_loc := None; m_awb := Some "No Resi / Kode Booking";
     m_transporter := None; m_sla := None; m_sku_field := None |}.

(** A Tokopedia export: invoice number, status and tracking code, no
    date column. *)
Definition tokopedia_df : DataFrame :=
  {| columns := [ "Nomor Invoice"; "Status Terakhir"; "No Resi / Kode Booking" ];
     rows := [ [Some "INV/20240105/MPL/1"; Some "Pesanan Baru"; Some "TKP-1"] ] |}.

Definition tokopedia_run : Run :=
  {| run_task_id := "t1"; run_filename := "AURA-TOKOPEDIA-5-1.xlsx"; run_file := Ok tokopedia_df;
     run_user := "ana"; run_clock := example_clock; run_external := example_external;
     run_fault := λ _, None |}.

Definition tokopedia_info : FilenameInfo :=
  {| fi_brand := "AURA"; fi_sales_channel := "TOKOPEDIA"; fi_date := "5";
     fi_batch := "1"; fi_extension := "xlsx" |}.

(** The upload-history row a run adds. *)
Definition history_row (r : Run) (fi : FilenameInfo) : UploadHistory :=
  {| h_marketplace := fi_sales_channel fi; h_brand := fi_brand fi;
     h_pic := run_user r; h_batch := fi_batch fi |}.

(** What the external system would answer for the chunk holding S-101,
    were its query to complete. *)
Definition late_result : gmap string InterfaceResult :=
  {[ "S-101" := result_found {| x_system_ref_id := Some "F-2"; x_order_status := Some "SHIPPED";
                                x_item_id_flexo := None; x_interface_status := "Interface" |} ]}.

(** A schedule of one chunk: the watchdog fires while the check is still
    running, the join times out, the main thread cancels the timer and
    clears the chunk result; the check then returns, and the main thread
    merges. *)
Definition late_schedule : list Watchdog.Event :=
  [ Watchdog.MainStep; Watchdog.MainStep; Watchdog.TimerFires; Watchdog.JoinTimesOut;
    Watchdog.MainStep; Watchdog.MainStep; Watchdog.CheckReturns 0; Watchdog.MainStep;
    Watchdog.MainStep ].

Definition order_S101 : OrderData :=
  {| od_Marketplace := "SHOPEE"; od_Brand := "AURA"; od_OrderNumber := "S-101";
     od_OrderStatus := "READY"; od_AWB := ""; od_Transporter := "";
     od_OrderDate := WIB 1; od_SLA := ""; od_Batch := "1"; od_PIC := "ana";
     od_UploadDate := Naive 1000; od_TaskId := "t1"; od_ItemId := Some "SKU-C" |}.


Definition stored_order (id : nat) (num istatus : string) : UploadedOrder :=
  {| Id := id; Marketplace := "SHOPEE"; Brand := "AURA"; OrderNumber := num;
     OrderStatus := "READY"; AWB := ""; Transporter := ""; OrderDate := WIB 1; SLA := "";
     Batch := "1"; PIC := "ana"; UploadDate := Naive 1000; Remarks := "";
     InterfaceStatus := istatus; TaskId := "t1"; OrderNumberFlexo := Some "";
     OrderStatusFlexo := Some ""; ItemId := None; ItemIdFlexo := None |}.



(** The trimmed, stringified order numbers of the rows that carry one. *)
Definition trimmed_order_numbers (df : DataFrame) (order_number_col : option string) : list string :=
  map (λ r, Py.strip (row_order_number df order_number_col r)) (valid_rows df order_number_col).


Definition shopee_mapping : Mapping :=
  {| m_brand := "SHOPEE"; m_order_number := Some "No. Pesanan";
     m_order_status := Some "Status Pesanan"; m_order_date := Some "Waktu Pesanan Dibuat";
     m_wh_loc := Some "Nama Gudang"; m_awb := Some "No. Resi";
     m_transporter := Some "Opsi Pengiriman";
     m_sla := Some "Pesanan Harus Dikirimkan Sebelum (Menghindari keterlambatan)";
     m_sku_field := Some "Nomor Referensi SKU" |}.

(** ** The upsert engine, stated on rows *)

(** The record of the upload with order number [k], if any. *)
Definition find_upload (all_order_data : list OrderData) (k : string) : option OrderData :=
  List.find (λ od, String.eqb (od_OrderNumber od) k) all_order_data.

(** The orders of the upload that are not stored yet. *)
Definition fresh_orders (os : list UploadedOrder) (all_order_data : list OrderData)
    : list OrderData :=
  List.filter (λ od, negb (number_taken os (od_OrderNumber od))) all_order_data.

(** What the upsert engine is meant to leave in the order table: every
    stored row whose number is in the upload overwritten in place, the
    other rows untouched, the new orders appended with fresh keys. *)
Definition upsert_rows (interface_results : gmap string InterfaceResult)
    (all_order_data : list OrderData) (os : list UploadedOrder) (next : nat)
    : list UploadedOrder :=
  map (λ o, match find_upload all_order_data (OrderNumber o) with
            | Some od => apply_update o (assign_interface interface_results od)
            | None => o
            end) os
  ++ imap (λ i od, new_order (next + i) (assign_interface interface_results od))
          (fresh_orders os all_order_data).

(** The two lists built by [classify], as functions of the upload. *)
Definition to_update (ir : gmap string InterfaceResult) (existing : gmap string nat)
    (all_order_data : list OrderData) : list (nat * Reconciled) :=
  omap (λ od, (λ id, (id, assign_interface ir od)) <$> existing !! od_OrderNumber od)
       all_order_data.

Definition to_insert (ir : gmap string InterfaceResult) (existing : gmap string nat)
    (all_order_data : list OrderData) : list Reconciled :=
  map (assign_interface ir)
      (List.filter (λ od, bool_decide (existing !! od_OrderNumber od = None)) all_order_data).

(** All updates of the loop applied to one row. *)
Definition upd_all (us : list (nat * Reconciled)) (o : UploadedOrder) : UploadedOrder :=
  fold_left (λ o u, if Nat.eqb (Id o) u.1 then apply_update o u.2 else o) us o.

(** The database after a successful bulk insert of [l]. *)
Definition inserted (d : DB) (l : list Reconciled) : DB :=
  {| upload_tasks := upload_tasks d; upload_history := upload_history d;
     uploaded_orders := uploaded_orders d ++ imap (λ i rd, new_order (next_order_id d + i) rd) l;
     brand_shops := brand_shops d;
     next_order_id := next_order_id d + length l |}.

(** The database after the upsert of an upload. *)
Definition upserted (ir : gmap string InterfaceResult) (all_order_data : list OrderData)
    (d : DB) : DB :=
  {| upload_tasks := upload_tasks d; upload_history := upload_history d;
     uploaded_orders := upsert_rows ir all_order_data (uploaded_orders d) (next_order_id d);
     brand_shops := brand_shops d;
     next_order_id := next_order_id d + length (fresh_orders (uploaded_orders d) all_order_data) |}.

(** The stored orders owned by a task. *)
Definition uploaded_by (tid : string) (d : DB) : list UploadedOrder :=
  List.filter (λ o, String.eqb (TaskId o) tid) (uploaded_orders d).

Definition completed (task : option string) (tid : string) (d : DB) : DB :=
  match task with
  | Some t => set_task t (task_complete (length (uploaded_by tid d))) d
  | None => d
  end.

(** The result dictionary of a successful run. *)
Definition result_of (tid : string) (all_order_data : list OrderData) (d d' : DB) : UploadResult :=
  let uploaded := uploaded_by tid d' in
  let n_interface := length (List.filter (λ o, String.eqb (InterfaceStatus o) "Interface") uploaded) in
  {| interface_count := n_interface;
     not_interface_count := length uploaded - n_interface;
     res_total_orders := length uploaded;
     new_orders := length (fresh_orders (uploaded_orders d) all_order_data);
     replaced_orders :=
       length (List.filter (λ od, number_taken (uploaded_orders d) (od_OrderNumber od))
                           all_order_data) |}.

(** A file accepted by [ingest]: its filename parses, it can be read,
    its channel has a schema, no required column is missing, some order
    number is present, and normalization returns the canonical records. *)
Record accepted (r : Run) (fi : FilenameInfo) (mp : Mapping) (df : DataFrame)
    (all_order_data : list OrderData) : Prop := {
  acc_no_faults : no_faults r;
  acc_filename : parse_filename (run_filename r) = Ok (Some fi);
  acc_file : read_file r = lift (Ok df);
  acc_mapping : get_marketplace_mapping (fi_sales_channel fi) = Some mp;
  acc_columns : missing_columns mp df = [];
  acc_numbers : non_empty_count (order_numbers df (m_order_number mp)) ≠ 0;
  acc_normalize :
    normalize (run_clock r) (fi_sales_channel fi) (fi_brand fi) (fi_batch fi) (run_user r)
      (run_task_id r) mp (fi_date fi) df = Ok all_order_data
}.

(** The database in which [persist] starts: the task marked processing
    and the history row added. *)
Definition ingested (r : Run) (fi : FilenameInfo) (w : World) : DB :=
  with_history (λ h, h ++ [history_row r fi]) (started r w).

(** No row of the external system carries order number [k]: either no
    connection can be opened, or no query returns a row for it. *)
Definition absent_externally (x : External) (k : string) : Prop :=
  ext_connect x = false ∨ ∀ field mkt nums, ext_rows x field mkt nums !! k = None.

(** Whatever [m] holds for order number [k] is the not-found entry. *)
Definition only_not_found (k : string) (m : gmap string InterfaceResult) : Prop :=
  ∀ e, m !! k = Some e → e = result_not_found.

Definition order_S100 : OrderData :=
  {| od_Marketplace := "SHOPEE"; od_Brand := "AURA"; od_OrderNumber := "S-100";
     od_OrderStatus := "READY"; od_AWB := "AWB1"; od_Transporter := "";
     od_OrderDate := WIB 0; od_SLA := ""; od_Batch := "1"; od_PIC := "ana";
     od_UploadDate := Naive 1000; od_TaskId := "t1"; od_ItemId := Some "SKU-A,SKU-B" |}.

(** ** Re-ingestion *)

(** The same invocation under another task id. *)
Definition with_task_id (tid : string) (r : Run) : Run :=
  {| run_task_id := tid; run_filename := run_filename r; run_file := run_file r;
     run_user := run_user r; run_clock := run_clock r; run_external := run_external r;
     run_fault := run_fault r |}.

Definition retask (tid : string) (od : OrderData) : OrderData :=
  {| od_Marketplace := od_Marketplace od; od_Brand := od_Brand od;
     od_OrderNumber := od_OrderNumber od; od_OrderStatus := od_OrderStatus od;
     od_AWB := od_AWB od; od_Transporter := od_Transporter od;
     od_OrderDate := od_OrderDate od; od_SLA := od_SLA od; od_Batch := od_Batch od;
     od_PIC := od_PIC od; od_UploadDate := od_UploadDate od; od_TaskId := tid;
     od_ItemId := od_ItemId od |}.

(** What a second run of the same sheet changes in a row of the first
    run: the owning task, and a null foreign order number or status
    becomes the empty string. *)
Definition restamp (tid : string) (nums : list string) (o : UploadedOrder) : UploadedOrder :=
  if Py.mem (OrderNumber o) nums then
    {| Id := Id o; Marketplace := Marketplace o; Brand := Brand o;
       OrderNumber := OrderNumber o; OrderStatus := OrderStatus o; AWB := AWB o;
       Transporter := Transporter o; OrderDate := OrderDate o; SLA := SLA o;
       Batch := Batch o; PIC := PIC o; UploadDate := UploadDate o; Remarks := "";
       InterfaceStatus := InterfaceStatus o; TaskId := tid;
       OrderNumberFlexo := Some (default "" (OrderNumberFlexo o));
       OrderStatusFlexo := Some (default "" (OrderStatusFlexo o));
       ItemId := ItemId o; ItemIdFlexo := ItemIdFlexo o |}
  else o.

(** ** Filenames, as written *)

(** Every character of [s] satisfies [p]. *)
Fixpoint all_chars (p : ascii → bool) (s : string) : bool :=
  match s with
  | EmptyString => true
  | String c s' => p c && all_chars p s'
  end.




(** ** The legacy file validator *)

(** [validate_file_upload]: the file checks of [validate_upload_request]
    without filename parsing and shop-key lookup. A missing size makes the
    comparison raise, which the handler turns into a 400. *)
Definition validate_file_upload (file : UploadFile) : Result bool :=
  match uf_size file with
  | None => Raise (HTTPException 400 "File validation failed")
  | Some size =>
  if (MAX_FILE_SIZE <? size)%nat
  then Raise (HTTPException 413 "File too large. Maximum size is 50MB") else
  if negb (Py.truthy (uf_filename file))
  then Raise (HTTPException 400 "No filename provided") else
  if negb (Py.mem (Py.lower (splitext_ext (uf_filename file))) ALLOWED_EXTENSIONS)
  then Raise (HTTPException 400 ("Invalid file type. Allowed types: "
                                 +:+ Py.join ", " ALLOWED_EXTENSIONS)) else
  if negb (match uf_content_type file with
           | Some ct => Py.mem ct ALLOWED_MIME_TYPES
           | None => false
           end)
  then Raise (HTTPException 400 "Invalid file MIME type") else
  if existsb (contains (uf_filename file)) forbidden_fragments
  then Raise (HTTPException 400 "Invalid characters in filename") else
  Ok true
  end.

(** A brand with a Shopee shop key. *)
Definition shopee_shop_db : DB :=
  {| upload_tasks := []; upload_history := []; uploaded_orders := [];
     brand_shops := [ {| bs_brand := "AURA"; bs_marketplace_id := 2; bs_shop_key_1 := Some "SP-1" |} ];
     next_order_id := 1 |}.

(** An upload whose name carries a second, upper-case extension. *)
Definition odd_extension_file : UploadFile :=
  {| uf_filename := "AURA-SHOPEE-5-1.xlsx.CSV"; uf_size := Some 2048;
     uf_content_type := Some "text/csv" |}.




(** ** The watchdog loop, over all schedules *)

(** Every entry of [m] is an entry of one of the check results. *)
Definition from_results (results : list (gmap string InterfaceResult))
    (m : gmap string InterfaceResult) : Prop :=
  ∀ k e, m !! k = Some e → ∃ res, res ∈ results ∧ res !! k = Some e.

(** An event of a schedule in which no chunk runs into its timeout. *)
Definition timely (ev : Watchdog.Event) : bool :=
  match ev with
  | Watchdog.MainStep | Watchdog.CheckReturns _ => true
  | Watchdog.JoinTimesOut | Watchdog.TimerFires => false
  end.

(** [interface_results.update(res)] for every check result in turn. *)
Definition merge_all (results : list (gmap string InterfaceResult))
    : gmap string InterfaceResult :=
  fold_left (λ interface_results res, res ∪ interface_results) results ∅.

(** The schedule in which every check returns before the main thread
    joins it. *)
Fixpoint timely_schedule (first n : nat) : list Watchdog.Event :=
  match n with
  | O => [Watchdog.MainStep]
  | S n' =>
      [ Watchdog.MainStep; Watchdog.MainStep; Watchdog.CheckReturns first; Watchdog.MainStep;
        Watchdog.MainStep; Watchdog.MainStep; Watchdog.MainStep ]
      ++ timely_schedule (S first) n'
  end.

(** What every reachable state of the loop satisfies: whatever is
    pending, running, held in the shared variable or already merged is
    (part of) a check result. *)
Definition wd_inv (results : list (gmap string InterfaceResult)) (st : Watchdog.State) : Prop :=
  (∀ res, res ∈ Watchdog.pending st → res ∈ results)
  ∧ (∀ w, w ∈ Watchdog.running st → w.2 ∈ results)
  ∧ from_results results (Watchdog.chunk_interface_results st)
  ∧ from_results results (Watchdog.interface_results st).

(** The states reachable without a timeout: the chunks before the
    current one are merged, in order; at most the current check runs. *)
Definition timely_inv (results : list (gmap string InterfaceResult)) (st : Watchdog.State)
    : Prop :=
  Watchdog.timeout_occurred st = false
  ∧ ∃ done,
      Watchdog.interface_results st = merge_all done
      ∧ match Watchdog.pc st with
        | Watchdog.AtReset | Watchdog.AtStart =>
            results = done ++ Watchdog.pending st ∧ Watchdog.running st = []
        | Watchdog.AtJoin =>
            ∃ cur, results = done ++ cur :: Watchdog.pending st
                   ∧ (Watchdog.running st = [(Watchdog.chunk_no st, cur)]
                      ∨ (Watchdog.running st = []
                         ∧ Watchdog.chunk_interface_results st = cur))
        | Watchdog.AtCancel | Watchdog.AtCheck | Watchdog.AtMerge =>
            ∃ cur, results = done ++ cur :: Watchdog.pending st
                   ∧ Watchdog.running st = []
                   ∧ Watchdog.chunk_interface_results st = cur
        | Watchdog.Finished => results = done
        end.

(** What the checks of the chunks of one marketplace return. *)
Definition check_results (x : External) (mkt : string) (orders : list OrderData)
    : list (gmap string InterfaceResult) :=
  map (λ chunk, check_interface_status x chunk mkt)
      (chunks EXTERNAL_CHUNK_SIZE (List.filter Py.truthy (map od_OrderNumber orders))).

(** ** The upload log *)

Record LogEntry : Type := {
  log_timestamp : string;
  log_level : string;
  log_message : string
}.

(** [l[-n:]] for a positive [n]. *)
Definition last_n {A} (n : nat) (l : list A) : list A := drop (length l - n) l.

(** [add_upload_log], on the module-level dict [upload_logs]; [now] is
    [datetime.now().isoformat()]. *)
Definition add_upload_log (upload_logs : gmap string (list LogEntry))
    (task_id level message now : string) : gmap string (list LogEntry) :=
  let upload_logs :=
    match upload_logs !! task_id with
    | Some _ => upload_logs
    | None => <[task_id := []]> upload_logs
    end in
  let log_entry := {| log_timestamp := now; log_level := level; log_message := message |} in
  let entries := default [] (upload_logs !! task_id) ++ [log_entry] in
  let upload_logs := <[task_id := entries]> upload_logs in
  if (1000 <? length entries)%nat
  then <[task_id := last_n 1000 entries]> upload_logs
  else upload_logs.

(** One call of [add_upload_log]. *)
Record LogCall : Type := {
  call_task_id : string;
  call_level : string;
  call_message : string;
  call_now : string
}.

Definition log_all (calls : list LogCall) : gmap string (list LogEntry) :=
  fold_left (λ upload_logs c,
               add_upload_log upload_logs (call_task_id c) (call_level c) (call_message c)
                              (call_now c)) calls ∅.

(** The entries logged for one task, oldest first. *)
Definition logged_for (task_id : string) (calls : list LogCall) : list LogEntry :=
  map (λ c, {| log_timestamp := call_now c; log_level := call_level c;
               log_message := call_message c |})
      (List.filter (λ c, String.eqb (call_task_id c) task_id) calls).

(** ** Rows of the external system *)

(** One fetched row of the query of [check_external_database_status]
    (the columns the pipeline uses). *)
Record ExternalRow : Type := {
  er_system_ref_id : option string;
  er_order_status : option string;
  er_order_number : string;
  er_item_id_flexo : option string;
  er_interface_status : string
}.

(** An entry of [all_results] while rows are processed: 'item_id_flexo'
    is still a list. *)
Record Collected : Type := {
  col_system_ref_id : option string;
  col_order_status : option string;
  col_item_id_flexo : list string;
  col_interface_status : string
}.

(** The body of the loop over the fetched rows. *)
Definition collect_row (all_results : gmap string Collected) (result : ExternalRow)
    : gmap string Collected :=
  let order_number := er_order_number result in
  let all_results :=
    match all_results !! order_number with
    | Some _ => all_results
    | None =>
        <[order_number := {| col_system_ref_id := er_system_ref_id result;
                             col_order_status := er_order_status result;
                             col_item_id_flexo := [];
                             col_interface_status := er_interface_status result |}]> all_results
    end in
  match er_item_id_flexo result, all_results !! order_number with
  | Some item_id_flexo, Some entry =>
      if Py.truthy item_id_flexo && negb (Py.mem item_id_flexo (col_item_id_flexo entry))
      then <[order_number := {| col_system_ref_id := col_system_ref_id entry;
                                col_order_status := col_order_status entry;
                                col_item_id_flexo := col_item_id_flexo entry ++ [item_id_flexo];
                                col_interface_status := col_interface_status entry |}]> all_results
      else all_results
  | _, _ => all_results
  end.

(** The conversion of the item lists to comma-separated strings. *)
Definition finish_collected (entry : Collected) : ExternalData :=
  {| x_system_ref_id := col_system_ref_id entry;
     x_order_status := col_order_status entry;
     x_item_id_flexo := match col_item_id_flexo entry with
                        | [] => None
                        | item_id_flexo_list => Some (Py.join "," item_id_flexo_list)
                        end;
     x_interface_status := col_interface_status entry |}.

(** The dict [check_external_database_status] returns for the fetched
    rows. *)
Definition collect_rows (rows : list ExternalRow) : gmap string ExternalData :=
  finish_collected <$> fold_left collect_row rows ∅.

(** The rows fetched for one order number, in fetch order. *)
Definition rows_of (order_number : string) (rows : list ExternalRow) : list ExternalRow :=
  List.filter (λ r, String.eqb (er_order_number r) order_number) rows.

(** ** The status endpoint *)




(** ** What a run leaves alone *)

(** The columns of a task row that identify the upload. *)
Definition task_identity (t : UploadTask) : string * string * string * string * string * string :=
  (task_id t, task_name t, marketplace t, brand t, batch t, pic t).

(** The task rows of other uploads. *)
Definition other_tasks (tid : string) (d : DB) : list UploadTask :=
  List.filter (λ t, negb (String.eqb (task_id t) tid)) (upload_tasks d).

(** [d] differs from [d0] at most in the status, counts and error
    message of the task rows named [tid], in the order table, and in
    upload-history rows added at the end. *)
Definition frame_inv (tid : string) (d0 d : DB) : Prop :=
  brand_shops d = brand_shops d0
  ∧ map task_identity (upload_tasks d) = map task_identity (upload_tasks d0)
  ∧ other_tasks tid d = other_tasks tid d0
  ∧ upload_history d0 `prefix_of` upload_history d.

(** The local variable [task] is unbound, null, or the row named [tid]. *)
Definition task_var_ok (tid : string) (fr : Frame) : Prop :=
  ∀ t, task_var fr = Some (Some t) → t = tid.

(** * Properties *)

(** ** Filename parsing on examples *)

Example parse_filename_format1 :
  parse_filename "AURA-SHOPEE-5-1.xlsx"
  = Ok (Some {| fi_brand := "AURA"; fi_sales_channel := "SHOPEE"; fi_date := "5";
                fi_batch := "1"; fi_extension := "xlsx" |}).
Proof. reflexivity. Qed.

Example parse_filename_format3 :
  parse_filename "MUSTELA-TIKTOK-25-3-.xlsx"
  = Ok (Some {| fi_brand := "MUSTELA"; fi_sales_channel := "TIKTOK"; fi_date := "25";
                fi_batch := "3"; fi_extension := "xlsx" |}).
Proof. reflexivity. Qed.

Example parse_filename_format2 :
  parse_filename "CETAPHIL-SHOPEE-3.csv"
  = Ok (Some {| fi_brand := "CETAPHIL"; fi_sales_channel := "SHOPEE"; fi_date := "1";
                fi_batch := "3"; fi_extension := "csv" |}).
Proof. reflexivity. Qed.

Example parse_filename_bad : parse_filename "orders.xlsx" = Ok None.
Proof. reflexivity. Qed.

Example parse_filename_bad_date :
  parse_filename "AURA-SHOPEE-45-1.xlsx"
  = Raise (HTTPException 400 "Invalid date format in filename").
Proof. reflexivity. Qed.


(** ** Upload endpoint *)

Lemma validate_upload_request_status file d e :
  parse_filename (uf_filename file) = Ok None ∨ (∃ fi, parse_filename (uf_filename file) = Ok (Some fi)) →
  validate_upload_request file d = Raise e →
  ∃ detail, e = HTTPException 400 detail ∨ e = HTTPException 413 detail.
Proof.
  intros Hp. unfold validate_upload_request.
  repeat case_match; intros [= <-];
    try (destruct Hp as [Hp | [fi' Hp]]; congruence);
    eexists; eauto.
Qed.

Lemma writer_continues_without_shop_key ws fs d uploaded sales_channel brand_name batch_name
    user_id marketplace_folder :
  get_shop_id_from_brand_shops brand_name sales_channel d = None →
  not_interfaced_orders uploaded ≠ [] →
  assoc_get (Py.lower sales_channel) marketplace_folder_mapping = Some marketplace_folder →
  (∀ p f, fs !! p = Some f → read_only f = false) →
  ∃ n path fs',
    generate_orderlist_for_not_interfaced ws fs d uploaded sales_channel brand_name batch_name user_id
    = (Generated n path None None true, fs').
Proof.
  intros Hshop Hne Hfolder Hrw. unfold generate_orderlist_for_not_interfaced.
  destruct (not_interfaced_orders uploaded) eqn:Hni; [done |].
  rewrite Hfolder, Hshop. unfold write_and_verify.
  match goal with |- context [fs !! ?p] => destruct (fs !! p) as [[c ro] |] eqn:Hf end.
  - apply Hrw in Hf. simpl in Hf. subst ro.
    match goal with |- context [verify_and_restore_orderlist ?a ?b ?c ?d] =>
      destruct (verify_and_restore_orderlist a b c d) as [v fs2] end.
    simpl. eauto.
  - match goal with |- context [verify_and_restore_orderlist ?a ?b ?c ?d] =>
      destruct (verify_and_restore_orderlist a b c d) as [v fs2] end.
    simpl. eauto.
Qed.

(** C10. A submission whose (brand, marketplace) pair has no shop key is
    rejected by the endpoint at submission time: validation raises a
    4xx error, the endpoint answers with an HTTP error that carries it, no
    task row is added and no background task is queued. The orderlist
    writer, for the same pair, only sets its shop-id warning and still
    generates the file. *)
Theorem upload_without_shop_key_rejected file current_user new_task_id d queue fi :
  parse_filename (uf_filename file) = Ok (Some fi) →
  get_shop_id_from_brand_shops (fi_brand fi) (fi_sales_channel fi) d = None →
  (∃ e detail,
      validate_upload_request file d = Raise e
      ∧ (e = HTTPException 400 detail ∨ e = HTTPException 413 detail)
      ∧ upload_file_background file current_user new_task_id d queue
        = (Raise (HTTPException 500 ("Background upload failed: " +:+ str_exn e)), d, queue))
  ∧ (∀ ws fs uploaded batch_name user_id marketplace_folder,
        not_interfaced_orders uploaded ≠ [] →
        assoc_get (Py.lower (fi_sales_channel fi)) marketplace_folder_mapping = Some marketplace_folder →
        (∀ p f, fs !! p = Some f → read_only f = false) →
        ∃ n path fs',
          generate_orderlist_for_not_interfaced ws fs d uploaded (fi_sales_channel fi)
            (fi_brand fi) batch_name user_id
          = (Generated n path None None true, fs')).
Proof.
  intros Hp Hshop. split.
  - assert (∃ e, validate_upload_request file d = Raise e) as [e He].
    { unfold validate_upload_request. rewrite Hp, Hshop. repeat case_match; eauto. }
    destruct (validate_upload_request_status file d e) as [detail Hd]; [eauto | done |].
    exists e, detail. split; [done |]. split; [done |].
    unfold upload_file_background. by rewrite He.
  - intros. by eapply writer_continues_without_shop_key.
Qed.

Lemma upload_without_shop_key_rejected_witness :
  upload_file_background c10_file "ana" "upload_ana_1" c10_db []
  = (Raise (HTTPException 500
       "Background upload failed: 400: No shop_id found for AURA in SHOPEE. Please add shop_id configuration before uploading."),
     c10_db, []).
Proof.
  destruct (upload_without_shop_key_rejected c10_file "ana" "upload_ana_1" c10_db [] c10_info)
    as [[e [detail [Hv [_ Hu]]]] _]; [reflexivity | reflexivity |].
  rewrite Hu. vm_compute in Hv. injection Hv as <-. reflexivity.
Defined.

(** ** The run monad *)

Lemma bind_ok {A B} (m : M A) (k : A → M B) fr a fr' :
  m fr = (Ok a, fr') → (m ≫= k) fr = k a fr'.
Proof. intros H. unfold mbind, M_bind. by rewrite H. Qed.

Lemma bind_raise {A B} (m : M A) (k : A → M B) fr e fr' :
  m fr = (Raise e, fr') → (m ≫= k) fr = (Raise e, fr').
Proof. intros H. unfold mbind, M_bind. by rewrite H. Qed.

Lemma inject_ok r st fr : run_fault r st = None → inject r st fr = (Ok tt, fr).
Proof. intros H. unfold inject. by rewrite H. Qed.

Section Preserves.
Context (P : World → Prop).

Lemma preserves_ret {A} (a : A) : preserves P (mret a).
Proof. by intros fr H. Qed.

Lemma preserves_raise {A} e : preserves P (raise (A:=A) e).
Proof. by intros fr H. Qed.

Lemma preserves_lift {A} (x : Result A) : preserves P (lift x).
Proof. by intros fr H. Qed.

Lemma preserves_inject r st : preserves P (inject r st).
Proof. intros fr H. unfold inject. by destruct (run_fault r st). Qed.

Lemma preserves_bind {A B} (m : M A) (k : A → M B) :
  preserves P m → (∀ a, preserves P (k a)) → preserves P (m ≫= k).
Proof.
  intros Hm Hk fr H. unfold mbind, M_bind.
  specialize (Hm fr H). destruct (m fr) as [[a | e] fr']; simpl in *; [by apply Hk | done].
Qed.

Lemma preserves_bind_task t : preserves P (bind_task t).
Proof. by intros fr H. Qed.

Lemma preserves_db_view : preserves P db_view.
Proof. by intros fr H. Qed.

Lemma preserves_on_world f : (∀ w, P w → P (f w)) → preserves P (on_world f).
Proof. intros Hf fr H. by apply Hf. Qed.

End Preserves.

Section DbInv.
Context (Q : DB → Prop).

Lemma inv_SessionLocal : preserves (db_inv Q) SessionLocal.
Proof. apply preserves_on_world. intros w [Hc _]. by split. Qed.

Lemma inv_commit_world w : db_inv Q w → db_inv Q (commit_world w).
Proof. intros [_ Hv]. by split. Qed.

Lemma inv_db_commit : preserves (db_inv Q) db_commit.
Proof. apply preserves_on_world, inv_commit_world. Qed.

Lemma inv_db_rollback : preserves (db_inv Q) db_rollback.
Proof. apply preserves_on_world. intros w [Hc _]. by split. Qed.

Lemma inv_record_calls cs : preserves (db_inv Q) (record_calls cs).
Proof. apply preserves_on_world. by intros w [Hc Hv]. Qed.

Lemma inv_db_modify f : (∀ d, Q d → Q (f d)) → preserves (db_inv Q) (db_modify f).
Proof. intros Hf. apply preserves_on_world. intros w [Hc Hv]. split; [done | by apply Hf]. Qed.

Lemma inv_db_try f : (∀ d d', Q d → f d = Some d' → Q d') → preserves (db_inv Q) (db_try f).
Proof.
  intros Hf fr [Hc Hv]. unfold db_try.
  destruct (f (view (world fr))) as [d' |] eqn:E; simpl; [| done].
  split; [done | by eapply Hf].
Qed.

Lemma inv_release w : db_inv Q w → db_inv Q (release w).
Proof. intros [Hc Hv]. unfold release. destruct (session w); by split. Qed.

End DbInv.

(** ** The store constraints are kept by every statement of the pipeline *)

Lemma update_row_Id os u : map Id (update_row os u) = map Id os.
Proof.
  unfold update_row. rewrite map_map. apply map_ext. intros o.
  by destruct (Nat.eqb (Id o) u.1).
Qed.

Lemma update_row_OrderNumber os u : map OrderNumber (update_row os u) = map OrderNumber os.
Proof.
  unfold update_row. rewrite map_map. apply map_ext. intros o.
  by destruct (Nat.eqb (Id o) u.1).
Qed.

Lemma update_rows_Id us : ∀ os, map Id (update_rows os us) = map Id os.
Proof.
  unfold update_rows. induction us as [| u us IH]; intros os; simpl; [done |].
  by rewrite IH, update_row_Id.
Qed.

Lemma update_rows_OrderNumber us : ∀ os, map OrderNumber (update_rows os us) = map OrderNumber os.
Proof.
  unfold update_rows. induction us as [| u us IH]; intros os; simpl; [done |].
  by rewrite IH, update_row_OrderNumber.
Qed.

Lemma order_keys_zip d :
  order_keys d = zip (map Id (uploaded_orders d)) (map OrderNumber (uploaded_orders d)).
Proof.
  unfold order_keys. induction (uploaded_orders d) as [| o os IH]; simpl; [done | by rewrite IH].
Qed.

Lemma number_taken_spec os num : number_taken os num = true ↔ num ∈ map OrderNumber os.
Proof.
  unfold number_taken. rewrite existsb_exists, list_elem_of_fmap. split.
  - intros [o [Hin Heq]]. apply String.eqb_eq in Heq. exists o. split; [done |].
    by apply list_elem_of_In.
  - intros [o [-> Hin]]. exists o. split; [by apply list_elem_of_In | apply String.eqb_refl].
Qed.

Lemma store_inv_with_tasks ks f d : store_inv ks d → store_inv ks (with_tasks f d).
Proof. done. Qed.

Lemma store_inv_set_task ks tid f d : store_inv ks d → store_inv ks (set_task tid f d).
Proof. done. Qed.

Lemma store_inv_with_history ks f d : store_inv ks d → store_inv ks (with_history f d).
Proof. done. Qed.

Lemma store_inv_insert_order ks d rd d' :
  store_inv ks d → insert_order d rd = Some d' → store_inv ks d'.
Proof.
  intros [(Hn & Hi & Hlt) Hpre]. unfold insert_order.
  destruct (number_taken (uploaded_orders d) (od_OrderNumber (r_data rd))) eqn:Ht; [done |].
  intros [= <-]. unfold store_inv, wf_db, order_keys. simpl.
  rewrite !map_app. simpl. repeat split.
  - apply NoDup_app. split; [done |]. split; [| apply NoDup_singleton].
    intros x Hx Hx'. apply list_elem_of_singleton in Hx'. subst x.
    apply number_taken_spec in Hx. congruence.
  - apply NoDup_app. split; [done |]. split; [| apply NoDup_singleton].
    intros x Hx Hx'. apply list_elem_of_singleton in Hx'. subst x.
    apply list_elem_of_fmap in Hx as [o [Ho Hin]].
    rewrite Forall_forall in Hlt. apply Hlt in Hin. lia.
  - apply Forall_app. split.
    + eapply Forall_impl; [exact Hlt |]. simpl. intros; lia.
    + apply Forall_singleton. simpl. lia.
  - by apply prefix_app_r.
Qed.

Lemma store_inv_bulk_insert ks l : ∀ d d',
  store_inv ks d → bulk_insert_mappings d l = Some d' → store_inv ks d'.
Proof.
  induction l as [| rd l IH]; intros d d' Hd; simpl.
  - by intros [= <-].
  - destruct (insert_order d rd) as [d1 |] eqn:E; [| done].
    apply IH. by eapply store_inv_insert_order.
Qed.

Lemma store_inv_update_rows ks us d :
  store_inv ks d → store_inv ks (with_orders (λ os, update_rows os us) d).
Proof.
  intros [(Hn & Hi & Hlt) Hpre]. unfold store_inv, wf_db. rewrite order_keys_zip. simpl.
  rewrite update_rows_Id, update_rows_OrderNumber, <- order_keys_zip.
  repeat split; try done.
  apply Forall_forall. intros o Ho.
  assert (Id o ∈ map Id (update_rows (uploaded_orders d) us)) as Hin
    by (apply list_elem_of_fmap; eauto).
  rewrite update_rows_Id in Hin. apply list_elem_of_fmap in Hin as [o' [-> Ho']].
  rewrite Forall_forall in Hlt. by apply Hlt.
Qed.

Ltac inv_auto :=
  repeat first
    [ apply preserves_ret | apply preserves_raise | apply preserves_lift
    | apply preserves_inject | apply preserves_bind_task | apply preserves_db_view
    | apply inv_SessionLocal | apply inv_db_commit | apply inv_db_rollback
    | apply inv_record_calls
    | apply inv_db_modify; intros ? ?;
        first [ by apply store_inv_set_task | by apply store_inv_with_history
              | by apply store_inv_update_rows ]
    | apply inv_db_try; intros ? ? ? ?;
        first [ by eapply store_inv_insert_order | by eapply store_inv_bulk_insert ]
    | apply preserves_bind; [| intros ?]
    | match goal with |- preserves _ (match ?x with _ => _ end) => destruct x end ].

Lemma inv_insert_individually ks l :
  preserves (db_inv (store_inv ks)) (insert_individually l).
Proof. induction l as [| rd l IH]; simpl; inv_auto. exact IH. Qed.

Lemma inv_insert_new ks l : preserves (db_inv (store_inv ks)) (insert_new l).
Proof. unfold insert_new. inv_auto. apply inv_insert_individually. Qed.

Lemma inv_fail_task ks task msg : preserves (db_inv (store_inv ks)) (fail_task task msg).
Proof. unfold fail_task. inv_auto. Qed.

Lemma inv_start ks r : preserves (db_inv (store_inv ks)) (start r).
Proof. unfold start. inv_auto. Qed.

Lemma inv_ingest ks r task : preserves (db_inv (store_inv ks)) (ingest r task).
Proof. unfold ingest, read_file. inv_auto; apply inv_fail_task. Qed.

Lemma inv_persist ks r task fi mp df :
  preserves (db_inv (store_inv ks)) (persist r task fi mp df).
Proof. unfold persist, finalize. inv_auto. apply inv_insert_new. Qed.

Lemma inv_pipeline ks r : preserves (db_inv (store_inv ks)) (pipeline r).
Proof.
  unfold pipeline. apply preserves_bind; [apply inv_start | intros task].
  apply preserves_bind; [apply inv_ingest | intros x]. apply inv_persist.
Qed.

Lemma inv_handle_failure ks e fr :
  db_inv (store_inv ks) (world fr) → db_inv (store_inv ks) (world (handle_failure e fr)).
Proof.
  intros [Hc Hv]. unfold handle_failure.
  destruct (task_var fr) as [[tid |] |]; [| by split | by split].
  simpl. split; by apply store_inv_set_task.
Qed.

Lemma inv_process ks r w :
  db_inv (store_inv ks) w → db_inv (store_inv ks) (process_upload_background r w).2.
Proof.
  intros H. unfold process_upload_background.
  pose proof (inv_pipeline ks r {| world := w; task_var := None |} H) as Hp.
  destruct (pipeline r _) as [[res | e] fr]; simpl in *.
  - by apply inv_release.
  - by apply inv_release, inv_handle_failure.
Qed.

Lemma release_session w : session (release w) = None.
Proof. unfold release. by destruct (session w) eqn:E. Qed.

Lemma process_releases r w : session (process_upload_background r w).2 = None.
Proof.
  unfold process_upload_background. destruct (pipeline r _) as [res fr]. simpl.
  apply release_session.
Qed.

(** ** Task tracker *)

Lemma find_task_id tid d t : find_task tid d = Some t → task_id t = tid.
Proof.
  unfold find_task. intros H. apply find_some in H as [_ H]. by apply String.eqb_eq in H.
Qed.

Lemma find_task_set_task tid f d :
  (∀ t, task_id (f t) = task_id t) →
  find_task tid (set_task tid f d) = f <$> find_task tid d.
Proof.
  intros Hf. unfold find_task, set_task. simpl.
  induction (upload_tasks d) as [| t ts IH]; simpl; [done |].
  destruct (String.eqb (task_id t) tid) eqn:E; simpl.
  - by rewrite Hf, E.
  - by rewrite E.
Qed.

Lemma find_task_set_task_any tid' tid f d :
  (∀ t, task_id (f t) = task_id t) →
  find_task tid' (set_task tid f d)
  = (λ t, if String.eqb (task_id t) tid then f t else t) <$> find_task tid' d.
Proof.
  intros Hf. unfold find_task, set_task. simpl.
  induction (upload_tasks d) as [| t ts IH]; simpl; [done |].
  assert (task_id (if String.eqb (task_id t) tid then f t else t) = task_id t) as ->
    by (destruct (String.eqb (task_id t) tid); [apply Hf | done]).
  by destruct (String.eqb (task_id t) tid').
Qed.

Lemma find_task_with_history tid f d : find_task tid (with_history f d) = find_task tid d.
Proof. done. Qed.

Lemma find_task_with_orders tid f d : find_task tid (with_orders f d) = find_task tid d.
Proof. done. Qed.

#[local] Arguments parse_filename : simpl never.
#[local] Arguments get_marketplace_mapping : simpl never.
#[local] Arguments missing_columns : simpl never.
#[local] Arguments non_empty_count : simpl never.
#[local] Arguments order_numbers : simpl never.
#[local] Arguments Py.endswith : simpl never.
#[local] Arguments Py.join : simpl never.
#[local] Arguments str_exn : simpl never.
#[local] Arguments String.append : simpl never.
#[local] Arguments find_task : simpl never.
#[local] Arguments set_task : simpl never.
#[local] Arguments with_history : simpl never.
#[local] Arguments with_orders : simpl never.
#[local] Arguments normalize : simpl never.
#[local] Arguments reconcile : simpl never.
#[local] Arguments reconcile_calls : simpl never.
#[local] Arguments existing_orders_dict : simpl never.
#[local] Arguments classify : simpl never.
#[local] Arguments update_rows : simpl never.
#[local] Arguments bulk_insert_mappings : simpl never.
#[local] Arguments insert_order : simpl never.

Ltac msimpl :=
  unfold mbind, M_bind, mret, M_ret, inject, SessionLocal, db_view, db_modify, db_commit,
    db_rollback, on_world, bind_task, raise, lift, record_calls, fail_task, view,
    commit_world in *;
  cbn in *.

Lemma start_spec r w tv :
  run_fault r OpenSession = None →
  run_fault r LoadTask = None →
  start r {| world := w; task_var := tv |}
  = (Ok (task_id <$> find_task (run_task_id r) (committed w)),
     {| world := {| committed := started r w; session := Some (started r w);
                    ext_calls := ext_calls w |};
        task_var := Some (task_id <$> find_task (run_task_id r) (committed w)) |}).
Proof.
  intros Hf1 Hf2. unfold start, started. msimpl. rewrite Hf1, Hf2. msimpl.
  destruct (find_task (run_task_id r) (committed w)) as [t |] eqn:E; msimpl; [| done].
  by rewrite (find_task_id _ _ _ E).
Qed.


Lemma ingest_rejects r e task d x tv :
  validation_failure r e →
  no_faults r →
  ∃ d', ingest r task (open_frame d x tv) = (Raise e, open_frame d' x tv)
        ∧ uploaded_orders d' = uploaded_orders d
        ∧ (∀ tid, is_Some (find_task tid d) → is_Some (find_task tid d')).
Proof.
  intros Hvf Hnf. unfold ingest, open_frame.
  destruct Hvf as [Hp | e Hp | fi Hp Hx Hc | fi df mp Hp Hr Hm Hmiss | fi df mp Hp Hr Hm Hmiss Hz];
    msimpl; rewrite ?Hnf; msimpl; rewrite Hp; msimpl.
  - exists d. done.
  - exists d. done.
  - rewrite ?Hnf. msimpl. unfold read_file. rewrite Hx, Hc. msimpl. exists d. done.
  - rewrite ?Hnf. msimpl. rewrite Hr. msimpl. rewrite Hm. rewrite ?Hnf. msimpl.
    rewrite ?Hnf. msimpl.
    destruct (missing_columns mp df) as [| c cs] eqn:E; [done |].
    destruct task as [tid |]; msimpl.
    + eexists. split; [reflexivity |]. split; [done |].
      intros tid' [t Ht]. rewrite find_task_set_task_any by done.
      rewrite find_task_with_history, Ht. by eexists.
    + eexists. split; [reflexivity |]. done.
  - rewrite ?Hnf. msimpl. rewrite Hr. msimpl. rewrite Hm. rewrite ?Hnf. msimpl.
    rewrite ?Hnf. msimpl. rewrite Hmiss. rewrite ?Hnf. msimpl. rewrite Hz. msimpl.
    destruct task as [tid |]; msimpl.
    + eexists. split; [reflexivity |]. split; [done |].
      intros tid' [t Ht]. rewrite find_task_set_task_any by done.
      rewrite find_task_with_history, Ht. by eexists.
    + eexists. split; [reflexivity |]. done.
Qed.

(** ** Input validation *)

(** C4 (as amended). An upload that fails input validation (filename,
    extension, required columns, order numbers) ends the run with the
    specific exception, issues no external query and leaves the order
    table as it was; the task row ends Failed with the exception's text as
    its error message, and the session is closed. *)
Theorem validation_failure_aborts r w e t :
  validation_failure r e →
  no_faults r →
  find_task (run_task_id r) (committed w) = Some t →
  (process_upload_background r w).1 = Raise e
  ∧ ext_calls (process_upload_background r w).2 = ext_calls w
  ∧ uploaded_orders (committed (process_upload_background r w).2) = uploaded_orders (committed w)
  ∧ session (process_upload_background r w).2 = None
  ∧ ∃ t', find_task (run_task_id r) (committed (process_upload_background r w).2) = Some t'
          ∧ status t' = "failed" ∧ error_message t' = Some (str_exn e).
Proof.
  intros Hvf Hnf Ht. unfold process_upload_background, pipeline.
  rewrite (bind_ok _ _ _ _ _ (start_spec r w None (Hnf _) (Hnf _))). rewrite Ht. simpl.
  destruct (ingest_rejects r e (Some (task_id t)) (started r w) (ext_calls w)
              (Some (Some (task_id t))) Hvf Hnf) as (d' & Hi & Ho & Hk).
  unfold open_frame in Hi. rewrite (bind_raise _ _ _ _ _ Hi). simpl.
  unfold handle_failure, release, commit_world, view. simpl.
  assert (uploaded_orders (started r w) = uploaded_orders (committed w)) as Hs
    by (unfold started; by rewrite Ht).
  pose proof (find_task_id _ _ _ Ht) as Hid. rewrite Hid.
  repeat split; [by rewrite Ho, Hs |].
  rewrite find_task_set_task by done.
  destruct (Hk (run_task_id r)) as [t' Ht'].
  { unfold started. rewrite Ht, find_task_set_task by done. rewrite Ht. by eexists. }
  rewrite Ht'. by eexists.
Qed.

Lemma validation_failure_aborts_witness :
  (process_upload_background (example_run "t1" (Ok example_df_no_awb)) example_world).1
  = Raise (Exception "Missing required columns for SHOPEE: No. Resi").
Proof.
  refine (proj1 (validation_failure_aborts (example_run "t1" (Ok example_df_no_awb)) example_world
                   _ (example_task "t1") _ _ _)).
  - change (Exception "Missing required columns for SHOPEE: No. Resi")
      with (Exception ("Missing required columns for "
                       +:+ fi_sales_channel c10_info +:+ ": "
                       +:+ Py.join ", " (missing_columns
                              {| m_brand := "SHOPEE"; m_order_number := Some "No. Pesanan";
                                 m_order_status := Some "Status Pesanan";
                                 m_order_date := Some "Waktu Pesanan Dibuat";
                                 m_wh_loc := Some "Nama Gudang"; m_awb := Some "No. Resi";
                                 m_transporter := Some "Opsi Pengiriman";
                                 m_sla := Some "Pesanan Harus Dikirimkan Sebelum (Menghindari keterlambatan)";
                                 m_sku_field := Some "Nomor Referensi SKU" |} example_df_no_awb))).
    apply vf_columns; [reflexivity | reflexivity | reflexivity | by vm_compute].
  - intros st. reflexivity.
  - reflexivity.
Defined.

(** C4, counterexample to the claim as stated: a sheet that lacks a
    required column fails validation, yet the run has already committed
    a row of the upload history. *)
Lemma validation_failure_writes_history :
  validation_failure (example_run "t1" (Ok example_df_no_awb))
    (Exception "Missing required columns for SHOPEE: No. Resi")
  ∧ upload_history (committed example_world) = []
  ∧ upload_history
      (committed (process_upload_background (example_run "t1" (Ok example_df_no_awb))
                    example_world).2)
    = [ {| h_marketplace := "SHOPEE"; h_brand := "AURA"; h_pic := "ana"; h_batch := "1" |} ].
Proof.
  split; [| split; [reflexivity | by vm_compute]].
  change (Exception "Missing required columns for SHOPEE: No. Resi")
    with (Exception ("Missing required columns for "
                     +:+ fi_sales_channel c10_info +:+ ": "
                     +:+ Py.join ", " (missing_columns
                            {| m_brand := "SHOPEE"; m_order_number := Some "No. Pesanan";
                               m_order_status := Some "Status Pesanan";
                               m_order_date := Some "Waktu Pesanan Dibuat";
                               m_wh_loc := Some "Nama Gudang"; m_awb := Some "No. Resi";
                               m_transporter := Some "Opsi Pengiriman";
                               m_sla := Some "Pesanan Harus Dikirimkan Sebelum (Menghindari keterlambatan)";
                               m_sku_field := Some "Nomor Referensi SKU" |} example_df_no_awb))).
  apply vf_columns; [reflexivity | reflexivity | reflexivity | by vm_compute].
Qed.

(** ** Failure handling *)

Lemma keeps_ret {A} (a : A) : keeps_task_var (mret a).
Proof. done. Qed.

Lemma keeps_raise {A} e : keeps_task_var (raise (A:=A) e).
Proof. done. Qed.

Lemma keeps_lift {A} (x : Result A) : keeps_task_var (lift x).
Proof. done. Qed.

Lemma keeps_inject r st : keeps_task_var (inject r st).
Proof. intros fr. unfold inject. by destruct (run_fault r st). Qed.

Lemma keeps_on_world f : keeps_task_var (on_world f).
Proof. done. Qed.

Lemma keeps_db_view : keeps_task_var db_view.
Proof. done. Qed.

Lemma keeps_db_try f : keeps_task_var (db_try f).
Proof. intros fr. unfold db_try. by destruct (f _). Qed.

Lemma keeps_bind {A B} (m : M A) (k : A → M B) :
  keeps_task_var m → (∀ a, keeps_task_var (k a)) → keeps_task_var (m ≫= k).
Proof.
  intros Hm Hk fr. unfold mbind, M_bind. specialize (Hm fr).
  destruct (m fr) as [[a | e] fr']; simpl in *; [by rewrite Hk | done].
Qed.

Ltac keeps_auto :=
  repeat first
    [ apply keeps_ret | apply keeps_raise | apply keeps_lift | apply keeps_inject
    | apply keeps_db_view | apply keeps_db_try | apply keeps_on_world
    | apply keeps_bind; [| intros ?]
    | match goal with |- keeps_task_var (match ?x with _ => _ end) => destruct x end ].

Lemma keeps_insert_individually l : keeps_task_var (insert_individually l).
Proof.
  induction l as [| rd l IH]; simpl; keeps_auto; try exact IH;
    unfold db_commit, db_rollback; keeps_auto.
Qed.

Lemma keeps_ingest r task : keeps_task_var (ingest r task).
Proof.
  unfold ingest, read_file, fail_task, db_modify, db_commit. keeps_auto.
Qed.

Lemma keeps_persist r task fi mp df : keeps_task_var (persist r task fi mp df).
Proof.
  unfold persist, finalize, insert_new, record_calls, db_modify, db_commit, db_rollback.
  keeps_auto. apply keeps_insert_individually.
Qed.

Lemma has_task_set_task tid tid' f d :
  (∀ t, task_id (f t) = task_id t) → has_task tid d → has_task tid (set_task tid' f d).
Proof.
  intros Hf [t Ht]. unfold has_task. rewrite find_task_set_task_any by done.
  rewrite Ht. by eexists.
Qed.

Lemma has_task_insert_order tid d rd d' :
  has_task tid d → insert_order d rd = Some d' → has_task tid d'.
Proof.
  unfold insert_order. destruct (number_taken _ _); [done |]. by intros H [= <-].
Qed.

Lemma has_task_bulk_insert tid l : ∀ d d',
  has_task tid d → bulk_insert_mappings d l = Some d' → has_task tid d'.
Proof.
  induction l as [| rd l IH]; intros d d' Hd; simpl.
  - by intros [= <-].
  - unfold bulk_insert_mappings. fold bulk_insert_mappings.
    destruct (insert_order d rd) as [d1 |] eqn:E; [| done].
    apply IH. by eapply has_task_insert_order.
Qed.

Ltac task_auto :=
  repeat first
    [ apply preserves_ret | apply preserves_raise | apply preserves_lift
    | apply preserves_inject | apply preserves_bind_task | apply preserves_db_view
    | apply inv_SessionLocal | apply inv_db_commit | apply inv_db_rollback
    | apply inv_record_calls
    | apply inv_db_modify; intros ? ?; first [ by apply has_task_set_task | done ]
    | apply inv_db_try; intros ? ? ? ?;
        first [ by eapply has_task_insert_order | by eapply has_task_bulk_insert ]
    | apply preserves_bind; [| intros ?]
    | match goal with |- preserves _ (match ?x with _ => _ end) => destruct x end ].

Lemma task_insert_individually tid l :
  preserves (db_inv (has_task tid)) (insert_individually l).
Proof. induction l as [| rd l IH]; simpl; task_auto. exact IH. Qed.

Lemma task_ingest tid r task : preserves (db_inv (has_task tid)) (ingest r task).
Proof. unfold ingest, read_file, fail_task. task_auto. Qed.

Lemma task_persist tid r task fi mp df :
  preserves (db_inv (has_task tid)) (persist r task fi mp df).
Proof.
  unfold persist, finalize, insert_new. task_auto. apply task_insert_individually.
Qed.

Lemma pipeline_failure_recorded r w e t :
  run_fault r OpenSession = None →
  run_fault r LoadTask = None →
  find_task (run_task_id r) (committed w) = Some t →
  (process_upload_background r w).1 = Raise e →
  session (process_upload_background r w).2 = None
  ∧ ∃ t', find_task (run_task_id r) (committed (process_upload_background r w).2) = Some t'
          ∧ status t' = "failed" ∧ error_message t' = Some (str_exn e).
Proof.
  intros Hf1 Hf2 Ht H. split; [apply process_releases |].
  revert H. unfold process_upload_background, pipeline.
  rewrite (bind_ok _ _ _ _ _ (start_spec r w None Hf1 Hf2)). rewrite Ht. simpl.
  pose proof (find_task_id _ _ _ Ht) as Hid. rewrite Hid.
  set (fr1 := {| world := _; task_var := _ |}).
  assert (db_inv (has_task (run_task_id r)) (world fr1)) as Hinv.
  { assert (has_task (run_task_id r) (started r w)) as Hs.
    { unfold started. rewrite Ht. apply has_task_set_task; [done | by eexists]. }
    by split. }
  pose proof (preserves_bind _ _ _ (task_ingest (run_task_id r) r (Some (run_task_id r)))
                (λ x, task_persist (run_task_id r) r (Some (run_task_id r)) x.1.1 x.1.2 x.2)
                fr1 Hinv) as Hp.
  pose proof (keeps_bind _ _ (keeps_ingest r (Some (run_task_id r)))
                (λ x, keeps_persist r (Some (run_task_id r)) x.1.1 x.1.2 x.2) fr1) as Hk.
  destruct ((ingest r (Some (run_task_id r)) ≫= _) fr1) as [[res | e2] fr3]; simpl in *; [done |].
  intros [= ->]. unfold handle_failure. rewrite Hk. subst fr1. simpl.
  unfold release, commit_world, view. simpl. rewrite find_task_set_task by done.
  destruct Hp as [_ [t' Ht']]. unfold view in Ht'. rewrite Ht'. by eexists.
Qed.




(** ** Accepted files *)

Lemma ingest_accepts r task d x tv fi df mp :
  no_faults r →
  parse_filename (run_filename r) = Ok (Some fi) →
  read_file r = lift (Ok df) →
  get_marketplace_mapping (fi_sales_channel fi) = Some mp →
  missing_columns mp df = [] →
  non_empty_count (order_numbers df (m_order_number mp)) ≠ 0 →
  ingest r task (open_frame d x tv)
  = (Ok (fi, mp, df), open_frame (with_history (λ h, h ++ [history_row r fi]) d) x tv).
Proof.
  intros Hnf Hp Hr Hm Hmiss Hz. unfold ingest, open_frame.
  msimpl. rewrite ?Hnf. msimpl. rewrite Hp. msimpl. rewrite ?Hnf. msimpl.
  rewrite Hr. msimpl. rewrite Hm. rewrite ?Hnf. msimpl. rewrite ?Hnf. msimpl.
  rewrite Hmiss. rewrite ?Hnf. msimpl.
  destruct (Nat.eqb_spec (non_empty_count (order_numbers df (m_order_number mp))) 0); [done |].
  done.
Qed.

Lemma order_numbers_rows df col :
  order_numbers df col = map (row_order_number df col) (rows df).
Proof.
  unfold order_numbers, row_order_number.
  destruct col as [c |]; [| done]. by destruct (index_of c (columns df)).
Qed.

Lemma valid_rows_nonempty df col :
  non_empty_count (order_numbers df col) ≠ 0 → valid_rows df col ≠ [].
Proof.
  rewrite order_numbers_rows. unfold non_empty_count, valid_rows. intros Hn.
  destruct (List.filter _ (map _ _)) as [| s l] eqn:F; [done |].
  assert (In s (s :: l)) as Hin by (by left). rewrite <- F in Hin.
  apply filter_In in Hin as [Hin Hs]. apply in_map_iff in Hin as [r [Hr Hin]].
  assert (valid_order (row_order_number df col r) = true) as Hv.
  { rewrite Hr. unfold valid_order.
    apply andb_prop in Hs as [Hs _]. apply andb_prop in Hs as [Hs1 Hs2].
    rewrite Hs2. destruct s; [done | done]. }
  intros Hnil.
  assert (In r (List.filter (λ r, valid_order (row_order_number df col r)) (rows df))) as Hr'
    by (apply filter_In; by split).
  by rewrite Hnil in Hr'.
Qed.

(** ** Tokopedia *)

Lemma tokopedia_normalize_raises clk sc brand_name batch_name user tid mp date df :
  m_order_date mp = None →
  valid_rows df (m_order_number mp) ≠ [] →
  normalize clk sc brand_name batch_name user tid mp date df = Raise (KeyError None).
Proof.
  intros Hd Hv. unfold normalize, processed_rows.
  destruct (valid_rows df (m_order_number mp)) as [| r rs] eqn:E; [done |]. simpl.
  unfold processed_dates. by rewrite Hd.
Qed.

(** C9 (what the code does). Every Tokopedia file that passes input
    validation makes the background pipeline raise [KeyError(None)]: the
    date column of the schema is [None] and the pipeline selects it from
    the sheet before any default date is applied. No order is stored and
    the task ends Failed with the error message "None". *)
Theorem tokopedia_upload_fails r w fi df t :
  no_faults r →
  find_task (run_task_id r) (committed w) = Some t →
  parse_filename (run_filename r) = Ok (Some fi) →
  fi_sales_channel fi = "TOKOPEDIA" →
  read_file r = lift (Ok df) →
  missing_columns tokopedia_mapping df = [] →
  non_empty_count (order_numbers df (m_order_number tokopedia_mapping)) ≠ 0 →
  (process_upload_background r w).1 = Raise (KeyError None)
  ∧ ∃ t', find_task (run_task_id r) (committed (process_upload_background r w).2) = Some t'
          ∧ status t' = "failed" ∧ error_message t' = Some "None".
Proof.
  intros Hnf Ht Hp Hsc Hr Hmiss Hz.
  assert ((process_upload_background r w).1 = Raise (KeyError None)) as Hres.
  { unfold process_upload_background, pipeline.
    rewrite (bind_ok _ _ _ _ _ (start_spec r w None (Hnf _) (Hnf _))).
    assert (get_marketplace_mapping (fi_sales_channel fi) = Some tokopedia_mapping) as Hm
      by (by rewrite Hsc).
    pose proof (ingest_accepts r (task_id <$> find_task (run_task_id r) (committed w))
                  (started r w) (ext_calls w)
                  (Some (task_id <$> find_task (run_task_id r) (committed w)))
                  fi df tokopedia_mapping Hnf Hp Hr Hm Hmiss Hz) as Hi.
    unfold open_frame in Hi. rewrite (bind_ok _ _ _ _ _ Hi).
    unfold persist. msimpl. rewrite ?Hnf. msimpl.
    rewrite tokopedia_normalize_raises; [done | done |].
    by apply valid_rows_nonempty. }
  split; [done |].
  by destruct (pipeline_failure_recorded r w (KeyError None) t (Hnf _) (Hnf _) Ht Hres) as [_ H].
Qed.

Lemma tokopedia_upload_fails_witness :
  (process_upload_background tokopedia_run example_world).1 = Raise (KeyError None).
Proof.
  refine (proj1 (tokopedia_upload_fails tokopedia_run example_world tokopedia_info tokopedia_df
                   (example_task "t1") _ _ _ _ _ _ _)); try reflexivity; by vm_compute.
Defined.

(** ** Chunk watchdog *)

(** C3 (what the code does). There is an interleaving of the main
    thread, the timer and the check thread of one chunk in which the
    watchdog fires before the chunk's query completes, and the result that
    arrives afterwards is nevertheless merged into [interface_results]:
    the order of that chunk is then classified Interface. *)
Theorem late_result_is_merged :
  ∃ st, Watchdog.run late_schedule (Watchdog.initial [late_result]) = Some st
        ∧ Watchdog.pc st = Watchdog.Finished
        ∧ Watchdog.watchdog_fired_first st = [0]
        ∧ Watchdog.timeout_occurred st = true
        ∧ Watchdog.interface_results st = late_result
        ∧ r_InterfaceStatus (assign_interface (Watchdog.interface_results st) order_S101)
          = "Interface".
Proof.
  eexists. split; [by vm_compute |]. by vm_compute.
Qed.

(** With the same events in the order the code hopes for (the check
    returns before the main thread clears the chunk result), nothing of
    the timed-out chunk is merged. *)
Lemma timely_discard :
  ∃ st, Watchdog.run
          [ Watchdog.MainStep; Watchdog.MainStep; Watchdog.TimerFires; Watchdog.JoinTimesOut;
            Watchdog.MainStep; Watchdog.CheckReturns 0; Watchdog.MainStep; Watchdog.MainStep;
            Watchdog.MainStep ]
          (Watchdog.initial [late_result]) = Some st
        ∧ Watchdog.pc st = Watchdog.Finished
        ∧ Watchdog.interface_results st = ∅.
Proof.
  eexists. split; [by vm_compute |]. by vm_compute.
Qed.

(** ** Orderlist handoff writer *)



Lemma count_lines_empty : count_lines "" = 0.
Proof. reflexivity. Qed.







(** ** Order normalizer *)

Lemma mem_spec x l : Py.mem x l = true ↔ x ∈ l.
Proof.
  unfold Py.mem. rewrite existsb_exists. split.
  - intros [y [Hin Heq]]. apply String.eqb_eq in Heq. subst. by apply list_elem_of_In.
  - intros Hin. exists x. split; [by apply list_elem_of_In | apply String.eqb_refl].
Qed.

Lemma unique_acc_spec l : ∀ acc,
  NoDup acc →
  NoDup (fold_left (λ acc x, if Py.mem x acc then acc else acc ++ [x]) l acc)
  ∧ ∀ x, x ∈ fold_left (λ acc x, if Py.mem x acc then acc else acc ++ [x]) l acc
         ↔ x ∈ acc ∨ x ∈ l.
Proof.
  induction l as [| y l IH]; intros acc Hacc; simpl.
  - split; [done |]. intros x. rewrite elem_of_nil. tauto.
  - destruct (Py.mem y acc) eqn:E.
    + destruct (IH acc Hacc) as [Hn Hx]. split; [done |].
      intros x. rewrite Hx, elem_of_cons. apply mem_spec in E.
      split; [tauto |]. intros [? | [-> | ?]]; tauto.
    + assert (y ∉ acc) as Hy by (rewrite <- mem_spec; congruence).
      destruct (IH (acc ++ [y])) as [Hn Hx].
      { apply NoDup_app. split; [done |]. split; [| apply NoDup_singleton].
        intros x Hx Hx'. apply list_elem_of_singleton in Hx'. by subst. }
      split; [done |]. intros x. rewrite Hx, elem_of_app, list_elem_of_singleton, elem_of_cons.
      tauto.
Qed.

Lemma unique_NoDup l : NoDup (unique l).
Proof. apply unique_acc_spec, NoDup_nil_2. Qed.

Lemma unique_elem l x : x ∈ unique l ↔ x ∈ l.
Proof.
  unfold unique. destruct (unique_acc_spec l [] (NoDup_nil_2)) as [_ H].
  rewrite H, elem_of_nil. tauto.
Qed.

Lemma unique_length l : length (unique l) = size (list_to_set l : gset string).
Proof.
  rewrite <- (size_list_to_set (C:=gset string) (unique l)) by apply unique_NoDup.
  f_equal. apply set_eq. intros x. by rewrite !elem_of_list_to_set, unique_elem.
Qed.

Lemma insert_sorted_perm k l : insert_sorted k l ≡ₚ k :: l.
Proof.
  induction l as [| x l IH]; simpl; [done |].
  destruct (String.leb k x); [done |]. rewrite IH. apply Permutation_swap.
Qed.

Lemma sort_strings_perm l : sort_strings l ≡ₚ l.
Proof.
  induction l as [| x l IH]; simpl; [done |].
  fold (sort_strings l). by rewrite insert_sorted_perm, IH.
Qed.

Lemma group_keys_NoDup prs : NoDup (group_keys prs).
Proof. unfold group_keys. rewrite sort_strings_perm. apply unique_NoDup. Qed.


Lemma group_keys_length prs :
  length (group_keys prs) = size (list_to_set (map processed_order_number prs) : gset string).
Proof.
  unfold group_keys. rewrite <- unique_length. apply Permutation_length, sort_strings_perm.
Qed.


Lemma map_imap_const {A B C} (g : B → C) (h : A → C) (l : list A) : ∀ (f : nat → A → B),
  (∀ n r, g (f n r) = h r) → map g (imap f l) = map h l.
Proof.
  induction l as [| x l IH]; intros f Hf; simpl; [done |].
  rewrite Hf. f_equal. apply IH. intros n r. apply Hf.
Qed.

Lemma valid_row_stringified df c i r :
  index_of c (columns df) = Some i →
  valid_order (row_order_number df (Some c) r) = true →
  astype_str (cell_at i r) = row_order_number df (Some c) r.
Proof.
  intros Hi. unfold row_order_number. rewrite Hi. unfold valid_order, fillna_str, astype_str.
  by destruct (cell_at i r).
Qed.

Lemma getitem_Some df col i :
  getitem df col = Ok i → ∃ c, col = Some c ∧ index_of c (columns df) = Some i.
Proof.
  unfold getitem. destruct col as [c |]; [| done].
  destruct (index_of c (columns df)) as [j |] eqn:E; [| done].
  intros [= <-]. by exists c.
Qed.

Lemma processed_rows_ok clk sc mp date df i_num i_status i_date :
  getitem df (m_order_number mp) = Ok i_num →
  getitem df (m_order_status mp) = Ok i_status →
  getitem df (m_order_date mp) = Ok i_date →
  valid_rows df (m_order_number mp) ≠ [] →
  ∃ prs, processed_rows clk sc mp date df = Ok prs
         ∧ length prs = length (valid_rows df (m_order_number mp))
         ∧ map processed_order_number prs = trimmed_order_numbers df (m_order_number mp).
Proof.
  intros Hn Hs Hd Hv. unfold processed_rows.
  destruct (valid_rows df (m_order_number mp)) as [| r0 rs] eqn:E; [done |].
  rewrite <- E. replace (Nat.eqb (length (valid_rows df (m_order_number mp))) 0) with false
    by (by rewrite E).
  unfold processed_dates. rewrite Hd, Hn, Hs. simpl.
  destruct (is_tokopedia sc); simpl; (eexists; split; [reflexivity |]);
    (split; [by rewrite length_imap |]);
    unfold trimmed_order_numbers;
    destruct (getitem_Some _ _ _ Hn) as (c & Hc & Hi);
    rewrite (map_imap_const processed_order_number
               (λ r, Py.strip (astype_str (cell_at i_num r)))) by done;
    apply map_ext_in; intros r Hr; unfold valid_rows in Hr; apply filter_In in Hr as [_ Hr];
    simpl; rewrite Hc in *; by rewrite (valid_row_stringified df c i_num r Hi Hr).
Qed.




(** The example of the specification: three rows, two orders; S-100
    carries both SKUs. *)
Example normalize_example :
  normalize example_clock "SHOPEE" "AURA" "1" "ana" "t1" shopee_mapping "5" example_df
  = Ok [ {| od_Marketplace := "SHOPEE"; od_Brand := "AURA"; od_OrderNumber := "S-100";
            od_OrderStatus := "READY"; od_AWB := "AWB1"; od_Transporter := "";
            od_OrderDate := WIB 0; od_SLA := ""; od_Batch := "1"; od_PIC := "ana";
            od_UploadDate := Naive 1000; od_TaskId := "t1"; od_ItemId := Some "SKU-A,SKU-B" |};
         {| od_Marketplace := "SHOPEE"; od_Brand := "AURA"; od_OrderNumber := "S-101";
            od_OrderStatus := "READY"; od_AWB := ""; od_Transporter := "";
            od_OrderDate := WIB 1; od_SLA := ""; od_Batch := "1"; od_PIC := "ana";
            od_UploadDate := Naive 1000; od_TaskId := "t1"; od_ItemId := Some "SKU-C" |} ].
Proof. by vm_compute. Qed.

Lemma normalize_NoDup clk sc brand_name batch_name user tid mp date df all_order_data :
  normalize clk sc brand_name batch_name user tid mp date df = Ok all_order_data →
  NoDup (map od_OrderNumber all_order_data).
Proof.
  unfold normalize. destruct (processed_rows clk sc mp date df) as [prs | e]; [| done].
  simpl. intros [= <-]. unfold groupby. rewrite !map_map. simpl. rewrite map_id.
  apply group_keys_NoDup.
Qed.

(** ** Upsert engine *)

Lemma fold_insert_notin {A} (K : A → string) (V : A → nat) l : ∀ (m : gmap string nat) k,
  k ∉ map K l → fold_left (λ d o, <[K o := V o]> d) l m !! k = m !! k.
Proof.
  induction l as [| o l IH]; intros m k Hk; simpl; [done |].
  simpl in Hk. apply not_elem_of_cons in Hk as [Hne Hk].
  rewrite IH by done. by rewrite lookup_insert_ne.
Qed.

Lemma fold_insert_in {A} (K : A → string) (V : A → nat) l : ∀ (m : gmap string nat) o,
  NoDup (map K l) → o ∈ l → fold_left (λ d o, <[K o := V o]> d) l m !! K o = Some (V o).
Proof.
  induction l as [| o' l IH]; intros m o Hnd Hin; simpl.
  - by apply elem_of_nil in Hin.
  - simpl in Hnd. apply NoDup_cons in Hnd as [Hfresh Hnd].
    apply elem_of_cons in Hin as [-> | Hin].
    + rewrite fold_insert_notin by done. apply lookup_insert_eq.
    + by apply IH.
Qed.

Lemma filter_map_NoDup {A B} (f : A → B) (p : A → bool) l :
  NoDup (map f l) → NoDup (map f (List.filter p l)).
Proof.
  induction l as [| x l IH]; simpl; [done |]. intros Hnd.
  apply NoDup_cons in Hnd as [Hx Hnd]. destruct (p x); simpl; [| by apply IH].
  apply NoDup_cons. split; [| by apply IH].
  intros Hin. apply Hx. apply list_elem_of_fmap in Hin as [y [-> Hy]].
  apply list_elem_of_fmap. exists y. split; [done |].
  apply list_elem_of_In, filter_In in Hy as [Hy _]. by apply list_elem_of_In.
Qed.

Lemma existing_lookup_stored os nums o :
  NoDup (map OrderNumber os) → o ∈ os → OrderNumber o ∈ nums →
  existing_orders_dict os nums !! OrderNumber o = Some (Id o).
Proof.
  intros Hnd Hin Hk. unfold existing_orders_dict.
  apply (fold_insert_in OrderNumber Id).
  - by apply filter_map_NoDup.
  - apply list_elem_of_In, filter_In. split; [by apply list_elem_of_In | by apply mem_spec].
Qed.

Lemma existing_lookup_fresh os nums k :
  number_taken os k = false → existing_orders_dict os nums !! k = None.
Proof.
  intros Hk. unfold existing_orders_dict. rewrite (fold_insert_notin OrderNumber Id); [done |].
  intros Hin. apply list_elem_of_fmap in Hin as [o [-> Ho]].
  apply list_elem_of_In, filter_In in Ho as [Ho _].
  assert (number_taken os (OrderNumber o) = true); [| congruence].
  apply number_taken_spec, list_elem_of_fmap. exists o. split; [done | by apply list_elem_of_In].
Qed.

Lemma number_taken_row os k :
  number_taken os k = true → ∃ o, o ∈ os ∧ OrderNumber o = k.
Proof.
  intros H. apply number_taken_spec, list_elem_of_fmap in H as [o [-> Ho]]. by exists o.
Qed.

Lemma classify_fold ir existing l : ∀ p,
  fold_left (classify_step ir existing) l p
  = {| orders_to_insert := orders_to_insert p ++ to_insert ir existing l;
       orders_to_update := orders_to_update p ++ to_update ir existing l;
       replaced_count := replaced_count p + length (to_update ir existing l);
       new_count := new_count p + length (to_insert ir existing l) |}.
Proof.
  induction l as [| od l IH]; intros p.
  - destruct p. simpl. by rewrite !app_nil_r, !Nat.add_0_r.
  - cbn [fold_left]. rewrite IH. unfold classify_step, to_insert, to_update.
    cbn [omap list_omap List.filter map].
    destruct (existing !! od_OrderNumber od) as [id |] eqn:E; simpl.
    + rewrite <- !app_assoc. simpl. f_equal. lia.
    + rewrite <- !app_assoc. simpl. f_equal. lia.
Qed.

Lemma classify_spec ir existing l :
  classify ir existing l
  = {| orders_to_insert := to_insert ir existing l;
       orders_to_update := to_update ir existing l;
       replaced_count := length (to_update ir existing l);
       new_count := length (to_insert ir existing l) |}.
Proof. unfold classify. by rewrite classify_fold. Qed.

Lemma number_taken_app os os' k :
  number_taken (os ++ os') k = number_taken os k || number_taken os' k.
Proof. unfold number_taken. apply existsb_app. Qed.

Lemma bulk_insert_fresh l : ∀ d,
  NoDup (map (λ rd, od_OrderNumber (r_data rd)) l) →
  (∀ rd, rd ∈ l → number_taken (uploaded_orders d) (od_OrderNumber (r_data rd)) = false) →
  bulk_insert_mappings d l = Some (inserted d l).
Proof.
  induction l as [| rd l IH]; intros d Hnd Hfresh.
  - unfold inserted. simpl. destruct d. simpl. by rewrite app_nil_r, Nat.add_0_r.
  - simpl in Hnd. apply NoDup_cons in Hnd as [Hrd Hnd].
    change (bulk_insert_mappings d (rd :: l))
      with (match insert_order d rd with
            | Some d' => bulk_insert_mappings d' l
            | None => None
            end).
    unfold insert_order.
    rewrite Hfresh by apply list_elem_of_here.
    rewrite IH; [| done |].
    + unfold inserted. simpl. f_equal. f_equal; [| lia].
      rewrite <- app_assoc. simpl. rewrite Nat.add_0_r. do 2 f_equal.
      apply imap_ext. intros i x _. simpl. f_equal. lia.
    + intros rd' Hin. simpl. rewrite number_taken_app, Hfresh by (by apply list_elem_of_further).
      simpl. rewrite orb_false_r. apply String.eqb_neq. intros Heq. apply Hrd.
      apply list_elem_of_fmap. exists rd'. by split.
Qed.

Lemma update_rows_map us : ∀ os, update_rows os us = map (upd_all us) os.
Proof.
  unfold update_rows, upd_all. induction us as [| u us IH]; intros os; simpl.
  - by rewrite map_id.
  - rewrite IH. unfold update_row. by rewrite map_map.
Qed.

Lemma upd_all_no_match us : ∀ o,
  (∀ u, u ∈ us → u.1 ≠ Id o) → upd_all us o = o.
Proof.
  unfold upd_all. induction us as [| u us IH]; intros o Hu; simpl; [done |].
  destruct (Nat.eqb_spec (Id o) u.1) as [Heq | _].
  - exfalso. by apply (Hu u); [apply list_elem_of_here |].
  - apply IH. intros u' Hu'. by apply Hu, list_elem_of_further.
Qed.

Lemma find_upload_None l k :
  k ∉ map od_OrderNumber l → find_upload l k = None.
Proof.
  unfold find_upload. induction l as [| od l IH]; simpl; [done |]. intros Hk.
  apply not_elem_of_cons in Hk as [Hne Hk].
  destruct (String.eqb_spec (od_OrderNumber od) k); [congruence | by apply IH].
Qed.

(** The updates of the loop, seen from one stored row: the row is
    overwritten with the upload's record of the same number, if any. *)
Lemma upd_all_spec ir existing l : ∀ o,
  NoDup (map od_OrderNumber l) →
  (∀ od id, od ∈ l → existing !! od_OrderNumber od = Some id →
            Nat.eqb (Id o) id = String.eqb (od_OrderNumber od) (OrderNumber o)) →
  (∀ od, od ∈ l → od_OrderNumber od = OrderNumber o →
         is_Some (existing !! od_OrderNumber od)) →
  upd_all (to_update ir existing l) o
  = match find_upload l (OrderNumber o) with
    | Some od => apply_update o (assign_interface ir od)
    | None => o
    end.
Proof.
  induction l as [| od l IH]; intros o Hnd H1 H2; [done |].
  simpl in Hnd. apply NoDup_cons in Hnd as [Hod Hnd].
  unfold to_update. cbn [omap list_omap]. fold (to_update ir existing l).
  unfold find_upload. cbn [List.find]. fold (find_upload l (OrderNumber o)).
  destruct (existing !! od_OrderNumber od) as [id |] eqn:E; simpl.
  - unfold upd_all. cbn [fold_left]. simpl.
    rewrite (H1 od id (list_elem_of_here _ _) E).
    destruct (String.eqb_spec (od_OrderNumber od) (OrderNumber o)) as [Heq | Hne].
    + fold (upd_all (to_update ir existing l) (apply_update o (assign_interface ir od))).
      rewrite IH; [| done | |].
      * simpl. rewrite find_upload_None; [done | by rewrite <- Heq].
      * intros od' id' Hin' E'. simpl. apply H1; [by apply list_elem_of_further | done].
      * intros od' Hin' Heq'. apply H2; [by apply list_elem_of_further | done].
    + fold (upd_all (to_update ir existing l) o). apply IH; [done | |].
      * intros od' id' Hin' E'. apply H1; [by apply list_elem_of_further | done].
      * intros od' Hin' Heq'. apply H2; [by apply list_elem_of_further | done].
  - destruct (String.eqb_spec (od_OrderNumber od) (OrderNumber o)) as [Heq | Hne].
    + destruct (H2 od (list_elem_of_here _ _) Heq) as [id Hid]. congruence.
    + apply IH; [done | |].
      * intros od' id' Hin' E'. apply H1; [by apply list_elem_of_further | done].
      * intros od' Hin' Heq'. apply H2; [by apply list_elem_of_further | done].
Qed.

Lemma same_id_same_row os o o' :
  NoDup (map Id os) → o ∈ os → o' ∈ os → Id o = Id o' → o = o'.
Proof.
  induction os as [| x os IH]; intros Hnd Ho Ho' Heq; [by apply elem_of_nil in Ho |].
  simpl in Hnd. apply NoDup_cons in Hnd as [Hx Hnd].
  apply elem_of_cons in Ho as [-> | Ho]; apply elem_of_cons in Ho' as [-> | Ho'].
  - done.
  - exfalso. apply Hx. rewrite Heq. apply list_elem_of_fmap. by exists o'.
  - exfalso. apply Hx. rewrite <- Heq. apply list_elem_of_fmap. by exists o.
  - by apply IH.
Qed.

Lemma same_number_same_row os o o' :
  NoDup (map OrderNumber os) → o ∈ os → o' ∈ os → OrderNumber o = OrderNumber o' → o = o'.
Proof.
  induction os as [| x os IH]; intros Hnd Ho Ho' Heq; [by apply elem_of_nil in Ho |].
  simpl in Hnd. apply NoDup_cons in Hnd as [Hx Hnd].
  apply elem_of_cons in Ho as [-> | Ho]; apply elem_of_cons in Ho' as [-> | Ho'].
  - done.
  - exfalso. apply Hx. rewrite Heq. apply list_elem_of_fmap. by exists o'.
  - exfalso. apply Hx. rewrite <- Heq. apply list_elem_of_fmap. by exists o.
  - by apply IH.
Qed.

Lemma existing_lookup_inv os nums k id :
  NoDup (map OrderNumber os) →
  existing_orders_dict os nums !! k = Some id →
  ∃ o, o ∈ os ∧ OrderNumber o = k ∧ Id o = id ∧ k ∈ nums.
Proof.
  intros Hnd Hl.
  destruct (number_taken os k) eqn:Ht; [| by rewrite existing_lookup_fresh in Hl].
  apply number_taken_row in Ht as (o & Ho & <-).
  destruct (Py.mem (OrderNumber o) nums) eqn:Hm.
  - apply mem_spec in Hm. rewrite existing_lookup_stored in Hl by done.
    injection Hl as <-. by exists o.
  - exfalso. unfold existing_orders_dict in Hl.
    rewrite (fold_insert_notin OrderNumber Id) in Hl; [done |].
    intros Hin. apply list_elem_of_fmap in Hin as [o' [Heq Ho']].
    apply list_elem_of_In, filter_In in Ho' as [_ Ho']. rewrite <- Heq in Ho'. congruence.
Qed.

Lemma assign_data ir od : r_data (assign_interface ir od) = od.
Proof. unfold assign_interface. by destruct (ir !! od_OrderNumber od). Qed.

Lemma imap_map {A B C} (g : A → B) (l : list A) : ∀ (f : nat → B → C),
  imap f (map g l) = imap (λ i x, f i (g x)) l.
Proof.
  induction l as [| x l IH]; intros f; simpl; [done |]. f_equal. apply IH.
Qed.

Lemma map_fixed {A} (f : A → A) l : (∀ x, x ∈ l → f x = x) → map f l = l.
Proof.
  induction l as [| x l IH]; intros H; simpl; [done |].
  rewrite H by apply list_elem_of_here. f_equal. apply IH.
  intros y Hy. by apply H, list_elem_of_further.
Qed.

Section Upsert.
Context (ir : gmap string InterfaceResult) (all_order_data : list OrderData) (d : DB).
Context (Hwf : wf_db d) (Hnd : NoDup (map od_OrderNumber all_order_data)).

Let os := uploaded_orders d.
Let existing := existing_orders_dict os (map od_OrderNumber all_order_data).

Lemma existing_of_upload od :
  od ∈ all_order_data →
  existing !! od_OrderNumber od
  = if number_taken os (od_OrderNumber od)
    then Id <$> List.find (λ o, String.eqb (OrderNumber o) (od_OrderNumber od)) os
    else None.
Proof.
  intros Hin. destruct Hwf as (Hn & _ & _).
  destruct (number_taken os (od_OrderNumber od)) eqn:Ht.
  - apply number_taken_row in Ht as (o & Ho & Hk).
    destruct (List.find _ os) as [o' |] eqn:Hf.
    + apply find_some in Hf as [Ho' Hk']. apply String.eqb_eq in Hk'.
      apply list_elem_of_In in Ho'.
      rewrite <- Hk'. simpl. subst existing. apply existing_lookup_stored; [done | done |].
      rewrite Hk'. apply list_elem_of_fmap. by exists od.
    + exfalso. pose proof (find_none _ _ Hf o (proj1 (list_elem_of_In _ _) Ho)) as Hx.
      simpl in Hx. rewrite Hk, String.eqb_refl in Hx. done.
  - by apply existing_lookup_fresh.
Qed.

Lemma to_insert_fresh :
  to_insert ir existing all_order_data
  = map (assign_interface ir) (fresh_orders os all_order_data).
Proof.
  unfold to_insert, fresh_orders. f_equal. apply filter_ext_in. intros od Hin.
  apply list_elem_of_In in Hin. rewrite (existing_of_upload od Hin).
  destruct (number_taken os (od_OrderNumber od)) eqn:Ht; [| done].
  apply number_taken_row in Ht as (o & Ho & Hk).
  destruct (List.find _ os) as [o' |] eqn:Hf; [done |].
  exfalso. pose proof (find_none _ _ Hf o (proj1 (list_elem_of_In _ _) Ho)) as Hx.
  simpl in Hx. rewrite Hk, String.eqb_refl in Hx. done.
Qed.

Lemma bulk_insert_to_insert :
  bulk_insert_mappings d (to_insert ir existing all_order_data)
  = Some (inserted d (to_insert ir existing all_order_data)).
Proof.
  rewrite to_insert_fresh. apply bulk_insert_fresh.
  - rewrite map_map. erewrite map_ext; [| intros od; by rewrite assign_data].
    by apply filter_map_NoDup.
  - intros rd Hrd. apply list_elem_of_fmap in Hrd as [od [-> Hod]]. rewrite assign_data.
    apply list_elem_of_In, filter_In in Hod as [_ Hod]. by apply negb_true_iff in Hod.
Qed.

Lemma to_update_ids u :
  u ∈ to_update ir existing all_order_data → u.1 < next_order_id d.
Proof.
  intros Hu. destruct Hwf as (Hn & _ & Hlt).
  unfold to_update in Hu. apply list_elem_of_omap in Hu as (od & Hod & Hu).
  destruct (existing !! od_OrderNumber od) as [id |] eqn:E; [| done].
  simpl in Hu. injection Hu as <-. simpl. subst existing.
  apply existing_lookup_inv in E as (o & Ho & _ & <- & _); [| done].
  rewrite Forall_forall in Hlt. by apply Hlt.
Qed.

Lemma update_rows_upsert :
  update_rows (uploaded_orders (inserted d (to_insert ir existing all_order_data)))
              (to_update ir existing all_order_data)
  = upsert_rows ir all_order_data os (next_order_id d).
Proof.
  destruct Hwf as (Hn & Hi & Hlt).
  rewrite update_rows_map. unfold inserted, upsert_rows. simpl. rewrite map_app. f_equal.
  - apply map_ext_in. intros o Ho. apply list_elem_of_In in Ho.
    apply upd_all_spec; [done | |].
    + intros od id Hod E. subst existing.
      apply existing_lookup_inv in E as (o' & Ho' & Hk' & Hid' & _); [| done].
      destruct (Nat.eqb_spec (Id o) id) as [Heq | Hne];
        destruct (String.eqb_spec (od_OrderNumber od) (OrderNumber o)) as [Heq' | Hne']; try done.
      * exfalso. apply Hne'. rewrite <- Hk'. f_equal. apply (same_id_same_row os); try done.
        congruence.
      * exfalso. apply Hne. rewrite <- Hid'. f_equal. apply (same_number_same_row os); try done.
        congruence.
    + intros od Hod Heq. subst existing. rewrite Heq.
      rewrite existing_lookup_stored; [by eexists | done | done |].
      rewrite <- Heq. apply list_elem_of_fmap. by exists od.
  - rewrite to_insert_fresh, imap_map. apply map_fixed. intros o Ho.
    apply elem_of_lookup_imap in Ho as (i & od & -> & _).
    apply upd_all_no_match. intros u Hu. apply to_update_ids in Hu. simpl. lia.
Qed.

End Upsert.

Lemma inserted_nil d : inserted d [] = d.
Proof. unfold inserted. destruct d. simpl. by rewrite app_nil_r, Nat.add_0_r. Qed.

Lemma insert_new_spec l d x tv :
  bulk_insert_mappings d l = Some (inserted d l) →
  insert_new l (open_frame d x tv) = (Ok tt, open_frame (inserted d l) x tv).
Proof.
  intros Hb. unfold insert_new, open_frame. destruct l as [| rd l].
  - by rewrite inserted_nil.
  - unfold mbind, M_bind, db_try. simpl. unfold view. simpl. rewrite Hb. done.
Qed.

Lemma length_to_update ir existing os l :
  (∀ od, od ∈ l → existing !! od_OrderNumber od = None
                  ↔ number_taken os (od_OrderNumber od) = false) →
  length (to_update ir existing l)
  = length (List.filter (λ od, number_taken os (od_OrderNumber od)) l).
Proof.
  unfold to_update. induction l as [| od l IH]; intros H; [done |].
  cbn [omap list_omap List.filter].
  pose proof (H od (list_elem_of_here _ _)) as Hod.
  destruct (existing !! od_OrderNumber od) as [id |] eqn:E;
    destruct (number_taken os (od_OrderNumber od)) eqn:Ht; simpl.
  - f_equal. apply IH. intros od' Hod'. by apply H, list_elem_of_further.
  - destruct Hod as [_ Hod]. by specialize (Hod eq_refl).
  - destruct Hod as [Hod _]. by specialize (Hod eq_refl).
  - apply IH. intros od' Hod'. by apply H, list_elem_of_further.
Qed.

#[local] Arguments insert_new : simpl never.
#[local] Arguments finalize : simpl never.

Lemma finalize_spec r task p d x tv :
  finalize r task p (open_frame d x tv)
  = (Ok {| interface_count :=
             length (List.filter (λ o, String.eqb (InterfaceStatus o) "Interface")
                                 (uploaded_by (run_task_id r) d));
           not_interface_count :=
             length (uploaded_by (run_task_id r) d)
             - length (List.filter (λ o, String.eqb (InterfaceStatus o) "Interface")
                                   (uploaded_by (run_task_id r) d));
           res_total_orders := length (uploaded_by (run_task_id r) d);
           new_orders := new_count p;
           replaced_orders := replaced_count p |},
     open_frame (completed task (run_task_id r) d) x tv).
Proof.
  unfold finalize, open_frame, completed, uploaded_by. msimpl.
  destruct task as [t |]; msimpl; done.
Qed.

Lemma persist_spec r task fi mp df d x tv all_order_data :
  no_faults r →
  wf_db d →
  normalize (run_clock r) (fi_sales_channel fi) (fi_brand fi) (fi_batch fi) (run_user r)
    (run_task_id r) mp (fi_date fi) df = Ok all_order_data →
  persist r task fi mp df (open_frame d x tv)
  = (Ok (result_of (run_task_id r) all_order_data d
           (upserted (reconcile (run_external r) all_order_data) all_order_data d)),
     open_frame (completed task (run_task_id r)
                   (upserted (reconcile (run_external r) all_order_data) all_order_data d))
                (x ++ reconcile_calls all_order_data) tv).
Proof.
  intros Hnf Hwf Hnorm.
  pose proof (normalize_NoDup _ _ _ _ _ _ _ _ _ _ Hnorm) as Hnd.
  set (ir := reconcile (run_external r) all_order_data).
  set (existing := existing_orders_dict (uploaded_orders d) (map od_OrderNumber all_order_data)).
  unfold persist, open_frame. msimpl. rewrite ?Hnf. msimpl. rewrite Hnorm. msimpl.
  rewrite ?Hnf. msimpl. rewrite ?Hnf. msimpl. rewrite ?Hnf. msimpl.
  fold ir existing. rewrite classify_spec. cbn [orders_to_insert orders_to_update].
  pose proof (insert_new_spec (to_insert ir existing all_order_data) d
                (x ++ reconcile_calls all_order_data) tv
                (bulk_insert_to_insert ir all_order_data d Hwf Hnd)) as Hins.
  unfold open_frame in Hins. rewrite Hins. msimpl. rewrite ?Hnf. msimpl. rewrite ?Hnf. msimpl.
  pose proof (finalize_spec r task
    {| orders_to_insert := to_insert ir existing all_order_data;
       orders_to_update := to_update ir existing all_order_data;
       replaced_count := length (to_update ir existing all_order_data);
       new_count := length (to_insert ir existing all_order_data) |}
    (with_orders (λ os, update_rows os (to_update ir existing all_order_data))
                 (inserted d (to_insert ir existing all_order_data)))
    (x ++ reconcile_calls all_order_data) tv) as Hfin.
  unfold open_frame in Hfin. rewrite Hfin. clear Hfin Hins.
  assert (with_orders (λ os, update_rows os (to_update ir existing all_order_data))
                      (inserted d (to_insert ir existing all_order_data))
          = upserted ir all_order_data d) as ->.
  { unfold with_orders, upserted. f_equal.
    - apply (update_rows_upsert ir all_order_data d Hwf Hnd).
    - simpl. f_equal. subst existing. rewrite (to_insert_fresh ir all_order_data d Hwf).
      by rewrite length_map. }
  assert (length (to_insert ir existing all_order_data)
          = length (fresh_orders (uploaded_orders d) all_order_data)) as Hnew.
  { subst existing. rewrite (to_insert_fresh ir all_order_data d Hwf). by rewrite length_map. }
  assert (length (to_update ir existing all_order_data)
          = length (List.filter (λ od, number_taken (uploaded_orders d) (od_OrderNumber od))
                                all_order_data)) as Hrep.
  { apply length_to_update. intros od Hod. subst existing.
    rewrite (existing_of_upload all_order_data d Hwf od Hod).
    destruct (number_taken (uploaded_orders d) (od_OrderNumber od)) eqn:Ht; [| done].
    apply number_taken_row in Ht as (o & Ho & Hk).
    destruct (List.find _ _) as [o' |] eqn:Hf; [done |].
    exfalso. pose proof (find_none _ _ Hf o (proj1 (list_elem_of_In _ _) Ho)) as Hx.
    simpl in Hx. rewrite Hk, String.eqb_refl in Hx. done. }
  unfold result_of, uploaded_by. cbn [new_count replaced_count]. by rewrite Hnew, Hrep.
Qed.

(** ** A successful run *)

Lemma wf_db_ingested r fi w : wf_db (committed w) → wf_db (ingested r fi w).
Proof.
  unfold ingested, started. by destruct (find_task (run_task_id r) (committed w)).
Qed.

Lemma uploaded_orders_ingested r fi w :
  uploaded_orders (ingested r fi w) = uploaded_orders (committed w).
Proof.
  unfold ingested, started. by destruct (find_task (run_task_id r) (committed w)).
Qed.

Lemma next_order_id_ingested r fi w :
  next_order_id (ingested r fi w) = next_order_id (committed w).
Proof.
  unfold ingested, started. by destruct (find_task (run_task_id r) (committed w)).
Qed.

Lemma uploaded_orders_completed task tid d :
  uploaded_orders (completed task tid d) = uploaded_orders d.
Proof. unfold completed. by destruct task. Qed.

Lemma process_success r w fi mp df all_order_data :
  accepted r fi mp df all_order_data →
  wf_db (committed w) →
  process_upload_background r w
  = (Ok (result_of (run_task_id r) all_order_data (ingested r fi w)
           (upserted (reconcile (run_external r) all_order_data) all_order_data
                     (ingested r fi w))),
     {| committed :=
          completed (task_id <$> find_task (run_task_id r) (committed w)) (run_task_id r)
            (upserted (reconcile (run_external r) all_order_data) all_order_data
                      (ingested r fi w));
        session := None;
        ext_calls := ext_calls w ++ reconcile_calls all_order_data |}).
Proof.
  intros [Hnf Hp Hr Hm Hmiss Hz Hnorm] Hwf.
  unfold process_upload_background, pipeline.
  rewrite (bind_ok _ _ _ _ _ (start_spec r w None (Hnf _) (Hnf _))).
  pose proof (ingest_accepts r (task_id <$> find_task (run_task_id r) (committed w))
                (started r w) (ext_calls w)
                (Some (task_id <$> find_task (run_task_id r) (committed w)))
                fi df mp Hnf Hp Hr Hm Hmiss Hz) as Hi.
  unfold open_frame in Hi. rewrite (bind_ok _ _ _ _ _ Hi). cbn [fst snd].
  pose proof (persist_spec r (task_id <$> find_task (run_task_id r) (committed w)) fi mp df
                (ingested r fi w) (ext_calls w)
                (Some (task_id <$> find_task (run_task_id r) (committed w)))
                all_order_data Hnf (wf_db_ingested r fi w Hwf) Hnorm) as Hpersist.
  unfold open_frame, ingested in Hpersist. rewrite Hpersist. done.
Qed.

(** ** Reconciliation of absent orders *)

Lemma only_not_found_empty k : only_not_found k ∅.
Proof. intros e. by rewrite lookup_empty. Qed.

Lemma only_not_found_union k m1 m2 :
  only_not_found k m1 → only_not_found k m2 → only_not_found k (m1 ∪ m2).
Proof.
  intros H1 H2 e He. apply lookup_union_Some_raw in He as [He | [_ He]]; [by apply H1 | by apply H2].
Qed.

Lemma check_interface_status_absent x nums mkt k :
  absent_externally x k → only_not_found k (check_interface_status x nums mkt).
Proof.
  intros Habs. unfold check_interface_status.
  assert (check_external_database_status x nums mkt !! k = None) as Hext.
  { unfold check_external_database_status.
    destruct (assoc_get _ _); [| done].
    destruct Habs as [-> | Habs]; [done |]. destruct (ext_connect x); [apply Habs | done]. }
  remember (check_external_database_status x nums mkt) as ext eqn:Heq. clear Heq.
  pose proof (only_not_found_empty k) as H0.
  revert H0. generalize (∅ : gmap string InterfaceResult).
  induction nums as [| n l IH]; intros m Hm; simpl; [done |].
  apply IH. intros e. destruct (decide (n = k)) as [-> | Hne].
  - rewrite Hext, lookup_insert_eq. by intros [= <-].
  - destruct (ext !! n); rewrite lookup_insert_ne by done; apply Hm.
Qed.

Lemma reconcile_absent x all_order_data k :
  absent_externally x k → only_not_found k (reconcile x all_order_data).
Proof.
  intros Habs. unfold reconcile.
  pose proof (only_not_found_empty k) as H0.
  revert H0. generalize (∅ : gmap string InterfaceResult).
  induction (orders_by_marketplace all_order_data) as [| g gs IH]; intros m Hm; simpl; [done |].
  apply IH. unfold reconcile_marketplace.
  revert Hm. generalize m.
  induction (chunks EXTERNAL_CHUNK_SIZE _) as [| c cs IHc]; intros m' Hm'; simpl; [done |].
  apply IHc. apply only_not_found_union; [| done].
  unfold check_chunk. destruct (chunk_times_out x g.1 c); [apply only_not_found_empty |].
  by apply check_interface_status_absent.
Qed.

(** The interface fields assigned to an order that is absent externally. *)
Lemma assign_interface_absent x all_order_data od :
  absent_externally x (od_OrderNumber od) →
  r_InterfaceStatus (assign_interface (reconcile x all_order_data) od) = "Not Yet Interface"
  ∧ r_ItemIdFlexo (assign_interface (reconcile x all_order_data) od) = None
  ∧ r_OrderStatusFlexo (assign_interface (reconcile x all_order_data) od) = Some ""
  ∧ (r_OrderNumberFlexo (assign_interface (reconcile x all_order_data) od) = None
     ∨ r_OrderNumberFlexo (assign_interface (reconcile x all_order_data) od) = Some "").
Proof.
  intros Habs. pose proof (reconcile_absent x all_order_data _ Habs) as H.
  unfold assign_interface.
  destruct (reconcile x all_order_data !! od_OrderNumber od) as [e |] eqn:E.
  - rewrite (H e E). simpl. repeat split; eauto.
  - simpl. repeat split; eauto.
Qed.

Lemma find_upload_Some l od :
  NoDup (map od_OrderNumber l) → od ∈ l → find_upload l (od_OrderNumber od) = Some od.
Proof.
  unfold find_upload. induction l as [| od' l IH]; intros Hnd Hin; [by apply elem_of_nil in Hin |].
  simpl in Hnd. apply NoDup_cons in Hnd as [Hx Hnd]. simpl.
  apply elem_of_cons in Hin as [-> | Hin].
  - by rewrite String.eqb_refl.
  - destruct (String.eqb_spec (od_OrderNumber od') (od_OrderNumber od)) as [Heq | Hne].
    + exfalso. apply Hx. rewrite Heq. apply list_elem_of_fmap. by exists od.
    + by apply IH.
Qed.

(** Every order of the upload has its row after the upsert: the stored
    row overwritten, or a new row. *)
Lemma upsert_rows_has ir all_order_data os next od :
  NoDup (map od_OrderNumber all_order_data) →
  od ∈ all_order_data →
  ∃ o, o ∈ upsert_rows ir all_order_data os next
       ∧ ((∃ o0, o0 ∈ os ∧ OrderNumber o0 = od_OrderNumber od
                 ∧ o = apply_update o0 (assign_interface ir od))
          ∨ (number_taken os (od_OrderNumber od) = false
             ∧ ∃ id, o = new_order id (assign_interface ir od))).
Proof.
  intros Hnd Hin. unfold upsert_rows.
  destruct (number_taken os (od_OrderNumber od)) eqn:Ht.
  - apply number_taken_row in Ht as (o0 & Ho0 & Hk).
    exists (apply_update o0 (assign_interface ir od)). split.
    + apply elem_of_app. left. apply list_elem_of_fmap. exists o0. split; [| done].
      by rewrite Hk, find_upload_Some.
    + left. by exists o0.
  - assert (od ∈ fresh_orders os all_order_data) as Hf.
    { apply list_elem_of_In, filter_In. split; [by apply list_elem_of_In | by rewrite Ht]. }
    apply list_elem_of_lookup in Hf as [i Hi].
    exists (new_order (next + i) (assign_interface ir od)). split.
    + apply elem_of_app. right.
      apply (elem_of_lookup_imap_2 (λ i od, new_order (next + i) (assign_interface ir od))
               _ _ _ Hi).
    + right. split; [done |]. by eexists.
Qed.

Lemma find_task_upserted tid ir all_order_data d :
  find_task tid (upserted ir all_order_data d) = find_task tid d.
Proof. done. Qed.

Lemma find_task_ingested r fi w t :
  find_task (run_task_id r) (committed w) = Some t →
  find_task (run_task_id r) (ingested r fi w) = Some (task_set_status "processing" t).
Proof.
  intros Ht. unfold ingested. rewrite find_task_with_history. unfold started. rewrite Ht.
  rewrite find_task_set_task by done. by rewrite Ht.
Qed.

Lemma process_success_task r w fi mp df all_order_data t :
  accepted r fi mp df all_order_data →
  wf_db (committed w) →
  find_task (run_task_id r) (committed w) = Some t →
  ∃ t', find_task (run_task_id r) (committed (process_upload_background r w).2) = Some t'
        ∧ status t' = "completed".
Proof.
  intros Hacc Hwf Ht. rewrite (process_success r w fi mp df all_order_data Hacc Hwf). simpl.
  rewrite Ht. simpl. rewrite (find_task_id _ _ _ Ht). unfold completed.
  rewrite find_task_set_task by done. rewrite find_task_upserted.
  rewrite (find_task_ingested r fi w t Ht). simpl. by eexists.
Qed.

(** C6 (as amended). In a run on an accepted file, every order whose
    number is absent from the external result set (also when the external
    connection cannot be opened at all) is persisted with interface status
    "Not Yet Interface", a null foreign item-id list, an empty-string
    foreign order status, and a foreign order number that is null or the
    empty string; the run is not aborted: it returns its result and the
    task ends Completed. *)
Theorem absent_orders_not_yet_interfaced r w fi mp df all_order_data od :
  accepted r fi mp df all_order_data →
  wf_db (committed w) →
  od ∈ all_order_data →
  absent_externally (run_external r) (od_OrderNumber od) →
  (∃ res, (process_upload_background r w).1 = Ok res)
  ∧ (∀ t, find_task (run_task_id r) (committed w) = Some t →
          ∃ t', find_task (run_task_id r) (committed (process_upload_background r w).2) = Some t'
                ∧ status t' = "completed")
  ∧ ∃ o, o ∈ uploaded_orders (committed (process_upload_background r w).2)
         ∧ OrderNumber o = od_OrderNumber od
         ∧ InterfaceStatus o = "Not Yet Interface"
         ∧ ItemIdFlexo o = None
         ∧ OrderStatusFlexo o = Some ""
         ∧ (OrderNumberFlexo o = None ∨ OrderNumberFlexo o = Some "").
Proof.
  intros Hacc Hwf Hod Habs. split; [| split].
  - rewrite (process_success r w fi mp df all_order_data Hacc Hwf). by eexists.
  - intros t Ht. by eapply process_success_task.
  - rewrite (process_success r w fi mp df all_order_data Hacc Hwf). simpl.
    rewrite uploaded_orders_completed. simpl.
    pose proof (normalize_NoDup _ _ _ _ _ _ _ _ _ _ (acc_normalize _ _ _ _ _ Hacc)) as Hnd.
    destruct (upsert_rows_has (reconcile (run_external r) all_order_data) all_order_data
                (uploaded_orders (ingested r fi w)) (next_order_id (ingested r fi w)) od Hnd Hod)
      as (o & Ho & Hshape).
    destruct (assign_interface_absent (run_external r) all_order_data od Habs)
      as (Hs & Hi & Hst & Hnum).
    exists o. split; [done |].
    destruct Hshape as [(o0 & _ & Hk & ->) | (_ & id & ->)]; simpl.
    + rewrite Hs, Hi, Hst. repeat split; try done. right.
      by destruct Hnum as [-> | ->].
    + rewrite assign_data, Hs, Hi, Hst. repeat split; try done.
Qed.

Lemma example_accepted :
  accepted (example_run "t1" (Ok example_df)) c10_info shopee_mapping example_df
    [order_S100; order_S101].
Proof. split; try reflexivity; by vm_compute. Qed.

Lemma example_world_wf : wf_db (committed example_world).
Proof. repeat split; simpl; constructor. Qed.

Lemma S101_absent : absent_externally example_external "S-101".
Proof.
  right. intros field mkt nums. simpl. destruct (Py.mem "S-100" nums); [| done].
  by apply lookup_singleton_ne.
Qed.

Lemma absent_orders_not_yet_interfaced_witness :
  ∃ o, o ∈ uploaded_orders
             (committed (process_upload_background (example_run "t1" (Ok example_df))
                           example_world).2)
       ∧ OrderNumber o = "S-101"
       ∧ InterfaceStatus o = "Not Yet Interface"
       ∧ ItemIdFlexo o = None
       ∧ OrderStatusFlexo o = Some ""
       ∧ (OrderNumberFlexo o = None ∨ OrderNumberFlexo o = Some "").
Proof.
  refine (proj2 (proj2 (absent_orders_not_yet_interfaced (example_run "t1" (Ok example_df))
                          example_world c10_info shopee_mapping example_df
                          [order_S100; order_S101] order_S101 _ _ _ _))).
  - exact example_accepted.
  - exact example_world_wf.
  - apply list_elem_of_further, list_elem_of_here.
  - exact S101_absent.
Defined.

(** C6, counterexample to the claim as stated: S-101 is absent from the
    external result set, and its stored foreign order status is the empty
    string, not null. *)
Lemma absent_order_foreign_status_not_null :
  absent_externally example_external "S-101"
  ∧ ∃ o, o ∈ uploaded_orders
               (committed (process_upload_background (example_run "t1" (Ok example_df))
                             example_world).2)
         ∧ OrderNumber o = "S-101"
         ∧ OrderStatusFlexo o = Some ""
         ∧ OrderStatusFlexo o ≠ None.
Proof.
  split; [exact S101_absent |].
  eexists. split; [| split; [| split]].
  - vm_compute. apply list_elem_of_further, list_elem_of_here.
  - reflexivity.
  - reflexivity.
  - done.
Qed.

(** ** One record per order number *)

Lemma run_all_inv ks runs : ∀ w,
  db_inv (store_inv ks) w → db_inv (store_inv ks) (run_all runs w).
Proof.
  unfold run_all. induction runs as [| r runs IH]; intros w Hw; simpl; [done |].
  by apply IH, inv_process.
Qed.

Lemma store_inv_init w :
  wf_db (committed w) → session w = None →
  db_inv (store_inv (order_keys (committed w))) w.
Proof.
  intros Hwf Hs. unfold db_inv, view. rewrite Hs. simpl. by split.
Qed.

Lemma process_success_orders r w fi mp df all_order_data :
  accepted r fi mp df all_order_data →
  wf_db (committed w) →
  uploaded_orders (committed (process_upload_background r w).2)
  = upsert_rows (reconcile (run_external r) all_order_data) all_order_data
      (uploaded_orders (committed w)) (next_order_id (committed w)).
Proof.
  intros Hacc Hwf. rewrite (process_success r w fi mp df all_order_data Hacc Hwf).
  cbn [snd committed]. rewrite uploaded_orders_completed. unfold upserted.
  cbn [uploaded_orders]. by rewrite uploaded_orders_ingested, next_order_id_ingested.
Qed.

(** C1. Starting from a table that satisfies its constraints, after any
    sequence of uploads (accepted, rejected or failing) the order table
    holds at most one row per order number, and every row that was stored
    is still there, in place, with its primary key and its order number.
    An accepted upload leaves exactly the upsert of its records: a stored
    row whose number is in the upload is overwritten in place by
    [apply_update], which keeps [Id] and [OrderNumber]; only the orders
    not stored yet are appended. *)
Theorem one_record_per_order_number runs w :
  wf_db (committed w) →
  session w = None →
  NoDup (map OrderNumber (uploaded_orders (committed (run_all runs w))))
  ∧ order_keys (committed w) `prefix_of` order_keys (committed (run_all runs w))
  ∧ ∀ r fi mp df all_order_data,
      accepted r fi mp df all_order_data →
      uploaded_orders (committed (process_upload_background r (run_all runs w)).2)
      = upsert_rows (reconcile (run_external r) all_order_data) all_order_data
          (uploaded_orders (committed (run_all runs w)))
          (next_order_id (committed (run_all runs w))).
Proof.
  intros Hwf Hs.
  destruct (run_all_inv _ runs w (store_inv_init w Hwf Hs)) as [[Hwf' Hpre] _].
  split; [apply Hwf' |]. split; [done |].
  intros r fi mp df all_order_data Hacc. by eapply process_success_orders.
Qed.

Lemma one_record_per_order_number_witness :
  NoDup (map OrderNumber
           (uploaded_orders
              (committed (run_all [example_run "t1" (Ok example_df);
                                   example_run "t2" (Ok example_df)] example_world)))).
Proof.
  refine (proj1 (one_record_per_order_number
                   [example_run "t1" (Ok example_df); example_run "t2" (Ok example_df)]
                   example_world _ _)).
  - repeat split; simpl; constructor.
  - reflexivity.
Defined.

(** The update keeps the keys of the row and is idempotent on what it
    overwrites. *)
Lemma apply_update_keys o rd :
  Id (apply_update o rd) = Id o ∧ OrderNumber (apply_update o rd) = OrderNumber o.
Proof. done. Qed.

Example reupload_overwrites :
  map (λ o, (Id o, OrderNumber o, TaskId o))
      (uploaded_orders
         (committed (run_all [example_run "t1" (Ok example_df);
                              example_run "t2" (Ok example_df)] example_world)))
  = [ (1, "S-100", "t2"); (2, "S-101", "t2") ].
Proof. by vm_compute. Qed.

(** ** Re-ingesting the same sheet *)

Lemma filter_map_comm {A B} (f : A → B) (p : B → bool) l :
  List.filter p (map f l) = map f (List.filter (λ x, p (f x)) l).
Proof.
  induction l as [| x l IH]; simpl; [done |]. destruct (p (f x)); simpl; by rewrite IH.
Qed.

Lemma normalize_retask clk sc brand_name batch_name user tid tid' mp date df :
  normalize clk sc brand_name batch_name user tid' mp date df
  = match normalize clk sc brand_name batch_name user tid mp date df with
    | Ok all_order_data => Ok (map (retask tid') all_order_data)
    | Raise e => Raise e
    end.
Proof.
  unfold normalize. destruct (processed_rows clk sc mp date df) as [prs | e]; [| done].
  simpl. by rewrite map_map.
Qed.

Lemma orders_by_marketplace_retask tid l :
  orders_by_marketplace (map (retask tid) l)
  = map (λ g, (g.1, map (retask tid) g.2)) (orders_by_marketplace l).
Proof.
  unfold orders_by_marketplace. rewrite !map_map. simpl.
  apply map_ext. intros m. by rewrite filter_map_comm.
Qed.

Lemma reconcile_retask x tid l : reconcile x (map (retask tid) l) = reconcile x l.
Proof.
  unfold reconcile. rewrite orders_by_marketplace_retask.
  generalize (∅ : gmap string InterfaceResult).
  induction (orders_by_marketplace l) as [| g gs IH]; intros m; simpl; [done |].
  rewrite <- IH. f_equal. unfold reconcile_marketplace. by rewrite map_map.
Qed.

Lemma accepted_retask r fi mp df all_order_data tid :
  accepted r fi mp df all_order_data →
  accepted (with_task_id tid r) fi mp df (map (retask tid) all_order_data).
Proof.
  intros [Hnf Hp Hr Hm Hmiss Hz Hnorm]. split; try done.
  simpl. by rewrite (normalize_retask _ _ _ _ _ (run_task_id r)), Hnorm.
Qed.

Lemma normalize_length clk sc brand_name batch_name user tid mp date df all_order_data :
  normalize clk sc brand_name batch_name user tid mp date df = Ok all_order_data →
  length all_order_data
  = size (list_to_set (trimmed_order_numbers df (m_order_number mp)) : gset string).
Proof.
  intros Hnorm.
  assert (∃ i_num i_status i_date,
            getitem df (m_order_number mp) = Ok i_num
            ∧ getitem df (m_order_status mp) = Ok i_status
            ∧ getitem df (m_order_date mp) = Ok i_date
            ∧ valid_rows df (m_order_number mp) ≠ []) as (i1 & i2 & i3 & H1 & H2 & H3 & Hv).
  { revert Hnorm. unfold normalize, processed_rows, processed_dates.
    destruct (valid_rows df (m_order_number mp)) as [| r0 rs]; [done |]. simpl.
    destruct (getitem df (m_order_date mp)) as [i3 |]; [| done]. simpl.
    destruct (is_tokopedia sc); simpl;
      (destruct (getitem df (m_order_number mp)) as [i1 |]; [| done]); simpl;
      (destruct (getitem df (m_order_status mp)) as [i2 |]; [| done]); simpl;
      intros _; by exists i1, i2, i3. }
  destruct (processed_rows_ok clk sc mp date df i1 i2 i3 H1 H2 H3 Hv) as (prs & Hprs & _ & Hkeys).
  revert Hnorm. unfold normalize. rewrite Hprs. simpl. intros [= <-].
  rewrite length_map. unfold groupby. rewrite length_map, group_keys_length. by rewrite Hkeys.
Qed.

Lemma find_upload_in l k od :
  find_upload l k = Some od → od ∈ l ∧ od_OrderNumber od = k.
Proof.
  unfold find_upload. intros H. apply find_some in H as [Hin Hk].
  apply String.eqb_eq in Hk. split; [by apply list_elem_of_In | done].
Qed.

Lemma filter_all {A} (p : A → bool) l : (∀ x, x ∈ l → p x = true) → List.filter p l = l.
Proof.
  induction l as [| x l IH]; intros H; simpl; [done |].
  rewrite H by apply list_elem_of_here. f_equal. apply IH.
  intros y Hy. by apply H, list_elem_of_further.
Qed.

Lemma filter_none {A} (p : A → bool) l : (∀ x, x ∈ l → p x = false) → List.filter p l = [].
Proof.
  induction l as [| x l IH]; intros H; simpl; [done |].
  rewrite H by apply list_elem_of_here. apply IH.
  intros y Hy. by apply H, list_elem_of_further.
Qed.

(** The first upload of orders that are not stored yet appends them. *)
Lemma upsert_rows_fresh ir all_order_data os next :
  (∀ od, od ∈ all_order_data → number_taken os (od_OrderNumber od) = false) →
  upsert_rows ir all_order_data os next
  = os ++ imap (λ i od, new_order (next + i) (assign_interface ir od)) all_order_data
  ∧ fresh_orders os all_order_data = all_order_data.
Proof.
  intros Hfresh.
  assert (fresh_orders os all_order_data = all_order_data) as Hf.
  { apply filter_all. intros od Hod. by rewrite Hfresh. }
  split; [| done]. unfold upsert_rows. rewrite Hf. f_equal.
  apply map_fixed. intros o Ho.
  destruct (find_upload all_order_data (OrderNumber o)) as [od |] eqn:E; [| done].
  apply find_upload_in in E as [Hod Hk]. exfalso.
  assert (number_taken os (od_OrderNumber od) = true); [| by rewrite Hfresh in *].
  rewrite Hk. apply number_taken_spec, list_elem_of_fmap. by exists o.
Qed.

Lemma assign_interface_retask ir tid od :
  assign_interface ir (retask tid od)
  = {| r_data := retask tid od;
       r_InterfaceStatus := r_InterfaceStatus (assign_interface ir od);
       r_OrderNumberFlexo := r_OrderNumberFlexo (assign_interface ir od);
       r_OrderStatusFlexo := r_OrderStatusFlexo (assign_interface ir od);
       r_ItemIdFlexo := r_ItemIdFlexo (assign_interface ir od) |}.
Proof. unfold assign_interface. simpl. by destruct (ir !! od_OrderNumber od). Qed.

(** The second upload of the same orders overwrites each of their rows
    and appends nothing. *)
Lemma upsert_rows_again ir all_order_data os next next' tid :
  NoDup (map od_OrderNumber all_order_data) →
  (∀ od, od ∈ all_order_data → number_taken os (od_OrderNumber od) = false) →
  upsert_rows ir (map (retask tid) all_order_data)
    (os ++ imap (λ i od, new_order (next + i) (assign_interface ir od)) all_order_data) next'
  = map (restamp tid (map od_OrderNumber all_order_data))
        (os ++ imap (λ i od, new_order (next + i) (assign_interface ir od)) all_order_data)
  ∧ fresh_orders
      (os ++ imap (λ i od, new_order (next + i) (assign_interface ir od)) all_order_data)
      (map (retask tid) all_order_data) = [].
Proof.
  intros Hnd Hfresh.
  set (news := imap (λ i od, new_order (next + i) (assign_interface ir od)) all_order_data).
  assert (fresh_orders (os ++ news) (map (retask tid) all_order_data) = []) as Hf.
  { apply filter_none. intros od2 Hod2. apply list_elem_of_fmap in Hod2 as [od [-> Hod]].
    apply negb_false_iff. rewrite number_taken_app. apply orb_true_iff. right.
    apply number_taken_spec, list_elem_of_fmap.
    apply list_elem_of_lookup in Hod as [i Hi].
    exists (new_order (next + i) (assign_interface ir od)). split.
    - simpl. by rewrite assign_data.
    - apply (elem_of_lookup_imap_2 (λ i od, new_order (next + i) (assign_interface ir od))
               _ _ _ Hi). }
  split; [| done]. unfold upsert_rows. rewrite Hf. simpl. rewrite app_nil_r.
  apply map_ext_in. intros o Ho. apply in_app_or in Ho as [Ho | Ho].
  - apply list_elem_of_In in Ho.
    assert (OrderNumber o ∉ map od_OrderNumber all_order_data) as Hnot.
    { intros Hin. apply list_elem_of_fmap in Hin as [od [Hk Hod]].
      assert (number_taken os (od_OrderNumber od) = true); [| by rewrite Hfresh in *].
      rewrite <- Hk. apply number_taken_spec, list_elem_of_fmap. by exists o. }
    rewrite find_upload_None by (by rewrite map_map).
    unfold restamp. destruct (Py.mem (OrderNumber o) _) eqn:Hm; [| done].
    by apply mem_spec in Hm.
  - apply list_elem_of_In, elem_of_lookup_imap in Ho as (i & od & -> & Hi).
    apply list_elem_of_lookup_2 in Hi as Hod.
    assert (find_upload (map (retask tid) all_order_data)
              (OrderNumber (new_order (next + i) (assign_interface ir od)))
            = Some (retask tid od)) as ->.
    { simpl. rewrite assign_data.
      change (od_OrderNumber od) with (od_OrderNumber (retask tid od)).
      apply find_upload_Some; [by rewrite map_map | apply list_elem_of_fmap; by exists od]. }
    unfold restamp. simpl. rewrite assign_data.
    assert (Py.mem (od_OrderNumber od) (map od_OrderNumber all_order_data) = true) as ->
      by (apply mem_spec, list_elem_of_fmap; by exists od).
    rewrite assign_interface_retask. unfold apply_update, new_order. simpl.
    by rewrite assign_data.
Qed.

Lemma filter_split_length {A} (p : A → bool) l :
  length (List.filter p l) + length (List.filter (λ x, negb (p x)) l) = length l.
Proof.
  induction l as [| x l IH]; simpl; [done |]. destruct (p x); simpl; lia.
Qed.

Lemma result_counts tid all_order_data d d' :
  new_orders (result_of tid all_order_data d d')
  = length (fresh_orders (uploaded_orders d) all_order_data)
  ∧ replaced_orders (result_of tid all_order_data d d')
    + length (fresh_orders (uploaded_orders d) all_order_data) = length all_order_data.
Proof.
  split; [done |]. unfold result_of, fresh_orders. cbn [replaced_orders].
  apply filter_split_length.
Qed.

(** C2 (as amended). For an accepted sheet with N distinct order
    numbers, none of them stored yet: the first run reports new = N and
    replaced = 0; a second run of the same sheet (same file, filename,
    user, clock and external answers, under its own task id) reports
    replaced = N and new = 0 and adds no row; it leaves every row as the
    first run stored it, except that the rows of the sheet now belong to
    the second task and a null foreign order number or status has become
    the empty string. *)
Theorem reingest_replaces r w fi mp df all_order_data tid2 :
  accepted r fi mp df all_order_data →
  wf_db (committed w) →
  session w = None →
  (∀ od, od ∈ all_order_data →
         number_taken (uploaded_orders (committed w)) (od_OrderNumber od) = false) →
  ∃ res1 res2,
    (process_upload_background r w).1 = Ok res1
    ∧ (process_upload_background (with_task_id tid2 r) (process_upload_background r w).2).1
      = Ok res2
    ∧ length all_order_data
      = size (list_to_set (trimmed_order_numbers df (m_order_number mp)) : gset string)
    ∧ new_orders res1 = length all_order_data ∧ replaced_orders res1 = 0
    ∧ replaced_orders res2 = length all_order_data ∧ new_orders res2 = 0
    ∧ uploaded_orders
        (committed (process_upload_background (with_task_id tid2 r)
                      (process_upload_background r w).2).2)
      = map (restamp tid2 (map od_OrderNumber all_order_data))
            (uploaded_orders (committed (process_upload_background r w).2)).
Proof.
  intros Hacc Hwf Hs Hfresh.
  pose proof (normalize_NoDup _ _ _ _ _ _ _ _ _ _ (acc_normalize _ _ _ _ _ Hacc)) as Hnd.
  pose proof (accepted_retask r fi mp df all_order_data tid2 Hacc) as Hacc2.
  set (w1 := (process_upload_background r w).2).
  assert (wf_db (committed w1)) as Hwf1.
  { destruct (inv_process _ r w (store_inv_init w Hwf Hs)) as [[H _] _]. exact H. }
  set (ir := reconcile (run_external r) all_order_data).
  destruct (upsert_rows_fresh ir all_order_data (uploaded_orders (committed w))
              (next_order_id (committed w)) Hfresh) as [Hrows1 Hfresh1].
  assert (uploaded_orders (committed w1)
          = uploaded_orders (committed w)
            ++ imap (λ i od, new_order (next_order_id (committed w) + i) (assign_interface ir od))
                    all_order_data) as Ho1.
  { subst w1. by rewrite (process_success_orders r w fi mp df all_order_data Hacc Hwf). }
  destruct (upsert_rows_again ir all_order_data (uploaded_orders (committed w))
              (next_order_id (committed w)) (next_order_id (committed w1)) tid2 Hnd Hfresh)
    as [Hrows2 Hfresh2].
  eexists _, _. split; [by rewrite (process_success r w fi mp df all_order_data Hacc Hwf) |].
  split; [by rewrite (process_success _ w1 fi mp df _ Hacc2 Hwf1) |].
  split; [by eapply normalize_length, acc_normalize |].
  destruct (result_counts (run_task_id r) all_order_data (ingested r fi w)
              (upserted ir all_order_data (ingested r fi w))) as [Hn1 Hr1].
  rewrite uploaded_orders_ingested, Hfresh1 in Hn1, Hr1.
  destruct (result_counts tid2 (map (retask tid2) all_order_data)
              (ingested (with_task_id tid2 r) fi w1)
              (upserted (reconcile (run_external r) (map (retask tid2) all_order_data))
                 (map (retask tid2) all_order_data) (ingested (with_task_id tid2 r) fi w1)))
    as [Hn2 Hr2].
  rewrite uploaded_orders_ingested, Ho1, Hfresh2 in Hn2, Hr2. rewrite length_map in Hr2.
  simpl in Hn2, Hr2.
  split; [exact Hn1 |]. split; [fold ir; lia |].
  split; [simpl; lia |]. split; [exact Hn2 |].
  rewrite (process_success_orders _ w1 fi mp df _ Hacc2 Hwf1). simpl.
  rewrite reconcile_retask. fold ir. by rewrite Ho1.
Qed.

Lemma reingest_replaces_witness :
  ∃ res1 res2,
    (process_upload_background (example_run "t1" (Ok example_df)) example_world).1 = Ok res1
    ∧ (process_upload_background (with_task_id "t2" (example_run "t1" (Ok example_df)))
         (process_upload_background (example_run "t1" (Ok example_df)) example_world).2).1
      = Ok res2
    ∧ new_orders res1 = 2 ∧ replaced_orders res2 = 2.
Proof.
  destruct (reingest_replaces (example_run "t1" (Ok example_df)) example_world c10_info
              shopee_mapping example_df [order_S100; order_S101] "t2"
              example_accepted example_world_wf eq_refl)
    as (res1 & res2 & H1 & H2 & _ & Hn & _ & Hr & _).
  - intros od Hod. reflexivity.
  - exists res1, res2. repeat split; done.
Defined.

(** C2, counterexample to the claim as stated: the stored state after
    the second run of the identical sheet differs from the state after
    the first run. Under its own task id the rows change owner; and even
    under the same task id the row of S-101, which the external system
    does not know, changes its foreign order number from null to the
    empty string. *)
Lemma reingest_changes_stored_state :
  uploaded_orders
    (committed (run_all [example_run "t1" (Ok example_df); example_run "t2" (Ok example_df)]
                  example_world))
  ≠ uploaded_orders (committed (run_all [example_run "t1" (Ok example_df)] example_world))
  ∧ map OrderNumberFlexo
      (uploaded_orders (committed (run_all [example_run "t1" (Ok example_df)] example_world)))
    = [Some "F-1"; None]
  ∧ map OrderNumberFlexo
      (uploaded_orders
         (committed (run_all [example_run "t1" (Ok example_df); example_run "t1" (Ok example_df)]
                       example_world)))
    = [Some "F-1"; Some ""].
Proof.
  split; [| split; by vm_compute].
  intros H. apply (f_equal (map TaskId)) in H. vm_compute in H. discriminate H.
Qed.

(** ** Filename parsing: what an accepted name looks like *)

Lemma span_spec p s : ∀ a b,
  Py.span p s = (a, b) →
  s = a +:+ b ∧ all_chars p a = true
  ∧ match b with String c _ => p c = false | EmptyString => True end.
Proof.
  induction s as [|c s IH]; intros a b H; simpl in H.
  - inversion H; subst. auto.
  - destruct (p c) eqn:Hc.
    + destruct (Py.span p s) as [a' b'] eqn:Hs. inversion H; subst.
      destruct (IH a' b eq_refl) as (-> & Ha & Hb).
      split; [reflexivity|]. split; [|exact Hb]. simpl. rewrite Hc, Ha. reflexivity.
    + inversion H; subst. simpl. rewrite Hc. auto.
Qed.

Lemma run1_spec p s a b :
  run1 p s = Some (a, b) →
  s = a +:+ b ∧ a ≠ "" ∧ all_chars p a = true
  ∧ match b with String c _ => p c = false | EmptyString => True end.
Proof.
  unfold run1. destruct (Py.span p s) as [a' b'] eqn:Hs.
  destruct (Py.truthy a') eqn:Ht; [|discriminate].
  intros H; inversion H; subst.
  destruct (span_spec _ _ _ _ Hs) as (-> & Ha & Hb).
  repeat split; auto. intros ->. discriminate.
Qed.

Lemma match_ext_spec s e rest :
  match_ext s = Some (e, rest) → e = "xlsx" ∨ e = "csv".
Proof.
  unfold match_ext. destruct (String.prefix "xlsx" s).
  - intros H; inversion H; auto.
  - destruct (String.prefix "csv" s); [|discriminate]. intros H; inversion H; auto.
Qed.

Lemma nonempty_length s : s ≠ "" → (0 < String.length s)%nat.
Proof. destruct s; [congruence|simpl; lia]. Qed.

Lemma match_pattern1_spec s brand chan date batch ext :
  match_pattern1 s = Some (brand, chan, date, batch, ext) →
  (brand ≠ "" ∧ all_chars Py.is_upper brand = true)
  ∧ (chan ≠ "" ∧ all_chars Py.is_upper chan = true)
  ∧ (date ≠ "" ∧ all_chars Py.is_digit date = true)
  ∧ (batch ≠ "" ∧ all_chars Py.is_digit batch = true)
  ∧ (ext = "xlsx" ∨ ext = "csv").
Proof.
  unfold match_pattern1. intros H.
  destruct (run1 Py.is_upper s) as [[b1 s1]|] eqn:E1; simpl in H; [|discriminate].
  destruct (expect "-" s1) as [s2|] eqn:E2; simpl in H; [|discriminate].
  destruct (run1 Py.is_upper s2) as [[b3 s3]|] eqn:E3; simpl in H; [|discriminate].
  destruct (expect "-" s3) as [s4|] eqn:E4; simpl in H; [|discriminate].
  destruct (run1 Py.is_digit s4) as [[b5 s5]|] eqn:E5; simpl in H; [|discriminate].
  destruct (expect "-" s5) as [s6|] eqn:E6; simpl in H; [|discriminate].
  destruct (run1 Py.is_digit s6) as [[b7 s7]|] eqn:E7; simpl in H; [|discriminate].
  destruct (expect "." s7) as [s8|] eqn:E8; simpl in H; [|discriminate].
  destruct (match_ext s8) as [[e9 s9]|] eqn:E9; simpl in H; [|discriminate].
  inversion H; subst.
  apply run1_spec in E1 as (_ & ? & ? & _). apply run1_spec in E3 as (_ & ? & ? & _).
  apply run1_spec in E5 as (_ & ? & ? & _). apply run1_spec in E7 as (_ & ? & ? & _).
  apply match_ext_spec in E9. auto 10.
Qed.

Lemma match_pattern2_spec s brand chan batch ext :
  match_pattern2 s = Some (brand, chan, batch, ext) →
  (brand ≠ "" ∧ all_chars Py.is_upper brand = true)
  ∧ (chan ≠ "" ∧ all_chars Py.is_upper chan = true)
  ∧ (batch ≠ "" ∧ all_chars Py.is_digit batch = true)
  ∧ (ext = "xlsx" ∨ ext = "csv").
Proof.
  unfold match_pattern2. intros H.
  destruct (run1 Py.is_upper s) as [[b1 s1]|] eqn:E1; simpl in H; [|discriminate].
  destruct (expect "-" s1) as [s2|] eqn:E2; simpl in H; [|discriminate].
  destruct (run1 Py.is_upper s2) as [[b3 s3]|] eqn:E3; simpl in H; [|discriminate].
  destruct (expect "-" s3) as [s4|] eqn:E4; simpl in H; [|discriminate].
  destruct (run1 Py.is_digit s4) as [[b5 s5]|] eqn:E5; simpl in H; [|discriminate].
  destruct (expect "." s5) as [s6|] eqn:E6; simpl in H; [|discriminate].
  destruct (match_ext s6) as [[e7 s7]|] eqn:E7; simpl in H; [|discriminate].
  inversion H; subst.
  apply run1_spec in E1 as (_ & ? & ? & _). apply run1_spec in E3 as (_ & ? & ? & _).
  apply run1_spec in E5 as (_ & ? & ? & _). apply match_ext_spec in E7. auto 10.
Qed.

(** X1. Whatever [parse_filename] accepts is well formed: brand and sales
    channel are non-empty runs of at most 20 upper-case letters, the batch
    is one to three digits, the date is a run of digits whose value lies
    between 1 and 31, and the extension is xlsx or csv. *)
Theorem parse_filename_wellformed filename fi :
  parse_filename filename = Ok (Some fi) →
  ((0 < String.length (fi_brand fi) ≤ 20)%nat ∧ all_chars Py.is_upper (fi_brand fi) = true)
  ∧ ((0 < String.length (fi_sales_channel fi) ≤ 20)%nat
     ∧ all_chars Py.is_upper (fi_sales_channel fi) = true)
  ∧ ((0 < String.length (fi_batch fi) ≤ 3)%nat ∧ all_chars Py.is_digit (fi_batch fi) = true)
  ∧ (all_chars Py.is_digit (fi_date fi) = true
     ∧ (1 ≤ Py.int_of_digits (fi_date fi) ≤ 31)%nat)
  ∧ (fi_extension fi = "xlsx" ∨ fi_extension fi = "csv").
Proof.
  unfold parse_filename. intros H.
  destruct (match_pattern1 _) as [[[[[brand chan] date] batch] ext]|] eqn:E1.
  - apply match_pattern1_spec in E1 as ((? & ?) & (? & ?) & (? & ?) & (? & ?) & ?).
    destruct (_ || _) eqn:Hlen in H; [discriminate|].
    destruct (_ || _) eqn:Hdate in H; [discriminate|].
    destruct (3 <? _)%nat eqn:Hbatch in H; [discriminate|].
    inversion H; subst; simpl.
    apply orb_false_iff in Hlen as [?%Nat.ltb_ge ?%Nat.ltb_ge].
    apply orb_false_iff in Hdate as [?%Nat.ltb_ge ?%Nat.ltb_ge].
    apply Nat.ltb_ge in Hbatch.
    repeat split; auto using nonempty_length.
  - destruct (match_pattern2 _) as [[[[brand chan] batch] ext]|] eqn:E2; [|discriminate].
    apply match_pattern2_spec in E2 as ((? & ?) & (? & ?) & (? & ?) & ?).
    destruct (_ || _) eqn:Hlen in H; [discriminate|].
    destruct (3 <? _)%nat eqn:Hbatch in H; [discriminate|].
    inversion H; subst; simpl.
    apply orb_false_iff in Hlen as [?%Nat.ltb_ge ?%Nat.ltb_ge].
    apply Nat.ltb_ge in Hbatch.
    repeat split; auto using nonempty_length; vm_compute; lia.
Qed.

Lemma parse_filename_wellformed_witness :
  (0 < String.length "CETAPHIL" ≤ 20)%nat ∧ all_chars Py.is_upper "CETAPHIL" = true.
Proof.
  exact (proj1 (parse_filename_wellformed "uploads/CETAPHIL-SHOPEE-3.csv"
                  {| fi_brand := "CETAPHIL"; fi_sales_channel := "SHOPEE"; fi_date := "1";
                     fi_batch := "3"; fi_extension := "csv" |} eq_refl)).
Defined.

(** ** Filename parsing: every well-formed name is accepted *)

Lemma all_chars_app p a b : all_chars p (a +:+ b) = all_chars p a && all_chars p b.
Proof.
  induction a as [|c a IH]; [reflexivity|].
  change (String c a +:+ b) with (String c (a +:+ b)). simpl. rewrite IH.
  apply andb_assoc.
Qed.

















Lemma basename_app dir : ∀ cur s,
  Py.basename_aux cur (dir +:+ "/" +:+ s) = Py.basename s.
Proof.
  induction dir as [|c dir IH]; intros cur s.
  - reflexivity.
  - change (String c dir +:+ "/" +:+ s) with (String c (dir +:+ "/" +:+ s)). simpl.
    destruct (Ascii.eqb c "/"); apply IH.
Qed.

(** X3. Only the last path component of a filename is parsed: a
    directory in front of the name changes nothing. *)
Theorem parse_filename_ignores_directory dir name :
  parse_filename (dir +:+ "/" +:+ name) = parse_filename name.
Proof.
  unfold parse_filename.
  replace (Py.basename (dir +:+ "/" +:+ name)) with (Py.basename name); [reflexivity|].
  symmetry. apply basename_app.
Qed.

(** ** Schema registry *)






(** X5. Every registered schema is labelled with its channel name in
    upper case and names the order-number, status and tracking columns;
    the only schema without an order-date column is Tokopedia's. *)
Theorem registered_schema_complete sales_channel mp :
  get_marketplace_mapping sales_channel = Some mp →
  m_brand mp = Py.upper (Py.strip (Py.lower sales_channel))
  ∧ is_Some (m_order_number mp) ∧ is_Some (m_order_status mp) ∧ is_Some (m_awb mp)
  ∧ (m_order_date mp = None ↔ Py.strip (Py.lower sales_channel) = "tokopedia").
Proof.
  unfold get_marketplace_mapping. destruct (negb _); [discriminate|].
  generalize (Py.strip (Py.lower sales_channel)). intros k.
  unfold MARKETPLACE_MAPPINGS, assoc_get.
  repeat (match goal with
          | |- context [String.eqb k ?s] => destruct (String.eqb_spec k s) as [->|?]
          end;
          [ intros [= <-]; simpl;
            repeat (split; [first [reflexivity | eexists; reflexivity]|]);
            split; intros; first [reflexivity | congruence] | ]).
  discriminate.
Qed.

Lemma registered_schema_complete_witness :
  m_brand shopee_mapping = "SHOPEE" ∧ is_Some (m_order_number shopee_mapping).
Proof.
  destruct (registered_schema_complete " Shopee " shopee_mapping eq_refl) as (H1 & H2 & _).
  split; [exact H1|exact H2].
Defined.

(** ** Chunking and the external queries of a run *)

Lemma chunks_aux_spec {A} (size : nat) : (0 < size)%nat → ∀ (fuel : nat) (l : list A),
  (length l ≤ fuel)%nat →
  concat (chunks_aux fuel size l) = l
  ∧ Forall (λ c, (0 < length c ≤ size)%nat) (chunks_aux fuel size l).
Proof.
  intros Hsize. induction fuel as [|fuel IH]; intros l Hl.
  - destruct l; [split; [reflexivity|constructor]|simpl in Hl; lia].
  - destruct l as [|a l]; [split; [reflexivity|constructor]|].
    change (chunks_aux (S fuel) size (a :: l))
      with (take size (a :: l) :: chunks_aux fuel size (drop size (a :: l))).
    destruct (IH (drop size (a :: l))) as [Hc Hf].
    { rewrite length_drop. simpl in *. lia. }
    split.
    + simpl concat. rewrite Hc. apply take_drop.
    + constructor; [|exact Hf]. rewrite length_take. simpl. lia.
Qed.

Lemma chunks_concat {A} (size : nat) (l : list A) :
  (0 < size)%nat → concat (chunks size l) = l.
Proof. intros Hsize. apply chunks_aux_spec; [exact Hsize|reflexivity]. Qed.

Lemma chunks_lengths {A} (size : nat) (l : list A) :
  (0 < size)%nat → Forall (λ c, (0 < length c ≤ size)%nat) (chunks size l).
Proof. intros Hsize. apply chunks_aux_spec; [exact Hsize|reflexivity]. Qed.

(** X6. Cutting a list into chunks of a positive size loses and
    reorders nothing, and every chunk holds between one and [size]
    elements. *)
Theorem chunks_partition {A} (size : nat) (l : list A) :
  (0 < size)%nat →
  concat (chunks size l) = l ∧ Forall (λ c, (0 < length c ≤ size)%nat) (chunks size l).
Proof. intros Hsize. split; [by apply chunks_concat|by apply chunks_lengths]. Qed.

Lemma chunks_partition_witness :
  concat (chunks 2 [1; 2; 3; 4; 5]) = [1; 2; 3; 4; 5]
  ∧ Forall (λ c, (0 < length c ≤ 2)%nat) (chunks 2 [1; 2; 3; 4; 5]).
Proof. apply (chunks_partition 2 [1; 2; 3; 4; 5]). lia. Defined.

Lemma chunks_elem {A} (size : nat) (l : list A) c a :
  (0 < size)%nat → c ∈ chunks size l → a ∈ c → a ∈ l.
Proof.
  intros Hsize Hc Ha. rewrite <- (chunks_concat size l Hsize).
  apply list_elem_of_In, in_concat. exists c. split; by apply list_elem_of_In.
Qed.

Lemma chunks_cover {A} (size : nat) (l : list A) a :
  (0 < size)%nat → a ∈ l → ∃ c, c ∈ chunks size l ∧ a ∈ c.
Proof.
  intros Hsize Ha. rewrite <- (chunks_concat size l Hsize) in Ha. apply list_elem_of_In, in_concat in Ha as (c & ? & ?).
  exists c. split; by apply list_elem_of_In.
Qed.

Lemma truthy_spec s : Py.truthy s = true ↔ s ≠ "".
Proof. destruct s; simpl; split; congruence. Qed.

Lemma orders_by_marketplace_elem all_order_data g :
  g ∈ orders_by_marketplace all_order_data →
  g.2 = List.filter (λ o, String.eqb (od_Marketplace o) g.1) all_order_data
  ∧ g.1 ∈ map od_Marketplace all_order_data.
Proof.
  unfold orders_by_marketplace. intros (m & -> & Hm)%list_elem_of_fmap.
  split; [reflexivity|]. cbn [fst]. apply unique_elem. exact Hm.
Qed.

Lemma reconcile_calls_elem all_order_data c :
  c ∈ reconcile_calls all_order_data ↔
  c.2 ∈ chunks EXTERNAL_CHUNK_SIZE
          (List.filter Py.truthy
             (map od_OrderNumber
                  (List.filter (λ o, String.eqb (od_Marketplace o) c.1) all_order_data)))
  ∧ c.1 ∈ map od_Marketplace all_order_data.
Proof.
  unfold reconcile_calls. rewrite list_elem_of_In, in_flat_map. split.
  - intros (g & Hg%list_elem_of_In & Hc%list_elem_of_In).
    apply list_elem_of_fmap in Hc as (chunk & -> & Hchunk).
    apply orders_by_marketplace_elem in Hg as [Hg2 Hg1]. simpl.
    rewrite <- Hg2. auto.
  - intros [Hc Hm]. destruct c as [m chunk]. simpl in *.
    exists (m, List.filter (λ o, String.eqb (od_Marketplace o) m) all_order_data). split.
    + apply list_elem_of_In. unfold orders_by_marketplace.
      apply list_elem_of_fmap. exists m. split; [reflexivity|]. by apply unique_elem.
    + apply list_elem_of_In, list_elem_of_fmap. exists chunk. auto.
Qed.

Lemma chunk_size_positive : (0 < EXTERNAL_CHUNK_SIZE)%nat.
Proof. unfold EXTERNAL_CHUNK_SIZE. lia. Qed.

(** Where the numbers of a query come from. *)
Lemma reconcile_calls_origin all_order_data c k :
  c ∈ reconcile_calls all_order_data → k ∈ c.2 →
  k ≠ "" ∧ ∃ od, od ∈ all_order_data ∧ od_OrderNumber od = k ∧ od_Marketplace od = c.1.
Proof.
  intros [Hc _]%reconcile_calls_elem Hk0.
  pose proof (chunks_elem _ _ _ _ chunk_size_positive Hc Hk0) as Hk.
  apply list_elem_of_In, filter_In in Hk as [Hk Ht]. apply truthy_spec in Ht.
  split; [exact Ht|]. apply in_map_iff in Hk as (od & Hnum & Hod).
  apply filter_In in Hod as [Hod Hm]. apply String.eqb_eq in Hm.
  exists od. split; [by apply list_elem_of_In|auto].
Qed.

(** X7. Every query sent to the external system by a run carries
    between one and 100 order numbers, each one a non-empty order number
    of an uploaded order of the marketplace the query names. *)
Theorem reconcile_calls_bounded all_order_data c :
  c ∈ reconcile_calls all_order_data →
  (0 < length c.2 ≤ 100)%nat
  ∧ ∀ k, k ∈ c.2 →
      k ≠ "" ∧ ∃ od, od ∈ all_order_data ∧ od_OrderNumber od = k ∧ od_Marketplace od = c.1.
Proof.
  intros Hcall. split; [|intros k; by apply reconcile_calls_origin].
  apply reconcile_calls_elem in Hcall as [Hc _].
  pose proof (chunks_lengths EXTERNAL_CHUNK_SIZE
                (List.filter Py.truthy
                   (map od_OrderNumber
                      (List.filter (λ o, String.eqb (od_Marketplace o) c.1) all_order_data)))
                chunk_size_positive) as Hf.
  rewrite Forall_forall in Hf. apply (Hf _ Hc).
Qed.

Lemma reconcile_calls_bounded_witness :
  (0 < length ["S-100"; "S-101"] ≤ 100)%nat.
Proof.
  apply (reconcile_calls_bounded [order_S100; order_S101] ("SHOPEE", ["S-100"; "S-101"])).
  vm_compute. apply list_elem_of_here.
Defined.

Lemma reconcile_calls_cover all_order_data od :
  od ∈ all_order_data → od_OrderNumber od ≠ "" →
  ∃ chunk, (od_Marketplace od, chunk) ∈ reconcile_calls all_order_data
           ∧ od_OrderNumber od ∈ chunk.
Proof.
  intros Hod Hne.
  destruct (chunks_cover EXTERNAL_CHUNK_SIZE
              (List.filter Py.truthy
                 (map od_OrderNumber
                    (List.filter (λ o, String.eqb (od_Marketplace o) (od_Marketplace od))
                                 all_order_data))) (od_OrderNumber od))
    as (chunk & Hc & Hk); [apply chunk_size_positive| |].
  - apply list_elem_of_In, filter_In. split; [|by apply truthy_spec].
    apply in_map. apply filter_In. split; [by apply list_elem_of_In|apply String.eqb_refl].
  - exists chunk. split; [|exact Hk]. apply reconcile_calls_elem. simpl. split; [exact Hc|].
    apply list_elem_of_fmap. exists od. auto.
Qed.

(** ** The interface reconciler, entry by entry *)

(** The entry [check_interface_status] builds for [k] from the rows
    [ext] of the external system. *)
Lemma check_interface_status_fold (ext : gmap string ExternalData) l :
  ∀ (acc : gmap string InterfaceResult) k,
  fold_left (λ all_results order_id,
      match ext !! order_id with
      | Some external_data => <[order_id := result_found external_data]> all_results
      | None => <[order_id := result_not_found]> all_results
      end) l acc !! k
  = if Py.mem k l
    then Some (match ext !! k with
               | Some external_data => result_found external_data
               | None => result_not_found
               end)
    else acc !! k.
Proof.
  induction l as [|a l IH]; intros acc k; [reflexivity|].
  simpl fold_left. rewrite IH. unfold Py.mem. simpl existsb.
  fold (Py.mem k l). destruct (Py.mem k l); [by rewrite orb_true_r|].
  rewrite orb_false_r. destruct (String.eqb_spec k a) as [->|Hne].
  - destruct (ext !! a); by rewrite lookup_insert_eq.
  - destruct (ext !! a); by rewrite lookup_insert_ne.
Qed.

Lemma check_interface_status_lookup x order_nums mkt k :
  check_interface_status x order_nums mkt !! k
  = if Py.mem k order_nums
    then Some (match check_external_database_status x order_nums mkt !! k with
               | Some external_data => result_found external_data
               | None => result_not_found
               end)
    else None.
Proof.
  unfold check_interface_status. rewrite check_interface_status_fold.
  destruct (Py.mem k order_nums); [reflexivity|apply lookup_empty].
Qed.

(** X8. [check_interface_status] answers for exactly the order numbers
    it is asked about: a found entry built from the external row when
    there is one, the not-found entry otherwise. *)
Theorem check_interface_status_entries x order_nums mkt k :
  (k ∈ order_nums →
   check_interface_status x order_nums mkt !! k
   = Some (match check_external_database_status x order_nums mkt !! k with
           | Some external_data => result_found external_data
           | None => result_not_found
           end))
  ∧ (k ∉ order_nums → check_interface_status x order_nums mkt !! k = None).
Proof.
  rewrite check_interface_status_lookup. split; intros Hk.
  - apply mem_spec in Hk. by rewrite Hk.
  - destruct (Py.mem k order_nums) eqn:E; [|reflexivity]. by apply mem_spec in E.
Qed.

Lemma fold_left_map_calls {A B C} (f : A → C → A) (g : B → C) l : ∀ acc,
  fold_left f (map g l) acc = fold_left (λ a b, f a (g b)) l acc.
Proof. induction l as [|b l IH]; intros acc; [reflexivity|]. simpl. apply IH. Qed.

(** The reconciliation is the merge, in order, of the answers to the
    queries of [reconcile_calls]. *)
Lemma reconcile_flat x all_order_data :
  reconcile x all_order_data
  = fold_left (λ acc c, check_chunk x c.1 c.2 ∪ acc) (reconcile_calls all_order_data) ∅.
Proof.
  unfold reconcile, reconcile_calls.
  generalize (∅ : gmap string InterfaceResult).
  induction (orders_by_marketplace all_order_data) as [|g gs IH]; intros acc; [reflexivity|].
  simpl. rewrite fold_left_app, <- IH. f_equal.
  unfold reconcile_marketplace. rewrite fold_left_map_calls. reflexivity.
Qed.

Lemma calls_fold_lookup x cs : ∀ (acc : gmap string InterfaceResult) k e,
  fold_left (λ acc c, check_chunk x c.1 c.2 ∪ acc) cs acc !! k = Some e →
  acc !! k = Some e ∨ ∃ c, c ∈ cs ∧ check_chunk x c.1 c.2 !! k = Some e.
Proof.
  induction cs as [|c cs IH]; intros acc k e H; [by left|].
  simpl in H. apply IH in H as [H | (c' & Hc' & H)].
  - apply lookup_union_Some_raw in H as [H | [_ H]]; [|by left].
    right. exists c. split; [apply list_elem_of_here|exact H].
  - right. exists c'. split; [by apply list_elem_of_further|exact H].
Qed.

Lemma calls_fold_mono x cs : ∀ (acc : gmap string InterfaceResult) k,
  is_Some (acc !! k) →
  is_Some (fold_left (λ acc c, check_chunk x c.1 c.2 ∪ acc) cs acc !! k).
Proof.
  induction cs as [|c cs IH]; intros acc k H; [exact H|].
  simpl. apply IH. apply lookup_union_is_Some. by right.
Qed.

Lemma calls_fold_complete x cs :
  (∀ c, c ∈ cs → chunk_times_out x c.1 c.2 = false) →
  ∀ (acc : gmap string InterfaceResult) c k, c ∈ cs → k ∈ c.2 →
  is_Some (fold_left (λ acc c, check_chunk x c.1 c.2 ∪ acc) cs acc !! k).
Proof.
  induction cs as [|c0 cs IH]; intros Hto acc c k Hc Hk; [by apply elem_of_nil in Hc|].
  simpl. apply elem_of_cons in Hc as [-> | Hc].
  - apply calls_fold_mono, lookup_union_is_Some. left.
    unfold check_chunk. rewrite (Hto c0 (list_elem_of_here _ _)).
    rewrite check_interface_status_lookup.
    apply mem_spec in Hk. rewrite Hk. by eexists.
  - eapply IH; eauto. intros c' Hc'. apply Hto. by apply list_elem_of_further.
Qed.

Lemma reconcile_lookup_call x all_order_data k e :
  reconcile x all_order_data !! k = Some e →
  ∃ c, c ∈ reconcile_calls all_order_data
       ∧ k ∈ c.2
       ∧ chunk_times_out x c.1 c.2 = false
       ∧ check_interface_status x c.2 c.1 !! k = Some e.
Proof.
  rewrite reconcile_flat. intros H.
  apply calls_fold_lookup in H as [H | (c & Hc & H)]; [by rewrite lookup_empty in H|].
  exists c. split; [exact Hc|]. unfold check_chunk in H.
  destruct (chunk_times_out x c.1 c.2); [by rewrite lookup_empty in H|].
  split; [|auto]. rewrite check_interface_status_lookup in H.
  destruct (Py.mem k c.2) eqn:Hk; [|discriminate]. by apply mem_spec.
Qed.

Lemma reconcile_covers_calls x all_order_data c k :
  (∀ mkt chunk, chunk_times_out x mkt chunk = false) →
  c ∈ reconcile_calls all_order_data → k ∈ c.2 →
  is_Some (reconcile x all_order_data !! k).
Proof.
  intros Hto Hc Hk. rewrite reconcile_flat.
  eapply calls_fold_complete; [intros; apply Hto|exact Hc|exact Hk].
Qed.



(** X10. When no watchdog fires, every uploaded order with a non-empty
    number gets an entry in the reconciled results. *)
Theorem reconcile_complete x all_order_data od :
  (∀ mkt chunk, chunk_times_out x mkt chunk = false) →
  od ∈ all_order_data →
  od_OrderNumber od ≠ "" →
  is_Some (reconcile x all_order_data !! od_OrderNumber od).
Proof.
  intros Hto Hod Hne.
  destruct (reconcile_calls_cover _ _ Hod Hne) as (chunk & Hc & Hk).
  by eapply reconcile_covers_calls.
Qed.

Lemma reconcile_complete_witness :
  is_Some (reconcile example_external [order_S100; order_S101] !! "S-101").
Proof.
  apply (reconcile_complete example_external [order_S100; order_S101] order_S101).
  - reflexivity.
  - apply list_elem_of_further, list_elem_of_here.
  - discriminate.
Defined.

Lemma check_interface_status_entries_witness :
  check_interface_status example_external ["S-100"; "S-101"] "SHOPEE" !! "S-101"
  = Some result_not_found.
Proof.
  apply (proj1 (check_interface_status_entries example_external ["S-100"; "S-101"] "SHOPEE"
                  "S-101")).
  apply list_elem_of_further, list_elem_of_here.
Defined.

(** ** What a successful run stores *)

Lemma NoDup_map_elem_inj {A B} (f : A → B) (l : list A) a b :
  NoDup (map f l) → a ∈ l → b ∈ l → f a = f b → a = b.
Proof.
  induction l as [|c l IH]; intros Hnd Ha Hb Hf; [by apply elem_of_nil in Ha|].
  simpl in Hnd. apply NoDup_cons in Hnd as [Hc Hnd].
  apply elem_of_cons in Ha as [-> | Ha]; apply elem_of_cons in Hb as [-> | Hb].
  - reflexivity.
  - exfalso. apply Hc. rewrite Hf. apply list_elem_of_fmap. by exists b.
  - exfalso. apply Hc. rewrite <- Hf. apply list_elem_of_fmap. by exists a.
  - by apply IH.
Qed.

(** The stored row of an uploaded order: a stored row with that number
    overwritten, or a new row. *)
Lemma process_success_row_cases r w fi mp df all_order_data od :
  accepted r fi mp df all_order_data →
  wf_db (committed w) →
  od ∈ all_order_data →
  ∃ o, o ∈ uploaded_orders (committed (process_upload_background r w).2)
       ∧ ((∃ o0, o0 ∈ uploaded_orders (committed w) ∧ OrderNumber o0 = od_OrderNumber od
                 ∧ o = apply_update o0
                         (assign_interface (reconcile (run_external r) all_order_data) od))
          ∨ (number_taken (uploaded_orders (committed w)) (od_OrderNumber od) = false
             ∧ ∃ id, o = new_order id
                           (assign_interface (reconcile (run_external r) all_order_data) od))).
Proof.
  intros Hacc Hwf Hod.
  rewrite (process_success_orders _ _ _ _ _ _ Hacc Hwf).
  pose proof (normalize_NoDup _ _ _ _ _ _ _ _ _ _ (acc_normalize _ _ _ _ _ Hacc)) as Hnd.
  apply (upsert_rows_has _ _ _ _ _ Hnd Hod).
Qed.

(** It carries the interface fields assigned from the reconciled
    results. *)
Lemma process_success_row r w fi mp df all_order_data od :
  accepted r fi mp df all_order_data →
  wf_db (committed w) →
  od ∈ all_order_data →
  ∃ o, o ∈ uploaded_orders (committed (process_upload_background r w).2)
       ∧ OrderNumber o = od_OrderNumber od
       ∧ InterfaceStatus o
         = r_InterfaceStatus (assign_interface (reconcile (run_external r) all_order_data) od)
       ∧ ItemIdFlexo o
         = r_ItemIdFlexo (assign_interface (reconcile (run_external r) all_order_data) od).
Proof.
  intros Hacc Hwf Hod.
  destruct (process_success_row_cases _ _ _ _ _ _ _ Hacc Hwf Hod)
    as (o & Ho & [(o0 & _ & Hnum & ->) | (_ & id & ->)]);
    eexists; (split; [exact Ho|]); simpl; rewrite ?assign_data; auto.
Qed.

Lemma assign_interface_found ir od d :
  ir !! od_OrderNumber od = Some (result_found d) →
  r_InterfaceStatus (assign_interface ir od)
  = (if String.eqb (x_interface_status d) "Interface" then "Interface" else "Not Yet Interface")
  ∧ r_ItemIdFlexo (assign_interface ir od) = x_item_id_flexo d
  ∧ r_OrderNumberFlexo (assign_interface ir od) = x_system_ref_id d
  ∧ r_OrderStatusFlexo (assign_interface ir od) = x_order_status d.
Proof.
  intros H. unfold assign_interface. rewrite H. simpl. split; [|auto].
  destruct (String.eqb_spec (x_interface_status d) "Interface") as [-> | Hne]; [reflexivity|].
  destruct (Py.truthy (x_interface_status d)).
  - rewrite bool_decide_eq_false_2; [reflexivity|]. intros [= E]. by apply Hne.
  - reflexivity.
Qed.

(** X11. An uploaded order for which the external system has a row is
    stored with the interface status and the item ids of that row,
    provided the connection opens and no watchdog fires. *)
Theorem present_order_takes_external_status r w fi mp df all_order_data od field d :
  accepted r fi mp df all_order_data →
  wf_db (committed w) →
  od ∈ all_order_data →
  od_OrderNumber od ≠ "" →
  (∀ mkt chunk, chunk_times_out (run_external r) mkt chunk = false) →
  ext_connect (run_external r) = true →
  assoc_get (Py.lower (od_Marketplace od)) MARKETPLACE_FIELD_MAPPING = Some field →
  (∀ nums, od_OrderNumber od ∈ nums →
           ext_rows (run_external r) field (od_Marketplace od) nums !! od_OrderNumber od
           = Some d) →
  ∃ o, o ∈ uploaded_orders (committed (process_upload_background r w).2)
       ∧ OrderNumber o = od_OrderNumber od
       ∧ InterfaceStatus o
         = (if String.eqb (x_interface_status d) "Interface"
            then "Interface" else "Not Yet Interface")
       ∧ ItemIdFlexo o = x_item_id_flexo d.
Proof.
  intros Hacc Hwf Hod Hne Hto Hconn Hfield Hrows.
  destruct (process_success_row _ _ _ _ _ _ _ Hacc Hwf Hod) as (o & Ho & Hnum & Hst & Hit).
  exists o. split; [exact Ho|]. split; [exact Hnum|]. rewrite Hst, Hit.
  pose proof (normalize_NoDup _ _ _ _ _ _ _ _ _ _ (acc_normalize _ _ _ _ _ Hacc)) as Hnd.
  destruct (reconcile_calls_cover _ _ Hod Hne) as (chunk & Hc & Hk).
  destruct (reconcile_covers_calls (run_external r) _ _ _ Hto Hc Hk) as [e He].
  destruct (reconcile_lookup_call _ _ _ _ He) as (c & Hcall & Hkc & _ & Hchk).
  destruct (reconcile_calls_origin _ _ _ Hcall Hkc) as (_ & od' & Hod' & Hnum' & Hm').
  assert (od' = od) as -> by (eapply NoDup_map_elem_inj; eauto).
  rewrite check_interface_status_lookup in Hchk.
  apply mem_spec in Hkc as Hmem. rewrite Hmem in Hchk.
  unfold check_external_database_status in Hchk.
  rewrite <- Hm', Hfield, Hconn, (Hrows _ Hkc) in Hchk. injection Hchk as <-.
  destruct (assign_interface_found _ _ _ He) as (-> & -> & _). auto.
Qed.

Lemma present_order_takes_external_status_witness :
  ∃ o, o ∈ uploaded_orders
             (committed (process_upload_background (example_run "t1" (Ok example_df))
                           example_world).2)
       ∧ OrderNumber o = "S-100"
       ∧ InterfaceStatus o = "Interface"
       ∧ ItemIdFlexo o = Some "SKU-A".
Proof.
  apply (present_order_takes_external_status (example_run "t1" (Ok example_df)) example_world
           c10_info shopee_mapping example_df [order_S100; order_S101] order_S100 "EntityId"
           {| x_system_ref_id := Some "F-1"; x_order_status := Some "SHIPPED";
              x_item_id_flexo := Some "SKU-A"; x_interface_status := "Interface" |}).
  - exact example_accepted.
  - exact example_world_wf.
  - apply list_elem_of_here.
  - discriminate.
  - reflexivity.
  - reflexivity.
  - reflexivity.
  - intros nums Hn. apply mem_spec in Hn. simpl in *. rewrite Hn. apply lookup_singleton_eq.
Defined.




(** X13. A successful upload leaves every stored order whose number is
    not in the sheet exactly as it was, at the same place in the table. *)
Theorem other_rows_untouched r w fi mp df all_order_data i o :
  accepted r fi mp df all_order_data →
  wf_db (committed w) →
  uploaded_orders (committed w) !! i = Some o →
  OrderNumber o ∉ map od_OrderNumber all_order_data →
  uploaded_orders (committed (process_upload_background r w).2) !! i = Some o.
Proof.
  intros Hacc Hwf Hi Hnot.
  rewrite (process_success_orders _ _ _ _ _ _ Hacc Hwf). unfold upsert_rows.
  apply lookup_app_l_Some. rewrite list_lookup_fmap, Hi. simpl.
  by rewrite (find_upload_None _ _ Hnot).
Qed.

Lemma other_rows_untouched_witness :
  uploaded_orders
    (committed (process_upload_background (example_run "t1" (Ok example_df))
                  {| committed := {| upload_tasks := [example_task "t1"]; upload_history := [];
                                     uploaded_orders := [stored_order 1 "S-7" "Interface"];
                                     brand_shops := []; next_order_id := 2 |};
                     session := None; ext_calls := [] |}).2) !! 0
  = Some (stored_order 1 "S-7" "Interface").
Proof.
  apply (other_rows_untouched (example_run "t1" (Ok example_df)) _ c10_info shopee_mapping
           example_df [order_S100; order_S101]).
  - exact example_accepted.
  - split; [|split]; simpl; [apply NoDup_singleton..|].
    constructor; [simpl; lia|constructor].
  - reflexivity.
  - simpl. intros H. repeat (apply elem_of_cons in H as [H | H]; [discriminate|]).
    by apply elem_of_nil in H.
Defined.

Lemma normalize_stamped clk sc brand_name batch_name user tid mp date df all_order_data od :
  normalize clk sc brand_name batch_name user tid mp date df = Ok all_order_data →
  od ∈ all_order_data →
  od_Marketplace od = sc ∧ od_Brand od = brand_name ∧ od_Batch od = batch_name
  ∧ od_PIC od = user ∧ od_TaskId od = tid ∧ od_UploadDate od = current_time clk.
Proof.
  unfold normalize. destruct (processed_rows _ _ _ _ _) as [prs|e]; simpl; [|discriminate].
  intros [= <-] (g & -> & _)%list_elem_of_fmap. simpl. auto 10.
Qed.

(** X14. After a successful upload every order of the sheet, whether it
    was inserted or it replaced a stored one, belongs to the run: it
    carries the run's task id and user, the brand, channel and batch of
    the filename, the run's upload time, and an empty remark. *)
Theorem uploaded_rows_stamped r w fi mp df all_order_data od :
  accepted r fi mp df all_order_data →
  wf_db (committed w) →
  od ∈ all_order_data →
  ∃ o, o ∈ uploaded_orders (committed (process_upload_background r w).2)
       ∧ OrderNumber o = od_OrderNumber od
       ∧ TaskId o = run_task_id r ∧ PIC o = run_user r
       ∧ Brand o = fi_brand fi ∧ Marketplace o = fi_sales_channel fi ∧ Batch o = fi_batch fi
       ∧ UploadDate o = current_time (run_clock r)
       ∧ Remarks o = "".
Proof.
  intros Hacc Hwf Hod.
  destruct (normalize_stamped _ _ _ _ _ _ _ _ _ _ _ (acc_normalize _ _ _ _ _ Hacc) Hod)
    as (Hm & Hb & Hbt & Hp & Ht & Hu).
  destruct (process_success_row_cases _ _ _ _ _ _ _ Hacc Hwf Hod)
    as (o & Ho & [(o0 & _ & Hnum & ->) | (_ & id & ->)]);
    eexists; (split; [exact Ho|]); simpl; rewrite ?assign_data; auto 10.
Qed.

Lemma uploaded_rows_stamped_witness :
  ∃ o, o ∈ uploaded_orders
             (committed (process_upload_background (example_run "t1" (Ok example_df))
                           example_world).2)
       ∧ OrderNumber o = "S-101" ∧ TaskId o = "t1" ∧ PIC o = "ana".
Proof.
  destruct (uploaded_rows_stamped (example_run "t1" (Ok example_df)) example_world c10_info
              shopee_mapping example_df [order_S100; order_S101] order_S101
              example_accepted example_world_wf)
    as (o & Ho & Hnum & Ht & Hp & _).
  - apply list_elem_of_further, list_elem_of_here.
  - exists o. auto.
Defined.

(** ** Successful runs *)

Lemma bind_Ok_inv {A B} (m : M A) (k : A → M B) fr b fr' :
  (m ≫= k) fr = (Ok b, fr') → ∃ a fr1, m fr = (Ok a, fr1) ∧ k a fr1 = (Ok b, fr').
Proof. unfold mbind, M_bind. destruct (m fr) as [[a|e] fr1]; [eauto|discriminate]. Qed.

Lemma inject_Ok_inv r st fr u fr' :
  inject r st fr = (Ok u, fr') → run_fault r st = None.
Proof. unfold inject. destruct (run_fault r st); [discriminate|reflexivity]. Qed.

Lemma lift_Ok_inv {A} (x : Result A) fr a fr' : lift x fr = (Ok a, fr') → x = Ok a.
Proof. unfold lift. by intros [= ->]. Qed.

Lemma read_file_Ok_inv r fr df fr' :
  read_file r fr = (Ok df, fr') → read_file r = lift (Ok df).
Proof.
  unfold read_file. destruct (Py.endswith _ ".xlsx").
  - by intros ->%lift_Ok_inv.
  - destruct (Py.endswith _ ".csv"); [by intros ->%lift_Ok_inv|discriminate].
Qed.

Ltac step_ok H Hm :=
  let a := fresh "a" in
  let fr1 := fresh "fr" in
  apply bind_Ok_inv in H as (a & fr1 & Hm & H); cbv beta in H.

Ltac step_val H v Hm :=
  let fr1 := fresh "fr" in
  apply bind_Ok_inv in H as (v & fr1 & Hm & H); cbv beta in H.

Lemma start_Ok_inv r fr task fr' :
  start r fr = (Ok task, fr') →
  run_fault r OpenSession = None ∧ run_fault r LoadTask = None.
Proof.
  unfold start. intros H.
  step_ok H H1. apply inject_Ok_inv in H1.
  step_ok H H2. step_ok H H3. apply inject_Ok_inv in H3. auto.
Qed.

Lemma ingest_Ok_inv r task fr fi mp df fr' :
  ingest r task fr = (Ok (fi, mp, df), fr') →
  parse_filename (run_filename r) = Ok (Some fi)
  ∧ read_file r = lift (Ok df)
  ∧ get_marketplace_mapping (fi_sales_channel fi) = Some mp
  ∧ missing_columns mp df = []
  ∧ non_empty_count (order_numbers df (m_order_number mp)) ≠ 0
  ∧ run_fault r ParseFilename = None ∧ run_fault r ReadFile = None
  ∧ run_fault r WriteHistory = None ∧ run_fault r CheckColumns = None
  ∧ run_fault r CheckOrderNumbers = None.
Proof.
  unfold ingest. intros H.
  step_ok H H1. apply inject_Ok_inv in H1.
  step_val H info H2. apply lift_Ok_inv in H2.
  destruct info as [fi0|]; [|discriminate].
  step_ok H H3. apply inject_Ok_inv in H3.
  step_val H df0 H4. apply read_file_Ok_inv in H4.
  destruct (get_marketplace_mapping (fi_sales_channel fi0)) as [mp0|] eqn:Hmp; [|discriminate].
  step_ok H H5. apply inject_Ok_inv in H5.
  step_ok H H6. step_ok H H7.
  step_ok H H8. apply inject_Ok_inv in H8.
  destruct (missing_columns mp0 df0) eqn:Hmiss.
  - step_ok H H9. apply inject_Ok_inv in H9.
    destruct (Nat.eqb _ 0) eqn:Hn in H.
    + step_ok H H10. discriminate.
    + injection H as <- <- <- _. apply Nat.eqb_neq in Hn. rewrite Hmiss. auto 12.
  - step_ok H H9. discriminate.
Qed.

Lemma persist_Ok_inv r task fi mp df fr res fr' :
  persist r task fi mp df fr = (Ok res, fr') →
  (∃ all_order_data,
      normalize (run_clock r) (fi_sales_channel fi) (fi_brand fi) (fi_batch fi) (run_user r)
        (run_task_id r) mp (fi_date fi) df = Ok all_order_data)
  ∧ run_fault r Normalize = None ∧ run_fault r Reconcile = None
  ∧ run_fault r QueryExisting = None ∧ run_fault r InsertNew = None
  ∧ run_fault r UpdateExisting = None ∧ run_fault r Finalize = None.
Proof.
  unfold persist. intros H.
  step_ok H H1. apply inject_Ok_inv in H1.
  step_val H all_order_data H2. apply lift_Ok_inv in H2.
  step_ok H H3. apply inject_Ok_inv in H3.
  step_ok H H4.
  step_ok H H5. apply inject_Ok_inv in H5.
  step_ok H H6.
  step_ok H H7. apply inject_Ok_inv in H7.
  step_ok H H8.
  step_ok H H9. apply inject_Ok_inv in H9.
  step_ok H H10. step_ok H H11.
  step_ok H H12. apply inject_Ok_inv in H12.
  eauto 10.
Qed.

Lemma pipeline_Ok_accepted r fr res fr' :
  pipeline r fr = (Ok res, fr') →
  ∃ fi mp df all_order_data, accepted r fi mp df all_order_data.
Proof.
  unfold pipeline. intros H.
  step_ok H Hs. apply start_Ok_inv in Hs as [F1 F2].
  step_val H x Hi. destruct x as [[fi mp] df].
  apply ingest_Ok_inv in Hi as (Hp & Hr & Hm & Hc & Hn & F3 & F4 & F5 & F6 & F7).
  apply persist_Ok_inv in H as ((all_order_data & Hnorm) & F8 & F9 & F10 & F11 & F12 & F13).
  exists fi, mp, df, all_order_data. split; try assumption.
  intros []; assumption.
Qed.

(** X15. On a well-formed store a run succeeds exactly when nothing
    fails on the way: no operation of the environment raises, the
    filename parses, the file is read, its channel has a schema, no
    required column is missing, some order number is present, and the
    sheet normalizes. *)
Theorem success_iff_accepted r w :
  wf_db (committed w) →
  (∃ res, (process_upload_background r w).1 = Ok res)
  ↔ ∃ fi mp df all_order_data, accepted r fi mp df all_order_data.
Proof.
  intros Hwf. split.
  - intros [res H]. unfold process_upload_background in H.
    destruct (pipeline r _) as [[res'|e] fr'] eqn:Hp; simpl in H; [|discriminate].
    by apply pipeline_Ok_accepted in Hp.
  - intros (fi & mp & df & all_order_data & Hacc).
    rewrite (process_success _ _ _ _ _ _ Hacc Hwf). by eexists.
Qed.

Lemma success_iff_accepted_witness :
  ∃ res, (process_upload_background (example_run "t1" (Ok example_df)) example_world).1 = Ok res.
Proof.
  apply (success_iff_accepted (example_run "t1" (Ok example_df)) example_world example_world_wf).
  exists c10_info, shopee_mapping, example_df, [order_S100; order_S101].
  exact example_accepted.
Defined.

Lemma process_success_result r w fi mp df all_order_data :
  accepted r fi mp df all_order_data →
  wf_db (committed w) →
  (process_upload_background r w).1
  = Ok (result_of (run_task_id r) all_order_data (ingested r fi w)
          (upserted (reconcile (run_external r) all_order_data) all_order_data (ingested r fi w))).
Proof. intros Hacc Hwf. by rewrite (process_success _ _ _ _ _ _ Hacc Hwf). Qed.

Lemma uploaded_by_after r w fi mp df all_order_data :
  accepted r fi mp df all_order_data →
  wf_db (committed w) →
  uploaded_by (run_task_id r)
    (upserted (reconcile (run_external r) all_order_data) all_order_data (ingested r fi w))
  = List.filter (λ o, String.eqb (TaskId o) (run_task_id r))
      (uploaded_orders (committed (process_upload_background r w).2)).
Proof.
  intros Hacc Hwf. rewrite (process_success_orders _ _ _ _ _ _ Hacc Hwf).
  unfold uploaded_by, upserted. cbn [uploaded_orders].
  by rewrite uploaded_orders_ingested, next_order_id_ingested.
Qed.

Lemma process_success_row_owner r w fi mp df all_order_data od :
  accepted r fi mp df all_order_data →
  wf_db (committed w) →
  od ∈ all_order_data →
  ∃ o, o ∈ uploaded_orders (committed (process_upload_background r w).2)
       ∧ OrderNumber o = od_OrderNumber od ∧ TaskId o = run_task_id r.
Proof.
  intros Hacc Hwf Hod.
  destruct (normalize_stamped _ _ _ _ _ _ _ _ _ _ _ (acc_normalize _ _ _ _ _ Hacc) Hod)
    as (_ & _ & _ & _ & Ht & _).
  destruct (process_success_row_cases _ _ _ _ _ _ _ Hacc Hwf Hod)
    as (o & Ho & [(o0 & _ & Hnum & ->) | (_ & id & ->)]);
    eexists; (split; [exact Ho|]); simpl; rewrite ?assign_data; auto.
Qed.

(** A row owned by the run after it succeeded carries a number of the
    sheet, unless it was owned by the same task id before. *)
Lemma owned_row_in_sheet r w fi mp df all_order_data o :
  accepted r fi mp df all_order_data →
  wf_db (committed w) →
  (∀ o0, o0 ∈ uploaded_orders (committed w) → TaskId o0 ≠ run_task_id r) →
  o ∈ uploaded_orders (committed (process_upload_background r w).2) →
  TaskId o = run_task_id r →
  OrderNumber o ∈ map od_OrderNumber all_order_data.
Proof.
  intros Hacc Hwf Hfresh Ho Ht.
  rewrite (process_success_orders _ _ _ _ _ _ Hacc Hwf) in Ho. unfold upsert_rows in Ho.
  apply elem_of_app in Ho as [Ho | Ho].
  - apply list_elem_of_fmap in Ho as (o0 & -> & Ho0).
    destruct (find_upload all_order_data (OrderNumber o0)) as [od|] eqn:Hf.
    + apply find_upload_in in Hf as [Hod Hnum]. simpl. rewrite <- Hnum.
      apply list_elem_of_fmap. by exists od.
    + exfalso. by apply (Hfresh _ Ho0).
  - apply elem_of_lookup_imap in Ho as (i & od & -> & Hi). simpl. rewrite assign_data.
    apply list_elem_of_lookup_2 in Hi. unfold fresh_orders in Hi.
    apply list_elem_of_In, filter_In in Hi as [Hi _].
    apply list_elem_of_fmap. exists od. split; [reflexivity|by apply list_elem_of_In].
Qed.

(** X16. The counts of a successful run add up: new plus replaced
    orders is the number of canonical records of the sheet, the order
    table grows by the new orders, interfaced plus not-interfaced is the
    reported total, and the total is at least the number of canonical
    records and exactly that number when the task id owned no order
    before. *)
Theorem success_accounting r w fi mp df all_order_data :
  accepted r fi mp df all_order_data →
  wf_db (committed w) →
  session w = None →
  ∃ res, (process_upload_background r w).1 = Ok res
    ∧ new_orders res + replaced_orders res = length all_order_data
    ∧ length (uploaded_orders (committed (process_upload_background r w).2))
      = length (uploaded_orders (committed w)) + new_orders res
    ∧ interface_count res + not_interface_count res = res_total_orders res
    ∧ (length all_order_data ≤ res_total_orders res)%nat
    ∧ ((∀ o, o ∈ uploaded_orders (committed w) → TaskId o ≠ run_task_id r) →
       res_total_orders res = length all_order_data).
Proof.
  intros Hacc Hwf Hs. eexists. split; [exact (process_success_result _ _ _ _ _ _ Hacc Hwf)|].
  pose proof (normalize_NoDup _ _ _ _ _ _ _ _ _ _ (acc_normalize _ _ _ _ _ Hacc)) as Hnd.
  destruct (result_counts (run_task_id r) all_order_data (ingested r fi w)
              (upserted (reconcile (run_external r) all_order_data) all_order_data
                 (ingested r fi w))) as [Hnew Hrep].
  assert (Hle : (length all_order_data
                 ≤ length (List.filter (λ o, String.eqb (TaskId o) (run_task_id r))
                             (uploaded_orders (committed (process_upload_background r w).2))))%nat).
  { rewrite <- (length_fmap od_OrderNumber all_order_data).
    rewrite <- (length_fmap OrderNumber (List.filter _ _)).
    apply NoDup_incl_length; [by apply NoDup_ListNoDup|].
    intros k Hk. apply list_elem_of_In, list_elem_of_fmap in Hk as (od & -> & Hod).
    destruct (process_success_row_owner _ _ _ _ _ _ _ Hacc Hwf Hod) as (o & Ho & Hnum & Ht).
    apply list_elem_of_In, list_elem_of_fmap. exists o. split; [done|].
    apply list_elem_of_In, filter_In. split; [by apply list_elem_of_In|].
    rewrite Ht. apply String.eqb_refl. }
  split; [rewrite Hnew; lia|]. split.
  { rewrite (process_success_orders _ _ _ _ _ _ Hacc Hwf). unfold upsert_rows.
    rewrite length_app, length_fmap, length_imap, Hnew.
    by rewrite uploaded_orders_ingested. }
  split.
  { unfold result_of. cbn [interface_count not_interface_count res_total_orders].
    pose proof (filter_split_length
                  (λ o, String.eqb (InterfaceStatus o) "Interface")
                  (uploaded_by (run_task_id r)
                     (upserted (reconcile (run_external r) all_order_data) all_order_data
                        (ingested r fi w)))) as Hsplit.
    rewrite Nat.add_comm. apply Nat.sub_add. rewrite <- Hsplit. apply Nat.le_add_r. }
  unfold result_of. cbn [res_total_orders].
  rewrite (uploaded_by_after _ _ _ _ _ _ Hacc Hwf).
  split; [exact Hle|]. intros Hfresh. apply Nat.le_antisymm; [|exact Hle].
  rewrite <- (length_fmap od_OrderNumber all_order_data).
  rewrite <- (length_fmap OrderNumber (List.filter _ _)).
  apply NoDup_incl_length.
  - apply NoDup_ListNoDup, filter_map_NoDup.
    pose proof (inv_process _ r w (store_inv_init w Hwf Hs)) as [[[Hn _] _] _]. exact Hn.
  - intros k Hk. apply list_elem_of_In, list_elem_of_fmap in Hk as (o & -> & Ho).
    apply list_elem_of_In, filter_In in Ho as [Ho Ht]. apply String.eqb_eq in Ht.
    apply list_elem_of_In.
    by apply (owned_row_in_sheet _ _ _ _ _ _ _ Hacc Hwf Hfresh (proj2 (list_elem_of_In _ _) Ho)).
Qed.

Lemma success_accounting_witness :
  ∃ res, (process_upload_background (example_run "t1" (Ok example_df)) example_world).1 = Ok res
         ∧ new_orders res + replaced_orders res = 2.
Proof.
  destruct (success_accounting (example_run "t1" (Ok example_df)) example_world c10_info
              shopee_mapping example_df [order_S100; order_S101]
              example_accepted example_world_wf eq_refl) as (res & Hres & Hc & _).
  exists res. split; [exact Hres|exact Hc].
Defined.

(** X17. A successful run leaves its task row completed, with the total
    and the processed count both set to the total it reports, and the
    error message untouched. *)
Theorem success_completes_task r w res t :
  wf_db (committed w) →
  (process_upload_background r w).1 = Ok res →
  find_task (run_task_id r) (committed w) = Some t →
  ∃ t', find_task (run_task_id r) (committed (process_upload_background r w).2) = Some t'
        ∧ status t' = "completed"
        ∧ total_orders t' = res_total_orders res
        ∧ processed_orders t' = res_total_orders res
        ∧ error_message t' = error_message t.
Proof.
  intros Hwf Hres Ht.
  assert (∃ fi mp df all_order_data, accepted r fi mp df all_order_data)
    as (fi & mp & df & all_order_data & Hacc).
  { unfold process_upload_background in Hres.
    destruct (pipeline r _) as [[res'|e] fr'] eqn:Hp; simpl in Hres; [|discriminate].
    by apply pipeline_Ok_accepted in Hp. }
  rewrite (process_success_result _ _ _ _ _ _ Hacc Hwf) in Hres. injection Hres as <-.
  rewrite (process_success r w fi mp df all_order_data Hacc Hwf). simpl.
  rewrite Ht. simpl. rewrite (find_task_id _ _ _ Ht). unfold completed.
  rewrite find_task_set_task by done. rewrite find_task_upserted.
  rewrite (find_task_ingested r fi w t Ht). simpl. eexists. repeat split.
Qed.

Lemma success_completes_task_witness :
  ∃ t', find_task "t1"
          (committed (process_upload_background (example_run "t1" (Ok example_df))
                        example_world).2) = Some t'
        ∧ status t' = "completed" ∧ total_orders t' = 2.
Proof.
  destruct (success_completes_task (example_run "t1" (Ok example_df)) example_world
              {| interface_count := 1; not_interface_count := 1; res_total_orders := 2;
                 new_orders := 2; replaced_orders := 0 |} (example_task "t1")
              example_world_wf) as (t' & Hf & Hs & Ht & _).
  - by vm_compute.
  - reflexivity.
  - exists t'. auto.
Defined.

(** ** Orderlist files *)

Lemma copy2_other fs src dst p : p ≠ dst → copy2 fs src dst !! p = fs !! p.
Proof. intros Hp. unfold copy2. destruct (fs !! src); [by rewrite lookup_insert_ne|done]. Qed.

Lemma chmod_other fs q ro p : p ≠ q → chmod fs q ro !! p = fs !! p.
Proof. intros Hp. unfold chmod. destruct (fs !! q); [by rewrite lookup_insert_ne|done]. Qed.

Lemma path_exists_true fs b :
  path_exists fs (Some b) = Ok true → is_Some (fs !! b).
Proof.
  unfold path_exists. intros [= H]. by apply bool_decide_eq_true in H.
Qed.

(** X18. The verification touches no file but the orderlist itself and
    nothing at all without a backup; when it answers true the orderlist
    exists, and if the orderlist existed beforehand it then holds exactly
    the expected number of non-blank lines. *)
Theorem verify_and_restore_orderlist_sound fs orderlist_path backup_path expected_count :
  (∀ p, p ≠ orderlist_path →
        (verify_and_restore_orderlist fs orderlist_path backup_path expected_count).2 !! p
        = fs !! p)
  ∧ (backup_path = None →
     (verify_and_restore_orderlist fs orderlist_path backup_path expected_count).2 = fs)
  ∧ ((verify_and_restore_orderlist fs orderlist_path backup_path expected_count).1 = true →
     is_Some ((verify_and_restore_orderlist fs orderlist_path backup_path expected_count).2
                !! orderlist_path)
     ∧ (is_Some (fs !! orderlist_path) →
        ∃ f, (verify_and_restore_orderlist fs orderlist_path backup_path expected_count).2
               !! orderlist_path = Some f
             ∧ count_lines (content f) = expected_count)).
Proof.
  unfold verify_and_restore_orderlist.
  destruct (fs !! orderlist_path) as [f|] eqn:Hf.
  - destruct (Nat.eqb (count_lines (content f)) expected_count) eqn:Hn; simpl.
    + apply Nat.eqb_eq in Hn. repeat split; eauto.
    + destruct backup_path as [b|]; [|simpl; repeat split; eauto; discriminate].
      destruct (path_exists fs (Some b)) as [[|]|] eqn:Hb; simpl;
        try (repeat split; eauto; discriminate).
      split; [|split; [discriminate|]].
      * intros p Hp. by rewrite copy2_other, chmod_other.
      * intros Hok. apply Nat.eqb_eq in Hok.
        destruct (copy2 (chmod fs orderlist_path false) b orderlist_path !! orderlist_path)
          as [g|] eqn:Hg.
        -- split; [by eexists|]. intros _. by exists g.
        -- exfalso. unfold copy2, chmod in Hg. rewrite Hf in Hg.
           destruct (<[orderlist_path:=_]> fs !! b);
             rewrite lookup_insert_eq in Hg; discriminate.
  - destruct backup_path as [b|]; [|simpl; repeat split; eauto; try discriminate;
                                     intros [? ?]; discriminate].
    destruct (path_exists fs (Some b)) as [[|]|] eqn:Hb; simpl;
      try (repeat split; eauto; try discriminate; intros [? ?]; discriminate).
    split; [|split; [discriminate|]].
    + intros p Hp. by rewrite copy2_other.
    + intros _. apply path_exists_true in Hb as [g Hg].
      unfold copy2. rewrite Hg, lookup_insert_eq. split; [by eexists|].
      intros [? ?]. discriminate.
Qed.

Lemma verify_and_restore_orderlist_sound_witness :
  (verify_and_restore_orderlist
     {[ "Orderlist.txt" := {| content := "S-1" +:+ lf; read_only := false |};
        "Orderlist.bak" := {| content := "S-1" +:+ lf +:+ "S-2" +:+ lf; read_only := false |} ]}
     "Orderlist.txt" (Some "Orderlist.bak") 2).2 !! "Orderlist.bak"
  = Some {| content := "S-1" +:+ lf +:+ "S-2" +:+ lf; read_only := false |}.
Proof.
  rewrite (proj1 (verify_and_restore_orderlist_sound _ "Orderlist.txt" (Some "Orderlist.bak") 2)
             "Orderlist.bak"); [|discriminate].
  by vm_compute.
Defined.


(** ** Shop keys *)

(** X20. A shop key that is found is never empty and is the key of a
    [brand_shops] row of that marketplace whose brand matches up to
    letter case. *)
Theorem shop_id_sound brand_name marketplace_name d k :
  get_shop_id_from_brand_shops brand_name marketplace_name d = Some k →
  k ≠ ""
  ∧ ∃ brand_shop marketplace_id,
      brand_shop ∈ brand_shops d
      ∧ assoc_get (Py.lower marketplace_name) marketplace_id_mapping = Some marketplace_id
      ∧ bs_marketplace_id brand_shop = marketplace_id
      ∧ Py.lower (bs_brand brand_shop) = Py.lower brand_name
      ∧ bs_shop_key_1 brand_shop = Some k.
Proof.
  unfold get_shop_id_from_brand_shops.
  destruct (assoc_get _ marketplace_id_mapping) as [id|]; [|discriminate].
  destruct (Nat.eqb id 0); [discriminate|].
  destruct (List.find _ (brand_shops d)) as [bs|] eqn:Hfind; [|discriminate].
  destruct (bs_shop_key_1 bs) as [k'|] eqn:Hk; [|discriminate].
  destruct (Py.truthy k') eqn:Ht; [|discriminate]. intros [= ->].
  apply find_some in Hfind as [Hin [Hb Hm]%andb_true_iff].
  apply String.eqb_eq in Hb. apply Nat.eqb_eq in Hm.
  split; [by apply truthy_spec|].
  exists bs, id. split; [by apply list_elem_of_In|auto].
Qed.

Lemma shop_id_sound_witness :
  ∃ brand_shop marketplace_id,
    brand_shop ∈ brand_shops c10_db
    ∧ assoc_get (Py.lower "Lazada") marketplace_id_mapping = Some marketplace_id
    ∧ bs_marketplace_id brand_shop = marketplace_id
    ∧ Py.lower (bs_brand brand_shop) = Py.lower "aura"
    ∧ bs_shop_key_1 brand_shop = Some "LZ-1".
Proof. exact (proj2 (shop_id_sound "aura" "Lazada" c10_db "LZ-1" eq_refl)). Defined.


(** ** The upload endpoint and the pipeline it starts *)

(** X22. The request validator refines the legacy file validator: what
    it accepts the legacy validator accepts, and a file rejected by the
    legacy validator is rejected by it with the same error (when the file
    size is known; without a size the two differ in the text of their
    400). *)
Theorem validate_upload_request_refines_legacy file d :
  (∀ v, validate_upload_request file d = Ok v → validate_file_upload file = Ok true)
  ∧ (∀ e, validate_file_upload file = Raise e → uf_size file ≠ None →
          validate_upload_request file d = Raise e).
Proof.
  unfold validate_upload_request, validate_file_upload.
  destruct (uf_size file) as [size|]; [|split; [discriminate|congruence]].
  destruct (MAX_FILE_SIZE <? size)%nat; [split; [discriminate|by intros e [= <-] _]|].
  destruct (negb (Py.truthy (uf_filename file))); [split; [discriminate|by intros e [= <-] _]|].
  destruct (negb (Py.mem _ ALLOWED_EXTENSIONS)); [split; [discriminate|by intros e [= <-] _]|].
  destruct (negb _); [split; [discriminate|by intros e [= <-] _]|].
  destruct (existsb _ forbidden_fragments); [split; [discriminate|by intros e [= <-] _]|].
  split; [reflexivity|discriminate].
Qed.

Lemma validate_upload_request_refines_legacy_witness :
  validate_file_upload c10_file = Ok true.
Proof.
  apply (proj1 (validate_upload_request_refines_legacy c10_file
                  {| upload_tasks := []; upload_history := []; uploaded_orders := [];
                     brand_shops := [ {| bs_brand := "AURA"; bs_marketplace_id := 2;
                                         bs_shop_key_1 := Some "SP-1" |} ];
                     next_order_id := 1 |})
               {| v_filename_info := c10_info; v_shop_id := "SP-1"; v_sales_channel := "SHOPEE";
                  v_brand_name := "AURA" |}).
  reflexivity.
Defined.








(** ** The extension test of the endpoint and of the pipeline *)

Lemma endswith_app pre s : Py.endswith (pre +:+ s) s = true.
Proof.
  induction pre as [|c pre IH].
  - change ("" +:+ s) with s. destruct s; unfold Py.endswith; fold Py.endswith;
      by rewrite String.eqb_refl.
  - change (String c pre +:+ s) with (String c (pre +:+ s)).
    unfold Py.endswith; fold Py.endswith. rewrite IH. apply orb_true_r.
Qed.

Lemma endswith_inv s suffix : Py.endswith s suffix = true → ∃ pre, s = pre +:+ suffix.
Proof.
  induction s as [|c s IH]; unfold Py.endswith; fold Py.endswith.
  - rewrite orb_false_r. intros ->%String.eqb_eq. by exists "".
  - intros [->%String.eqb_eq | H]%orb_true_iff; [by exists ""|].
    destruct (IH H) as [pre ->]. by exists (String c pre).
Qed.

Lemma last_dot_suffix_app pre s e :
  last_dot_suffix s = Some e → last_dot_suffix (pre +:+ s) = Some e.
Proof.
  intros H. induction pre as [|c pre IH]; [exact H|].
  change (String c pre +:+ s) with (String c (pre +:+ s)). simpl. by rewrite IH.
Qed.

Lemma last_dot_suffix_inv s : ∀ e, last_dot_suffix s = Some e → ∃ pre, s = pre +:+ e.
Proof.
  induction s as [|c s IH]; intros e; simpl; [discriminate|].
  destruct (last_dot_suffix s) as [e'|].
  - intros [= <-]. destruct (IH e' eq_refl) as [pre ->]. by exists (String c pre).
  - destruct (Ascii.eqb c "."); [|discriminate]. intros [= <-]. by exists "".
Qed.

Lemma contains_slash_basename s : ∀ cur,
  contains s "/" = false → Py.basename_aux cur s = cur.
Proof.
  induction s as [|c s IH]; intros cur; [reflexivity|].
  unfold contains; fold contains. intros [Hp Hc]%orb_false_iff.
  simpl in Hp. simpl. destruct (Ascii.eqb_spec c "/") as [->|_].
  - simpl in Hp. destruct s; discriminate.
  - by apply IH.
Qed.

Lemma forbidden_slash name :
  existsb (contains name) forbidden_fragments = false → contains name "/" = false.
Proof.
  intros H. destruct (contains name "/") eqn:E; [|reflexivity].
  rewrite <- H. symmetry. apply existsb_exists. exists "/". split; [|exact E].
  right. left. reflexivity.
Qed.

(** A name that starts with a dot does not parse. *)
Lemma parse_filename_dot rest :
  contains (String "." rest) "/" = false → parse_filename (String "." rest) = Ok None.
Proof.
  intros H. unfold parse_filename, Py.basename.
  rewrite (contains_slash_basename _ _ H). reflexivity.
Qed.

Lemma splitext_ext_plain name fi :
  contains name "/" = false →
  parse_filename name = Ok (Some fi) →
  splitext_ext name = default "" (last_dot_suffix name).
Proof.
  intros Hs Hp. unfold splitext_ext, Py.basename. rewrite (contains_slash_basename _ _ Hs).
  destruct name as [|c name]; [reflexivity|].
  change (Py.span (Ascii.eqb ".") (String c name))
    with (if Ascii.eqb "." c
          then let '(a, b) := Py.span (Ascii.eqb ".") name in (String c a, b)
          else ("", String c name)).
  destruct (Ascii.eqb_spec "." c) as [<-|_]; [|reflexivity].
  rewrite (parse_filename_dot _ Hs) in Hp. discriminate.
Qed.

Lemma validate_upload_request_Ok_inv file d v :
  validate_upload_request file d = Ok v →
  Py.mem (Py.lower (splitext_ext (uf_filename file))) ALLOWED_EXTENSIONS = true
  ∧ existsb (contains (uf_filename file)) forbidden_fragments = false
  ∧ parse_filename (uf_filename file) = Ok (Some (v_filename_info v))
  ∧ get_shop_id_from_brand_shops (fi_brand (v_filename_info v))
      (fi_sales_channel (v_filename_info v)) d = Some (v_shop_id v).
Proof.
  unfold validate_upload_request.
  destruct (uf_size file); [|discriminate].
  destruct (_ <? _)%nat; [discriminate|].
  destruct (negb (Py.truthy _)); [discriminate|].
  destruct (Py.mem _ ALLOWED_EXTENSIONS); [|discriminate]. cbn [negb].
  destruct (negb _); [discriminate|].
  destruct (existsb (contains (uf_filename file)) forbidden_fragments); [discriminate|].
  destruct (parse_filename _) as [[fi|]|]; try discriminate.
  destruct (get_shop_id_from_brand_shops _ _ _) eqn:Hshop; [|discriminate].
  intros [= <-]. auto.
Qed.

(** X24. For an upload the endpoint accepted, the extension of the name
    is xlsx or csv up to letter case, and the pipeline's own format test,
    which is case sensitive, agrees with it exactly when the extension is
    written in lower case: then the file is read, otherwise the run is
    rejected as an unsupported file format. *)
Theorem accepted_file_format_check file d v r :
  validate_upload_request file d = Ok v →
  run_filename r = uf_filename file →
  (Py.lower (splitext_ext (uf_filename file)) = ".xlsx"
   ∨ Py.lower (splitext_ext (uf_filename file)) = ".csv")
  ∧ (splitext_ext (uf_filename file) = ".xlsx" ∨ splitext_ext (uf_filename file) = ".csv" →
     read_file r = lift (run_file r))
  ∧ (splitext_ext (uf_filename file) ≠ ".xlsx" → splitext_ext (uf_filename file) ≠ ".csv" →
     read_file r = raise (Exception "Unsupported file format")).
Proof.
  intros (Hext & Hforb & Hparse & _)%validate_upload_request_Ok_inv Hname.
  apply forbidden_slash in Hforb.
  pose proof (splitext_ext_plain _ _ Hforb Hparse) as Hsplit.
  unfold read_file. rewrite Hname. split; [|split].
  - unfold Py.mem, ALLOWED_EXTENSIONS in Hext. simpl in Hext.
    apply orb_true_iff in Hext as [H | H]; [left; by apply String.eqb_eq|].
    apply orb_true_iff in H as [H | H]; [right; by apply String.eqb_eq|discriminate].
  - intros He.
    assert (∃ e, (e = ".xlsx" ∨ e = ".csv") ∧ Py.endswith (uf_filename file) e = true)
      as (e & [-> | ->] & Hend).
    { exists (splitext_ext (uf_filename file)). split; [exact He|].
      rewrite Hsplit in *. destruct (last_dot_suffix (uf_filename file)) as [e|] eqn:Hl.
      - destruct (last_dot_suffix_inv _ _ Hl) as [pre Hpre]. simpl.
        rewrite Hpre at 1. apply endswith_app.
      - simpl in He. destruct He; discriminate. }
    + by rewrite Hend.
    + rewrite Hend. by destruct (Py.endswith _ ".xlsx").
  - intros Hx Hc.
    assert (∀ e, last_dot_suffix e = Some e → splitext_ext (uf_filename file) ≠ e →
                 Py.endswith (uf_filename file) e = false) as Hno.
    { intros e He Hne. destruct (Py.endswith (uf_filename file) e) eqn:Hend; [|reflexivity].
      exfalso. apply Hne. apply endswith_inv in Hend as [pre Hpre].
      rewrite Hsplit, Hpre, (last_dot_suffix_app _ _ _ He). reflexivity. }
    by rewrite (Hno ".xlsx" eq_refl Hx), (Hno ".csv" eq_refl Hc).
Qed.

Lemma accepted_file_format_check_witness :
  read_file {| run_task_id := "t1"; run_filename := "AURA-SHOPEE-5-1.xlsx.CSV";
               run_file := Ok example_df; run_user := "ana"; run_clock := example_clock;
               run_external := example_external; run_fault := λ _, None |}
  = raise (Exception "Unsupported file format").
Proof.
  apply (proj2 (proj2 (accepted_file_format_check odd_extension_file shopee_shop_db
                         {| v_filename_info := c10_info; v_shop_id := "SP-1";
                            v_sales_channel := "SHOPEE"; v_brand_name := "AURA" |}
                         {| run_task_id := "t1"; run_filename := "AURA-SHOPEE-5-1.xlsx.CSV";
                            run_file := Ok example_df; run_user := "ana";
                            run_clock := example_clock; run_external := example_external;
                            run_fault := λ _, None |} eq_refl eq_refl)));
    vm_compute; discriminate.
Defined.

(** ** The watchdog loop under every schedule *)

Lemma from_results_empty results : from_results results ∅.
Proof. intros k e H. by rewrite lookup_empty in H. Qed.

Lemma from_results_union results m1 m2 :
  from_results results m1 → from_results results m2 → from_results results (m1 ∪ m2).
Proof.
  intros H1 H2 k e H. apply lookup_union_Some_raw in H as [H | [_ H]]; eauto.
Qed.

Lemma from_results_elem results res : res ∈ results → from_results results res.
Proof. intros H k e Hk. eauto. Qed.

Lemma wd_inv_initial results : wd_inv results (Watchdog.initial results).
Proof.
  repeat split; simpl; auto using from_results_empty.
  intros w Hw. by apply elem_of_nil in Hw.
Qed.

Lemma wd_inv_step results ev st st' :
  wd_inv results st → Watchdog.step ev st = Some st' → wd_inv results st'.
Proof.
  intros (Hp & Hr & Hc & Hi) Hstep. destruct ev; simpl in Hstep.
  - unfold Watchdog.main_step in Hstep. destruct (Watchdog.pc st).
    + destruct (Watchdog.pending st) eqn:E; injection Hstep as <-;
        repeat split; simpl; auto using from_results_empty.
      rewrite E. exact Hp.
    + destruct (Watchdog.pending st) as [|res rest] eqn:E; [discriminate|].
      injection Hstep as <-. repeat split; simpl; auto.
      * intros res' Hres'. apply Hp. by apply list_elem_of_further.
      * intros w [Hw | ->%list_elem_of_singleton]%elem_of_app; [by apply Hr|].
        simpl. apply Hp, list_elem_of_here.
    + destruct (Watchdog.is_running _ st); [discriminate|].
      injection Hstep as <-. repeat split; simpl; auto.
    + injection Hstep as <-. repeat split; simpl; auto.
    + injection Hstep as <-. repeat split; simpl; auto.
      destruct (Watchdog.timeout_occurred st); auto using from_results_empty.
    + injection Hstep as <-. repeat split; simpl; auto using from_results_union.
    + discriminate.
  - destruct (Watchdog.pc st); try discriminate.
    destruct (Watchdog.is_running _ st); [|discriminate].
    injection Hstep as <-. repeat split; simpl; auto.
  - destruct (Watchdog.timer st); try discriminate.
    injection Hstep as <-. repeat split; simpl; auto.
  - destruct (List.find _ (Watchdog.running st)) as [[c res]|] eqn:Hf; [|discriminate].
    injection Hstep as <-. apply find_some in Hf as [Hin _].
    apply list_elem_of_In in Hin. repeat split; simpl; auto.
    + intros w Hw. apply Hr. apply list_elem_of_In in Hw. apply filter_In in Hw as [Hw _].
      by apply list_elem_of_In.
    + apply from_results_elem. apply (Hr _ Hin).
Qed.

Lemma wd_inv_run results schedule : ∀ st st',
  wd_inv results st → Watchdog.run schedule st = Some st' → wd_inv results st'.
Proof.
  induction schedule as [|ev schedule IH]; intros st st' Hinv Hrun; simpl in Hrun.
  - by injection Hrun as <-.
  - destruct (Watchdog.step ev st) as [st1|] eqn:Hstep; [|discriminate].
    eapply IH; [|exact Hrun]. by eapply wd_inv_step.
Qed.

(** X25. Whatever the interleaving of the main thread, the timers and
    the check threads, every entry the loop has merged into the interface
    results is an entry some check returned: the race can keep a result
    that should have been dropped, it cannot invent one. *)
Theorem watchdog_merges_only_check_results results schedule st :
  Watchdog.run schedule (Watchdog.initial results) = Some st →
  from_results results (Watchdog.interface_results st).
Proof.
  intros Hrun.
  by destruct (wd_inv_run results schedule _ _ (wd_inv_initial results) Hrun) as (_ & _ & _ & H).
Qed.

Lemma watchdog_merges_only_check_results_witness :
  ∃ st, Watchdog.run late_schedule (Watchdog.initial [late_result]) = Some st
        ∧ from_results [late_result] (Watchdog.interface_results st).
Proof.
  eexists. split; [by vm_compute|].
  apply (watchdog_merges_only_check_results [late_result] late_schedule). by vm_compute.
Defined.

(** ** The watchdog loop without timeouts *)

Lemma merge_all_snoc done cur : merge_all (done ++ [cur]) = cur ∪ merge_all done.
Proof. unfold merge_all. by rewrite fold_left_app. Qed.

Lemma timely_inv_initial results : timely_inv results (Watchdog.initial results).
Proof. split; [reflexivity|]. exists []. simpl. auto. Qed.

Lemma timely_inv_step results ev st st' :
  timely ev = true →
  timely_inv results st → Watchdog.step ev st = Some st' → timely_inv results st'.
Proof.
  intros Hev (Hto & done & Hi & Hpc) Hstep. destruct ev; try discriminate; simpl in Hstep.
  - unfold Watchdog.main_step in Hstep. destruct (Watchdog.pc st) eqn:Epc.
    + destruct Hpc as [Hres Hrun].
      destruct (Watchdog.pending st) eqn:E; injection Hstep as <-.
      * split; [exact Hto|]. exists done. simpl.
        split; [exact Hi|]. by rewrite Hres, app_nil_r.
      * split; [reflexivity|]. exists done. simpl. auto.
    + destruct Hpc as [Hres Hrun].
      destruct (Watchdog.pending st) as [|res rest] eqn:E; [discriminate|].
      injection Hstep as <-. split; [exact Hto|]. exists done. simpl.
      split; [exact Hi|]. exists res. split; [exact Hres|]. left. by rewrite Hrun.
    + destruct Hpc as (cur & Hres & [Hrun | [Hrun Hcur]]).
      * unfold Watchdog.is_running in Hstep. rewrite Hrun in Hstep. simpl in Hstep.
        rewrite Nat.eqb_refl in Hstep. discriminate.
      * unfold Watchdog.is_running in Hstep. rewrite Hrun in Hstep. simpl in Hstep.
        injection Hstep as <-. split; [exact Hto|]. exists done. simpl.
        split; [exact Hi|]. exists cur. auto.
    + destruct Hpc as (cur & Hres & Hrun & Hcur).
      injection Hstep as <-. split; [exact Hto|]. exists done. simpl.
      split; [exact Hi|]. exists cur. auto.
    + destruct Hpc as (cur & Hres & Hrun & Hcur).
      injection Hstep as <-. split; [exact Hto|]. exists done. simpl.
      split; [exact Hi|]. exists cur. rewrite Hto. auto.
    + destruct Hpc as (cur & Hres & Hrun & Hcur).
      injection Hstep as <-. split; [exact Hto|]. exists (done ++ [cur]). simpl.
      split; [by rewrite merge_all_snoc, Hcur, Hi|].
      split; [by rewrite <- app_assoc|exact Hrun].
    + discriminate.
  - destruct (List.find _ (Watchdog.running st)) as [[c res]|] eqn:Hf; [|discriminate].
    injection Hstep as <-. split; [exact Hto|]. exists done. simpl.
    split; [exact Hi|].
    destruct (Watchdog.pc st) eqn:Epc.
    + destruct Hpc as [? Hrun]. rewrite Hrun in Hf. discriminate.
    + destruct Hpc as [? Hrun]. rewrite Hrun in Hf. discriminate.
    + destruct Hpc as (cur & Hres & [Hrun | [Hrun Hcur]]);
        rewrite Hrun in Hf; simpl in Hf; [|discriminate].
      destruct (Nat.eqb (Watchdog.chunk_no st) chunk) eqn:En; [|discriminate].
      injection Hf as _ <-. exists cur. split; [exact Hres|]. right.
      rewrite Hrun. simpl. rewrite En. auto.
    + destruct Hpc as (cur & ? & Hrun & ?). rewrite Hrun in Hf. discriminate.
    + destruct Hpc as (cur & ? & Hrun & ?). rewrite Hrun in Hf. discriminate.
    + destruct Hpc as (cur & ? & Hrun & ?). rewrite Hrun in Hf. discriminate.
    + exact Hpc.
Qed.

Lemma timely_inv_run results schedule : ∀ st st',
  forallb timely schedule = true →
  timely_inv results st → Watchdog.run schedule st = Some st' → timely_inv results st'.
Proof.
  induction schedule as [|ev schedule IH]; intros st st' Hall Hinv Hrun; simpl in Hrun.
  - by injection Hrun as <-.
  - simpl in Hall. apply andb_true_iff in Hall as [Hev Hall].
    destruct (Watchdog.step ev st) as [st1|] eqn:Hstep; [|discriminate].
    eapply IH; [exact Hall| |exact Hrun]. by eapply timely_inv_step.
Qed.

Lemma reconcile_marketplace_merge_all x mkt orders :
  (∀ chunk, chunk_times_out x mkt chunk = false) →
  reconcile_marketplace x mkt orders ∅ = merge_all (check_results x mkt orders).
Proof.
  intros Hto. unfold reconcile_marketplace, merge_all, check_results.
  rewrite fold_left_map_calls.
  generalize (∅ : gmap string InterfaceResult).
  induction (chunks EXTERNAL_CHUNK_SIZE _) as [|c cs IH]; intros acc; [reflexivity|].
  simpl. unfold check_chunk at 2. rewrite Hto. apply IH.
Qed.

Lemma run_cons ev schedule st st1 :
  Watchdog.step ev st = Some st1 →
  Watchdog.run (ev :: schedule) st = Watchdog.run schedule st1.
Proof. intros H. simpl. by rewrite H. Qed.

Lemma timely_schedule_timely n : ∀ first, forallb timely (timely_schedule first n) = true.
Proof. induction n as [|n IH]; intros first; [reflexivity|]. simpl. apply IH. Qed.

(** The schedule in which every check returns in time runs the loop to
    its end. *)
Lemma timely_schedule_runs pending : ∀ first chunk timeout tm fired merged,
  ∃ st, Watchdog.run (timely_schedule first (length pending))
          {| Watchdog.pc := Watchdog.AtReset; Watchdog.chunk_no := first;
             Watchdog.pending := pending; Watchdog.chunk_interface_results := chunk;
             Watchdog.timeout_occurred := timeout; Watchdog.timer := tm;
             Watchdog.running := []; Watchdog.watchdog_fired_first := fired;
             Watchdog.interface_results := merged |} = Some st
        ∧ Watchdog.pc st = Watchdog.Finished.
Proof.
  induction pending as [|res rest IH]; intros first chunk timeout tm fired merged.
  - eexists. split; reflexivity.
  - simpl length. simpl timely_schedule.
    destruct (IH (S first) res false Watchdog.Cancelled fired (res ∪ merged)) as (st & Hrun & Hpc).
    exists st. split; [|exact Hpc].
    erewrite run_cons by reflexivity.
    erewrite run_cons by reflexivity.
    erewrite run_cons;
      [|simpl; rewrite Nat.eqb_refl; simpl; reflexivity].
    erewrite run_cons by reflexivity.
    erewrite run_cons by reflexivity.
    erewrite run_cons by reflexivity.
    erewrite run_cons by reflexivity.
    exact Hrun.
Qed.

(** X26. When no timer fires and no join times out, the threaded loop
    computes what the sequential reconciliation of one marketplace
    computes: if the loop ends, its merged results are those of
    [reconcile_marketplace]; and the schedule in which every check
    returns before the main thread joins it does end. *)
Theorem timely_watchdog_is_sequential x mkt orders :
  (∀ chunk, chunk_times_out x mkt chunk = false) →
  (∀ schedule st,
      forallb timely schedule = true →
      Watchdog.run schedule (Watchdog.initial (check_results x mkt orders)) = Some st →
      Watchdog.pc st = Watchdog.Finished →
      Watchdog.interface_results st = reconcile_marketplace x mkt orders ∅)
  ∧ ∃ st, Watchdog.run (timely_schedule 0 (length (check_results x mkt orders)))
            (Watchdog.initial (check_results x mkt orders)) = Some st
          ∧ Watchdog.pc st = Watchdog.Finished
          ∧ Watchdog.interface_results st = reconcile_marketplace x mkt orders ∅.
Proof.
  intros Hto.
  assert (Hseq : ∀ schedule st,
             forallb timely schedule = true →
             Watchdog.run schedule (Watchdog.initial (check_results x mkt orders)) = Some st →
             Watchdog.pc st = Watchdog.Finished →
             Watchdog.interface_results st = reconcile_marketplace x mkt orders ∅).
  { intros schedule st Hall Hrun Hpc.
    destruct (timely_inv_run _ _ _ _ Hall (timely_inv_initial _) Hrun) as (_ & done & Hi & Hd).
    rewrite Hpc in Hd. subst done.
    by rewrite Hi, (reconcile_marketplace_merge_all _ _ _ Hto). }
  split; [exact Hseq|].
  destruct (timely_schedule_runs (check_results x mkt orders) 0 ∅ false Watchdog.Idle [] ∅)
    as (st & Hrun & Hpc).
  exists st. split; [exact Hrun|]. split; [exact Hpc|].
  apply (Hseq _ _ (timely_schedule_timely _ _) Hrun Hpc).
Qed.

Lemma timely_watchdog_is_sequential_witness :
  ∃ st, Watchdog.run (timely_schedule 0
                        (length (check_results example_external "SHOPEE" [order_S100; order_S101])))
          (Watchdog.initial (check_results example_external "SHOPEE" [order_S100; order_S101]))
        = Some st
        ∧ Watchdog.interface_results st
          = reconcile_marketplace example_external "SHOPEE" [order_S100; order_S101] ∅.
Proof.
  destruct (timely_watchdog_is_sequential example_external "SHOPEE" [order_S100; order_S101])
    as [_ (st & Hrun & _ & Hres)]; [reflexivity|].
  exists st. split; [exact Hrun|exact Hres].
Defined.

(** ** The upload log *)

Lemma length_last_n {A} (n : nat) (l : list A) : length (last_n n l) = min n (length l).
Proof. unfold last_n. rewrite length_drop. lia. Qed.

Lemma last_drop_lt {A} (n : nat) (l : list A) :
  (n < length l)%nat → last (drop n l) = last l.
Proof.
  intros Hn. rewrite !last_lookup, lookup_drop, length_drop. f_equal. lia.
Qed.

(** Appending to the kept entries and truncating again keeps the last
    [n] of everything logged. *)
Lemma last_n_snoc {A} (n : nat) (l : list A) a :
  (0 < n)%nat →
  (if (n <? length (last_n n l ++ [a]))%nat
   then last_n n (last_n n l ++ [a]) else last_n n l ++ [a])
  = last_n n (l ++ [a]).
Proof.
  intros Hn. rewrite length_app, length_last_n. simpl length.
  destruct (Nat.ltb_spec n (min n (length l) + 1)) as [Hlt | Hge].
  - assert (n ≤ length l)%nat as Hl by lia.
    unfold last_n. rewrite !length_app, length_drop. simpl length.
    rewrite drop_app_le by (rewrite length_drop; lia).
    rewrite drop_drop. rewrite drop_app_le by lia. do 2 f_equal. lia.
  - assert (length l < n)%nat as Hl by lia.
    unfold last_n. rewrite length_app. simpl length.
    replace (length l - n)%nat with 0%nat by lia.
    replace (length l + 1 - n)%nat with 0%nat by lia. reflexivity.
Qed.

Lemma add_upload_log_other upload_logs task_id level message now tid :
  tid ≠ task_id →
  add_upload_log upload_logs task_id level message now !! tid = upload_logs !! tid.
Proof.
  intros Hne. unfold add_upload_log.
  destruct (upload_logs !! task_id) eqn:E;
    destruct (_ <? _)%nat; by rewrite !lookup_insert_ne.
Qed.

Lemma add_upload_log_same upload_logs task_id level message now :
  add_upload_log upload_logs task_id level message now !! task_id
  = Some (let entries := default [] (upload_logs !! task_id)
                         ++ [ {| log_timestamp := now; log_level := level;
                                 log_message := message |} ] in
          if (1000 <? length entries)%nat then last_n 1000 entries else entries).
Proof.
  unfold add_upload_log.
  destruct (upload_logs !! task_id) as [l|] eqn:E.
  - rewrite E. simpl. destruct (_ <? _)%nat; by rewrite lookup_insert_eq.
  - rewrite lookup_insert_eq. simpl. by rewrite lookup_insert_eq.
Qed.

Lemma logged_for_snoc tid calls c :
  logged_for tid (calls ++ [c])
  = logged_for tid calls
    ++ (if String.eqb (call_task_id c) tid
        then [ {| log_timestamp := call_now c; log_level := call_level c;
                  log_message := call_message c |} ]
        else []).
Proof.
  unfold logged_for. rewrite List.filter_app, map_app. simpl.
  by destruct (String.eqb (call_task_id c) tid).
Qed.

Lemma log_all_lookup calls tid :
  log_all calls !! tid
  = match logged_for tid calls with
    | [] => None
    | entries => Some (last_n 1000 entries)
    end.
Proof.
  induction calls as [|c calls IH] using rev_ind; [reflexivity|].
  unfold log_all in *. rewrite fold_left_app. simpl fold_left.
  rewrite logged_for_snoc.
  destruct (String.eqb_spec (call_task_id c) tid) as [<- | Hne].
  - rewrite add_upload_log_same, IH. cbv zeta.
    destruct (logged_for (call_task_id c) calls) as [|e l] eqn:Hl.
    + reflexivity.
    + simpl default. rewrite (last_n_snoc 1000 (e :: l)) by lia.
      by destruct (e :: l).
  - rewrite add_upload_log_other by done. rewrite IH, app_nil_r. reflexivity.
Qed.

(** X27. After any sequence of calls the log of a task holds the last
    1000 entries logged for it, oldest first, and no entry of another
    task: a task that has logged has a log of 1 to 1000 entries, the
    newest being its last call. *)
Theorem upload_log_keeps_last_1000 calls tid :
  log_all calls !! tid
  = match logged_for tid calls with
    | [] => None
    | entries => Some (last_n 1000 entries)
    end
  ∧ ∀ entries, log_all calls !! tid = Some entries →
      (0 < length entries ≤ 1000)%nat
      ∧ last entries = last (logged_for tid calls).
Proof.
  split; [apply log_all_lookup|].
  intros entries. rewrite log_all_lookup.
  destruct (logged_for tid calls) as [|e l] eqn:Hl; [discriminate|].
  intros [= <-]. rewrite length_last_n. simpl length. split; [lia|].
  unfold last_n. apply last_drop_lt. simpl. lia.
Qed.

Lemma upload_log_keeps_last_1000_witness :
  log_all [ {| call_task_id := "t1"; call_level := "info"; call_message := "Reading file...";
               call_now := "2024-01-05T10:15:00" |} ] !! "t1"
  = Some [ {| log_timestamp := "2024-01-05T10:15:00"; log_level := "info";
              log_message := "Reading file..." |} ].
Proof.
  rewrite (proj1 (upload_log_keeps_last_1000 _ "t1")). reflexivity.
Defined.

(** ** Rows fetched from the external system *)

Lemma unique_snoc l a :
  unique (l ++ [a]) = if Py.mem a (unique l) then unique l else unique l ++ [a].
Proof. unfold unique. by rewrite fold_left_app. Qed.

Lemma rows_of_snoc k rows r :
  rows_of k (rows ++ [r])
  = rows_of k rows ++ (if String.eqb (er_order_number r) k then [r] else []).
Proof. unfold rows_of. rewrite List.filter_app. simpl. by destruct (String.eqb _ k). Qed.

(** The non-empty item ids of the rows, without repetitions, in fetch
    order. *)
Lemma collect_row_other all_results r k :
  k ≠ er_order_number r → collect_row all_results r !! k = all_results !! k.
Proof.
  intros Hne. unfold collect_row.
  destruct (all_results !! er_order_number r) as [c|] eqn:E.
  - rewrite E. destruct (er_item_id_flexo r); [|reflexivity].
    destruct (_ && _); [by rewrite lookup_insert_ne|reflexivity].
  - rewrite lookup_insert_eq. destruct (er_item_id_flexo r); [|by rewrite lookup_insert_ne].
    destruct (_ && _); by rewrite !lookup_insert_ne.
Qed.

Lemma truthy_negb_eqb s : Py.truthy s = negb (String.eqb s "").
Proof. by destruct s. Qed.

Lemma collect_row_new all_results r :
  all_results !! er_order_number r = None →
  collect_row all_results r !! er_order_number r
  = Some {| col_system_ref_id := er_system_ref_id r;
            col_order_status := er_order_status r;
            col_item_id_flexo :=
              List.filter (λ s, negb (String.eqb s "")) (omap er_item_id_flexo [r]);
            col_interface_status := er_interface_status r |}.
Proof.
  intros E. unfold collect_row. rewrite E, lookup_insert_eq. cbn [omap list_omap].
  destruct (er_item_id_flexo r) as [item|]; [|by rewrite lookup_insert_eq].
  rewrite truthy_negb_eqb. cbn [List.filter col_item_id_flexo Py.mem existsb negb].
  destruct (negb (String.eqb item "")); cbn [andb]; by rewrite lookup_insert_eq.
Qed.

Lemma collect_row_old all_results r entry :
  all_results !! er_order_number r = Some entry →
  collect_row all_results r !! er_order_number r
  = Some {| col_system_ref_id := col_system_ref_id entry;
            col_order_status := col_order_status entry;
            col_item_id_flexo :=
              match List.filter (λ s, negb (String.eqb s "")) (omap er_item_id_flexo [r]) with
              | item :: _ =>
                  if Py.mem item (col_item_id_flexo entry) then col_item_id_flexo entry
                  else col_item_id_flexo entry ++ [item]
              | [] => col_item_id_flexo entry
              end;
            col_interface_status := col_interface_status entry |}.
Proof.
  intros E. unfold collect_row. rewrite !E. cbn [omap list_omap]. destruct entry as [a b items c].
  destruct (er_item_id_flexo r) as [item|]; [|exact E].
  rewrite truthy_negb_eqb. cbn [List.filter col_item_id_flexo col_system_ref_id col_order_status
                                 col_interface_status].
  destruct (negb (String.eqb item "")); cbn [andb]; [|exact E].
  destruct (Py.mem item items); cbn [negb]; [exact E|by rewrite lookup_insert_eq].
Qed.

Lemma head_app_Some {A} (l k : list A) a : head l = Some a → head (l ++ k) = Some a.
Proof. by destruct l. Qed.

Lemma unique_app_short l k :
  unique (l ++ k)
  = match k with
    | item :: _ => if Py.mem item (unique l) then unique l else unique l ++ [item]
    | [] => unique l
    end
  ∨ (∃ a b k', k = a :: b :: k').
Proof.
  destruct k as [|a [|b k']]; [left; by rewrite app_nil_r|left; apply unique_snoc|right; eauto].
Qed.

Lemma omap_single_short r :
  ∀ a b k', List.filter (λ s, negb (String.eqb s "")) (omap er_item_id_flexo [r]) ≠ a :: b :: k'.
Proof.
  intros a b k'. cbn [omap list_omap]. destruct (er_item_id_flexo r) as [item|]; [|discriminate].
  cbn [List.filter]. destruct (negb _); discriminate.
Qed.

Lemma collected_lookup rows : ∀ k,
  fold_left collect_row rows ∅ !! k
  = (λ r, {| col_system_ref_id := er_system_ref_id r;
             col_order_status := er_order_status r;
             col_item_id_flexo :=
               unique (List.filter (λ s, negb (String.eqb s ""))
                         (omap er_item_id_flexo (rows_of k rows)));
             col_interface_status := er_interface_status r |}) <$> head (rows_of k rows).
Proof.
  induction rows as [|r0 rows IH] using rev_ind; intros k; [reflexivity|].
  rewrite fold_left_app. cbn [fold_left]. rewrite rows_of_snoc.
  destruct (String.eqb_spec (er_order_number r0) k) as [<- | Hne].
  - specialize (IH (er_order_number r0)).
    destruct (head (rows_of (er_order_number r0) rows)) as [r|] eqn:Hh.
    + rewrite (head_app_Some _ _ _ Hh). cbn [fmap option_fmap option_map] in *.
      rewrite (collect_row_old _ _ _ IH). cbn [col_system_ref_id col_order_status
                                                col_item_id_flexo col_interface_status].
      do 2 f_equal. rewrite omap_app, List.filter_app.
      destruct (unique_app_short
                  (List.filter (λ s, negb (String.eqb s ""))
                     (omap er_item_id_flexo (rows_of (er_order_number r0) rows)))
                  (List.filter (λ s, negb (String.eqb s "")) (omap er_item_id_flexo [r0])))
        as [-> | (a & b & k' & Hk)]; [reflexivity|].
      by apply omap_single_short in Hk.
    + apply head_None in Hh. rewrite Hh in *. cbn [fmap option_fmap option_map] in IH.
      rewrite (collect_row_new _ _ IH). cbn [app head fmap option_fmap option_map].
      do 2 f_equal.
      destruct (unique_app_short []
                  (List.filter (λ s, negb (String.eqb s "")) (omap er_item_id_flexo [r0])))
        as [E | (a & b & k' & Hk)]; [|by apply omap_single_short in Hk].
      cbn [app] in E. rewrite E.
      cbn [omap list_omap]. destruct (er_item_id_flexo r0) as [item|]; [|reflexivity].
      cbn [List.filter]. by destruct (negb _).
  - rewrite collect_row_other by done. by rewrite IH, app_nil_r.
Qed.

(** X28. The dict built from the fetched rows has one entry per order
    number that occurs in them; the entry takes its foreign order number,
    status and interface status from the first row fetched for that
    number, and joins the distinct non-empty item ids of all its rows
    with commas (null when there is none). *)
Theorem collect_rows_spec rows k :
  collect_rows rows !! k
  = match rows_of k rows with
    | [] => None
    | r :: _ =>
        Some {| x_system_ref_id := er_system_ref_id r;
                x_order_status := er_order_status r;
                x_item_id_flexo := aggregate_skus (omap er_item_id_flexo (rows_of k rows));
                x_interface_status := er_interface_status r |}
    end.
Proof.
  unfold collect_rows. rewrite lookup_fmap, collected_lookup.
  destruct (rows_of k rows) as [|r g]; [reflexivity|].
  cbn [head fmap option_fmap option_map]. unfold finish_collected, aggregate_skus.
  cbn [col_system_ref_id col_order_status col_item_id_flexo col_interface_status].
  by destruct (unique _).
Qed.

(** ** What a run leaves alone *)

Lemma frame_inv_refl tid d : frame_inv tid d d.
Proof. by repeat split. Qed.

Lemma frame_set_task tid d0 f d :
  (∀ t, task_identity (f t) = task_identity t) →
  frame_inv tid d0 d → frame_inv tid d0 (set_task tid f d).
Proof.
  intros Hf (Hb & Hk & Ho & Hh). unfold set_task, with_tasks, frame_inv.
  split; [exact Hb|]. split; [|split; [|exact Hh]].
  - rewrite <- Hk. simpl. rewrite map_map. apply map_ext. intros t.
    by destruct (String.eqb (task_id t) tid).
  - rewrite <- Ho. unfold other_tasks. simpl. clear Hk Ho.
    induction (upload_tasks d) as [|t l IH]; [reflexivity|].
    simpl. destruct (String.eqb (task_id t) tid) eqn:E.
    + assert (task_id (f t) = task_id t) as Hid by (pose proof (Hf t) as H; by injection H).
      rewrite Hid, E. simpl. exact IH.
    + rewrite E. simpl. by rewrite IH.
Qed.

Lemma frame_with_history tid d0 x d :
  frame_inv tid d0 d → frame_inv tid d0 (with_history (λ h, h ++ [x]) d).
Proof.
  intros (Hb & Hk & Ho & Hh). unfold frame_inv, with_history, other_tasks. simpl.
  repeat split; auto. by apply prefix_app_r.
Qed.

Lemma frame_with_orders tid d0 g d :
  frame_inv tid d0 d → frame_inv tid d0 (with_orders g d).
Proof. intros H. exact H. Qed.

Lemma frame_insert_order tid d0 d rd d' :
  frame_inv tid d0 d → insert_order d rd = Some d' → frame_inv tid d0 d'.
Proof.
  intros H. unfold insert_order. destruct (number_taken _ _); [discriminate|].
  intros [= <-]. exact H.
Qed.

Lemma frame_bulk_insert tid d0 l : ∀ d d',
  frame_inv tid d0 d → bulk_insert_mappings d l = Some d' → frame_inv tid d0 d'.
Proof.
  induction l as [|rd l IH]; intros d d' H.
  - by intros [= <-].
  - change (bulk_insert_mappings d (rd :: l))
      with (match insert_order d rd with
            | Some d1 => bulk_insert_mappings d1 l
            | None => None
            end).
    destruct (insert_order d rd) as [d1|] eqn:E; [|discriminate].
    apply IH. by eapply frame_insert_order.
Qed.

Ltac frame_auto :=
  repeat first
    [ apply preserves_ret | apply preserves_raise | apply preserves_lift
    | apply preserves_inject | apply preserves_bind_task | apply preserves_db_view
    | apply inv_SessionLocal | apply inv_db_commit | apply inv_db_rollback
    | apply inv_record_calls
    | apply inv_db_modify; intros ? ?;
        first [ by apply frame_set_task | by apply frame_with_history
              | by apply frame_with_orders ]
    | apply inv_db_try; intros ? ? ? ?;
        first [ by eapply frame_insert_order | by eapply frame_bulk_insert ]
    | apply preserves_bind; [| intros ?]
    | match goal with |- preserves _ (match ?x with _ => _ end) => destruct x end ].

Lemma frame_insert_individually tid d0 l :
  preserves (db_inv (frame_inv tid d0)) (insert_individually l).
Proof. induction l as [|rd l IH]; simpl; frame_auto. exact IH. Qed.

(** The task handed from [start] to the later segments is null or the
    run's own row. *)
Lemma frame_ingest tid d0 r b :
  preserves (db_inv (frame_inv tid d0)) (ingest r (if b : bool then Some tid else None)).
Proof. unfold ingest, read_file, fail_task. destruct b; frame_auto. Qed.

Lemma frame_persist tid d0 r b fi mp df :
  preserves (db_inv (frame_inv tid d0)) (persist r (if b : bool then Some tid else None) fi mp df).
Proof.
  unfold persist, finalize, insert_new. destruct b; frame_auto;
    apply frame_insert_individually.
Qed.

Lemma frame_start r w :
  session w = None →
  db_inv (frame_inv (run_task_id r) (committed w))
         (world (start r {| world := w; task_var := None |}).2)
  ∧ ((start r {| world := w; task_var := None |}).1
     = Ok (if bool_decide (is_Some (find_task (run_task_id r) (committed w)))
           then Some (run_task_id r) else None)
     ∧ task_var (start r {| world := w; task_var := None |}).2
       = Some (if bool_decide (is_Some (find_task (run_task_id r) (committed w)))
               then Some (run_task_id r) else None)
     ∨ (∃ e, (start r {| world := w; task_var := None |}).1 = Raise e)
       ∧ task_var (start r {| world := w; task_var := None |}).2 = None).
Proof.
  intros Hs. unfold start. msimpl.
  destruct (run_fault r OpenSession) as [e|]; msimpl.
  { split; [|right; eauto]. unfold db_inv, view. rewrite Hs. split; apply frame_inv_refl. }
  destruct (run_fault r LoadTask) as [e|]; msimpl.
  { split; [|right; eauto]. split; apply frame_inv_refl. }
  destruct (find_task (run_task_id r) (committed w)) as [t|] eqn:E; msimpl.
  - rewrite (find_task_id _ _ _ E).
    split; [|by left].
    split; simpl; apply frame_set_task; auto using frame_inv_refl.
  - split; [|by left].
    split; apply frame_inv_refl.
Qed.

Lemma process_frame r w :
  session w = None →
  frame_inv (run_task_id r) (committed w) (committed (process_upload_background r w).2).
Proof.
  intros Hs.
  unfold process_upload_background, pipeline.
  destruct (frame_start r w Hs) as [Hinv Hres].
  unfold mbind at 1, M_bind at 1.
  destruct (start r {| world := w; task_var := None |}) as [[task|e] fr1] eqn:Hstart;
    simpl in Hinv, Hres.
  - destruct Hres as [[[= ->] Htv] | [[e [=]] _]].
    set (b := bool_decide (is_Some (find_task (run_task_id r) (committed w)))) in *.
    pose proof (preserves_bind _ _ _
                  (frame_ingest (run_task_id r) (committed w) r b)
                  (λ x, frame_persist (run_task_id r) (committed w) r b x.1.1 x.1.2 x.2)
                  fr1 Hinv) as Hp.
    pose proof (keeps_bind _ _ (keeps_ingest r (if b then Some (run_task_id r) else None))
                  (λ x, keeps_persist r (if b then Some (run_task_id r) else None)
                                      x.1.1 x.1.2 x.2) fr1) as Hk.
    destruct ((ingest r (if b then Some (run_task_id r) else None) ≫= _) fr1)
      as [[res|e] fr3]; simpl in *.
    + by apply inv_release in Hp as [Hp _].
    + apply (inv_release (frame_inv (run_task_id r) (committed w))).
      unfold handle_failure. rewrite Hk, Htv. destruct b; [|exact Hp].
      destruct Hp as [Hc Hv]. simpl. unfold commit_world, view. simpl.
      split; apply frame_set_task; auto.
  - destruct Hres as [[[=] _] | [_ Htv]]. simpl.
    apply (inv_release (frame_inv (run_task_id r) (committed w))).
    unfold handle_failure. rewrite Htv. exact Hinv.
Qed.

(** X29. Whatever a run does and however it ends, it leaves the shop
    keys as they are, adds and removes no task row, changes no column
    that identifies an upload (task id, file name, marketplace, brand,
    batch, user), changes no task row of another task at all, keeps
    every upload-history row, and closes its session. *)
Theorem run_frame r w :
  session w = None →
  frame_inv (run_task_id r) (committed w) (committed (process_upload_background r w).2)
  ∧ session (process_upload_background r w).2 = None.
Proof. intros Hs. split; [by apply process_frame|apply process_releases]. Qed.

Lemma run_frame_witness :
  other_tasks "t1" (committed (process_upload_background (example_run "t1" (Ok example_df))
                                 example_world).2)
  = [example_task "t2"].
Proof.
  destruct (run_frame (example_run "t1" (Ok example_df)) example_world eq_refl)
    as [(_ & _ & Ho & _) _].
  etransitivity; [exact Ho|reflexivity].
Defined.

(** ** The status endpoint after a run *)






